(** * gotemplate: the authentication and ownership core, embedded in Rocq

    The Go services are translated function by function.  Everything the
    services reach through a third-party package (GORM over PostgreSQL,
    golang-jwt, bcrypt, the wall clock) is an explicit argument or an
    explicit piece of state:

    - the relational store is a value of type [DB], threaded through every
      repository and service call;
    - each [time.Now()] read is an argument of the call that performs it;
    - bcrypt and the HMAC primitive are operations of the classes [Bcrypt]
      and [HMAC], so every theorem holds for any implementation of them;
    - of a request the handlers see the [Authorization] header, the path
      parameter, the value under "userID" and the outcome of the body
      binding; the decoding of a token string is the operation of the class
      [TokenReader];
    - log statements have no effect on results and are left out. *)

From Stdlib Require Import List String Ascii ZArith NArith Bool Lia.
From Stdlib Require Import Floats DecimalString DecimalPos DecimalN.
Import ListNotations.

#[local] Set Warnings "-inexact-float".
#[local] Open Scope string_scope.

(** ** Go values *)

(** Go [uint], 64 bits wide.  Identifiers are only compared, printed and
    stored by the Go code; no arithmetic is performed on them, so no
    wrap-around arises and the width is not represented. *)
Definition uint := N.

(** [time.Time] and [time.Duration], both in nanoseconds; a [Time] counts
    from the Unix epoch. *)
Definition Time := Z.
Definition Duration := Z.

(** The zero [time.Time] (January 1, year 1, UTC). *)
Definition zeroTime : Time := (-62135596800000000000)%Z.

(** A Go [error] is observed through [err.Error()] only (the HTTP handlers
    compare that text), so a non-nil error is its message. *)
Definition error := string.

(** The result of a Go function returning a pointer and an [error]. *)
Inductive result (A : Type) : Type :=
| Ok (a : A)
| Err (e : error).
Arguments Ok {A} a.
Arguments Err {A} e.

Definition isOk {A} (r : result A) : bool :=
  match r with Ok _ => true | Err _ => false end.

Definition isNil {A} (e : option A) : bool :=
  match e with None => true | Some _ => false end.

Module fmt.

(** [fmt.Sprintf("%d", n)] on an unsigned integer. *)
Definition Sprintf_d (n : uint) : string :=
  NilZero.string_of_uint (N.to_uint n).

(** The text the verb [%w] (or [%v]) produces for an [error] operand: the
    message, or the bad-verb marker when the operand is a nil interface. *)
Definition verb_w (e : option error) : string :=
  match e with
  | Some msg => msg
  | None => "%!w(<nil>)"
  end.

End fmt.

(** ** GORM *)

Module gorm.

(** Error values a statement can carry.  [ErrRecordNotFound] is the package
    level sentinel the repositories compare against with [==]; every other
    error comes from the driver. *)
Inductive Error_ : Type :=
| ErrRecordNotFound
| ErrDriver (msg : string).

Definition Error_msg (e : Error_) : error :=
  match e with
  | ErrRecordNotFound => "record not found"
  | ErrDriver msg => msg
  end.

(** [err == gorm.ErrRecordNotFound] *)
Definition isErrRecordNotFound (e : option Error_) : bool :=
  match e with
  | Some ErrRecordNotFound => true
  | _ => false
  end.

Definition asError (e : option Error_) : option error :=
  option_map Error_msg e.

(** The [*gorm.DB] returned by [Raw(...).Scan(dest)] or [Exec(...)], with the
    value left in [dest]. *)
Record Stmt (A : Type) : Type := mkStmt {
  dest : A;
  Error : option Error_;
  RowsAffected : Z
}.
Arguments mkStmt {A}.
Arguments dest {A}.
Arguments Error {A}.
Arguments RowsAffected {A}.

End gorm.

(** ** golang-jwt (v5) *)

Module jwt.

(** The signing methods the package registers. *)
Inductive SigningMethod : Type :=
| HS256 | HS384 | HS512
| RS256 | RS384 | RS512
| ES256 | ES384 | ES512
| PS256 | PS384 | PS512
| EdDSA
| none.

(** [method.Alg()] *)
Definition Alg (m : SigningMethod) : string :=
  match m with
  | HS256 => "HS256" | HS384 => "HS384" | HS512 => "HS512"
  | RS256 => "RS256" | RS384 => "RS384" | RS512 => "RS512"
  | ES256 => "ES256" | ES384 => "ES384" | ES512 => "ES512"
  | PS256 => "PS256" | PS384 => "PS384" | PS512 => "PS512"
  | EdDSA => "EdDSA"
  | none => "none"
  end.

(** The type assertion of a method to [SigningMethodHMAC]. *)
Definition isSigningMethodHMAC (m : SigningMethod) : bool :=
  match m with
  | HS256 | HS384 | HS512 => true
  | _ => false
  end.

Definition Second : Duration := 1000000000%Z.

(** [t.Truncate(d)] for a positive [d] that divides the epoch offset. *)
Definition Truncate (t : Time) (d : Duration) : Time := (t - t mod d)%Z.

(** [jwt.NewNumericDate(t)]: a [*NumericDate] truncated to [TimePrecision],
    one second by default. *)
Definition NewNumericDate (t : Time) : option Time :=
  Some (Truncate t Second).

(** [jwt.RegisteredClaims], restricted to the members this program sets.  A
    nil [*NumericDate] is [None]. *)
Record RegisteredClaims : Type := mkRegisteredClaims {
  Issuer : string;
  Subject : string;
  ExpiresAt : option Time;
  NotBefore : option Time;
  IssuedAt : option Time
}.

(** The part of the [jwt.Claims] interface the validator calls. *)
Class Claims (C : Type) : Type := {
  GetExpirationTime : C -> option Time;
  GetNotBefore : C -> option Time
}.

#[export] Instance RegisteredClaims_Claims : Claims RegisteredClaims := {
  GetExpirationTime := ExpiresAt;
  GetNotBefore := NotBefore
}.

(** [crypto/hmac] with the hash of the signing method: the MAC, under a key,
    of the first two segments of a token.  The segments are identified with
    the header and the claim set they encode. *)
Class HMAC (C : Type) : Type :=
  hmacSum : SigningMethod -> string -> C -> string.

(** A compact serialization as the parser sees it.  [Malformed] stands for
    every string [ParseUnverified] rejects (not three segments, a segment
    that is not base64url, a header or claim set that is not the expected
    JSON, an algorithm that is not registered); [Compact] for three segments
    that decode to a header naming [alg], to a claim set and to a
    signature. *)
Inductive tokenString (C : Type) : Type :=
| Malformed (raw : string)
| Compact (alg : SigningMethod) (claims : C) (sig : string).
Arguments Malformed {C} raw.
Arguments Compact {C} alg claims sig.

(** [*jwt.Token] *)
Record Token (C : Type) : Type := mkToken {
  Method : SigningMethod;
  TokenClaims : C;
  Signature : string;
  Valid : bool
}.
Arguments mkToken {C}.
Arguments Method {C}.
Arguments TokenClaims {C}.
Arguments Signature {C}.
Arguments Valid {C}.

(** [jwt.NewWithClaims(method, claims)] *)
Definition NewWithClaims {C} (method : SigningMethod) (claims : C) : Token C :=
  mkToken method claims "" false.

(** [method.Sign(signingString, key)] with a [[]byte] key: only the HMAC
    methods accept such a key. *)
Definition Sign {C} `{HMAC C} (m : SigningMethod) (claims : C) (key : string)
  : result string :=
  if isSigningMethodHMAC m then Ok (hmacSum m key claims)
  else Err "key is of invalid type".

(** [method.Verify(signingString, sig, key)] with a [[]byte] key. *)
Definition Verify {C} `{HMAC C} (m : SigningMethod) (claims : C)
  (sig key : string) : option error :=
  if isSigningMethodHMAC m then
    if String.eqb sig (hmacSum m key claims) then None
    else Some "signature is invalid"
  else Some "key is of invalid type".

(** [token.SignedString(key)] *)
Definition SignedString {C} `{HMAC C} (t : Token C) (key : string)
  : result (tokenString C) :=
  match Sign (Method t) (TokenClaims t) key with
  | Err e => Err e
  | Ok sig => Ok (Compact (Method t) (TokenClaims t) sig)
  end.

(** [Validator.verifyExpiresAt]: the claim is optional; when present the
    token is good strictly before it ([cmp.Before(exp)], no leeway). *)
Definition verifyExpiresAt {C} `{Claims C} (claims : C) (cmp : Time)
  : option error :=
  match GetExpirationTime claims with
  | None => None
  | Some exp => if (cmp <? exp)%Z then None else Some "token is expired"
  end.

(** [Validator.verifyNotBefore]: optional; when present the token is good
    from it on ([!cmp.Before(nbf)]). *)
Definition verifyNotBefore {C} `{Claims C} (claims : C) (cmp : Time)
  : option error :=
  match GetNotBefore claims with
  | None => None
  | Some nbf => if (cmp <? nbf)%Z then Some "token is not valid yet" else None
  end.

Definition joinErrors (errs : list error) : string := String.concat ", " errs.

Definition errList (e : option error) : list error :=
  match e with Some m => [m] | None => [] end.

(** [Validator.Validate(claims)] with the default options: expiry and
    not-before are checked against [now], issued-at is not. *)
Definition Validate {C} `{Claims C} (now : Time) (claims : C) : option error :=
  match (errList (verifyExpiresAt claims now)
         ++ errList (verifyNotBefore claims now))%list with
  | [] => None
  | errs => Some (joinErrors errs)
  end.

(** [jwt.ParseWithClaims(tokenString, claims, keyFunc)]; [now] is the clock
    read of the validator. *)
Definition ParseWithClaims {C} `{Claims C} `{HMAC C} (now : Time)
  (ts : tokenString C) (keyFunc : Token C -> result string)
  : result (Token C) :=
  match ts with
  | Malformed _ => Err "token is malformed"
  | Compact alg claims sig =>
      let token := mkToken alg claims sig false in
      match keyFunc token with
      | Err e =>
          Err ("token is unverifiable: error while executing keyfunc: " ++ e)
      | Ok key =>
          match Verify alg claims sig key with
          | Some e => Err ("token signature is invalid: " ++ e)
          | None =>
              match Validate now claims with
              | Some e => Err ("token has invalid claims: " ++ e)
              | None => Ok (mkToken alg claims sig true)
              end
          end
      end
  end.

End jwt.

(** ** pkg/auth *)

Module auth.

(** [auth.Claims]: [UserID] next to the embedded registered claims. *)
Record Claims : Type := mkClaims {
  UserID : string;
  Registered : jwt.RegisteredClaims
}.

#[export] Instance Claims_Claims : jwt.Claims Claims := {
  jwt.GetExpirationTime := fun c => jwt.ExpiresAt (Registered c);
  jwt.GetNotBefore := fun c => jwt.NotBefore (Registered c)
}.

Record JWTManager : Type := mkJWTManager {
  secretKey : string;
  expiresInHour : Duration
}.

(** A token as it travels between the services and their callers. *)
Definition tokenString : Type := jwt.tokenString Claims.

(** The claim set [GenerateToken] builds.  The body reads the clock three
    times: for the expiry, for issued-at and for not-before. *)
Definition newClaims (jm : JWTManager) (nowExp nowIat nowNbf : Time)
  (userID : string) : Claims :=
  let expirationTime := (nowExp + expiresInHour jm)%Z in
  mkClaims userID
    (jwt.mkRegisteredClaims
       "*"
       userID
       (jwt.NewNumericDate expirationTime)
       (jwt.NewNumericDate nowNbf)
       (jwt.NewNumericDate nowIat)).

(** [GenerateToken] *)
Definition GenerateToken `{jwt.HMAC Claims} (jm : JWTManager)
  (nowExp nowIat nowNbf : Time) (userID : string) : result tokenString :=
  let claims := newClaims jm nowExp nowIat nowNbf userID in
  let token := jwt.NewWithClaims jwt.HS256 claims in
  match jwt.SignedString token (secretKey jm) with
  | Err err => Err ("failed to sign token: " ++ err)
  | Ok tokenString => Ok tokenString
  end.

(** The key function [ValidateToken] hands to the parser. *)
Definition keyFunc (jm : JWTManager) (token : jwt.Token Claims)
  : result string :=
  if negb (jwt.isSigningMethodHMAC (jwt.Method token)) then
    Err ("unexpected signing method: " ++ jwt.Alg (jwt.Method token))
  else Ok (secretKey jm).

(** [ValidateToken] *)
Definition ValidateToken `{jwt.HMAC Claims} (jm : JWTManager) (now : Time)
  (tokenString : tokenString) : result Claims :=
  match jwt.ParseWithClaims now tokenString (keyFunc jm) with
  | Err err => Err ("invalid token: " ++ err)
  | Ok token =>
      if negb (jwt.Valid token) then Err "token is invalid"
      else Ok (jwt.TokenClaims token)
  end.

End auth.

(** ** Models *)

Module models.

(** [models.User]: the embedded [gorm.Model] fields first.  [DeletedAt] is
    never selected nor written by the raw SQL of the repositories.  The
    struct tags declare [Username] and [Email] "unique;not null" and
    [Password] "not null". *)
Record User : Type := mkUser {
  User_ID : uint;
  User_CreatedAt : Time;
  User_UpdatedAt : Time;
  Username : string;
  Email : string;
  Password : string
}.

(** [&models.User{}] *)
Definition zeroUser : User := mkUser 0%N zeroTime zeroTime "" "" "".

(** [models.Product].  The belongs-to field [User] is never loaded by the
    repositories and is not represented; with [UserID] it makes [user_id] a
    foreign key to [users].  The struct tags declare [Name] "not null",
    [Price] "not null;check:price > 0" and [UserID] "not null". *)
Record Product : Type := mkProduct {
  Product_ID : uint;
  Product_CreatedAt : Time;
  Product_UpdatedAt : Time;
  Name : string;
  Description : string;
  Price : float;
  UserID : uint
}.

(** [&models.Product{}] *)
Definition zeroProduct : Product :=
  mkProduct 0%N zeroTime zeroTime "" "" 0%float 0%N.

Record RegisterRequest : Type := mkRegisterRequest {
  reg_Username : string;
  reg_Email : string;
  reg_Password : string
}.

Record LoginRequest : Type := mkLoginRequest {
  login_Email : string;
  login_Password : string
}.

Record LoginResponse : Type := mkLoginResponse {
  Token : auth.tokenString
}.

Record AddProductRequest : Type := mkAddProductRequest {
  add_Name : string;
  add_Description : string;
  add_Price : float
}.

Record UpdateProductRequest : Type := mkUpdateProductRequest {
  upd_Name : string;
  upd_Description : string;
  upd_Price : float
}.

End models.
Import models.

(** ** The PostgreSQL store behind [*gorm.DB] *)

Module database.

(** The two tables [AutoMigrate] creates from the models, in row order, the
    sequences that feed their [id] columns, and the state of the connection:
    [outage = Some msg] is a store every statement fails against with driver
    message [msg]. *)
Record DB : Type := mkDB {
  users : list User;
  products : list Product;
  users_id_seq : N;
  products_id_seq : N;
  outage : option string
}.

Definition emptyDB : DB := mkDB [] [] 0%N 0%N None.

Definition failed {A} (zero : A) (msg : string) : gorm.Stmt A :=
  gorm.mkStmt zero (Some (gorm.ErrDriver msg)) 0.

Definition violates (constraint : string) : string :=
  "ERROR: violates constraint " ++ constraint.

(** [price > 0], the check constraint of [products], as PostgreSQL orders
    numbers: NaN sorts above every other value. *)
Definition check_price (p : float) : bool :=
  PrimFloat.ltb 0 p || PrimFloat.is_nan p.

Definition hasUserID (id : uint) (u : User) : bool :=
  N.eqb (User_ID u) id.
Definition hasUsername (s : string) (u : User) : bool :=
  String.eqb (Username u) s.
Definition hasEmail (s : string) (u : User) : bool :=
  String.eqb (Email u) s.
Definition hasProductID (id : uint) (p : Product) : bool :=
  N.eqb (Product_ID p) id.
Definition ownedBy (id : uint) (p : Product) : bool :=
  N.eqb (UserID p) id.

(** [INSERT INTO users (username, email, password, created_at, updated_at)
    VALUES (?, ?, ?, ?, ?) RETURNING id], scanned into a [uint].  The
    sequence is advanced before the constraints are checked and keeps its
    new value when the row is refused.  [users] has a primary key on [id]
    and unique constraints on [username] and [email]. *)
Definition insert_user (db : DB) (username email password : string)
  (created_at updated_at : Time) : DB * gorm.Stmt uint :=
  match outage db with
  | Some msg => (db, failed 0%N msg)
  | None =>
      let id := N.succ (users_id_seq db) in
      let db1 := mkDB (users db) (products db) id (products_id_seq db) None in
      if existsb (hasUserID id) (users db) then
        (db1, failed 0%N (violates "users_pkey"))
      else if existsb (hasUsername username) (users db) then
        (db1, failed 0%N (violates "uni_users_username"))
      else if existsb (hasEmail email) (users db) then
        (db1, failed 0%N (violates "uni_users_email"))
      else
        let row := mkUser id created_at updated_at username email password in
        (mkDB (users db ++ [row]) (products db) id (products_id_seq db) None,
         gorm.mkStmt id None 1)
  end.

(** [SELECT id, username, email, password, created_at, updated_at FROM users
    WHERE email = ?], scanned into a zero [User].  [Scan] copies the first
    row when there is one; with no row it reports no error and leaves the
    destination as it was. *)
Definition select_user_by_email (db : DB) (email : string) : gorm.Stmt User :=
  match outage db with
  | Some msg => failed zeroUser msg
  | None =>
      match find (hasEmail email) (users db) with
      | Some row => gorm.mkStmt row None 1
      | None => gorm.mkStmt zeroUser None 0
      end
  end.

(** [SELECT ... FROM users WHERE id = ?], scanned into a zero [User]. *)
Definition select_user_by_id (db : DB) (id : uint) : gorm.Stmt User :=
  match outage db with
  | Some msg => failed zeroUser msg
  | None =>
      match find (hasUserID id) (users db) with
      | Some row => gorm.mkStmt row None 1
      | None => gorm.mkStmt zeroUser None 0
      end
  end.

(** [INSERT INTO products (name, description, price, user_id, created_at,
    updated_at) VALUES (?, ?, ?, ?, ?, ?) RETURNING id].  [products] has a
    primary key on [id], the check [price > 0] and a foreign key from
    [user_id] to [users]. *)
Definition insert_product (db : DB) (name description : string)
  (price : float) (user_id : uint) (created_at updated_at : Time)
  : DB * gorm.Stmt uint :=
  match outage db with
  | Some msg => (db, failed 0%N msg)
  | None =>
      let id := N.succ (products_id_seq db) in
      let db1 := mkDB (users db) (products db) (users_id_seq db) id None in
      if existsb (hasProductID id) (products db) then
        (db1, failed 0%N (violates "products_pkey"))
      else if negb (check_price price) then
        (db1, failed 0%N (violates "chk_products_price"))
      else if negb (existsb (hasUserID user_id) (users db)) then
        (db1, failed 0%N (violates "fk_products_user"))
      else
        let row :=
          mkProduct id created_at updated_at name description price user_id in
        (mkDB (users db) (products db ++ [row]) (users_id_seq db) id None,
         gorm.mkStmt id None 1)
  end.

(** [SELECT id, name, description, price, user_id, created_at, updated_at
    FROM products WHERE id = ?], scanned into a zero [Product]. *)
Definition select_product_by_id (db : DB) (id : uint) : gorm.Stmt Product :=
  match outage db with
  | Some msg => failed zeroProduct msg
  | None =>
      match find (hasProductID id) (products db) with
      | Some row => gorm.mkStmt row None 1
      | None => gorm.mkStmt zeroProduct None 0
      end
  end.

(** [SELECT ... FROM products WHERE user_id = ?], scanned into a slice. *)
Definition select_products_by_user_id (db : DB) (user_id : uint)
  : gorm.Stmt (list Product) :=
  match outage db with
  | Some msg => failed [] msg
  | None =>
      let rows := filter (ownedBy user_id) (products db) in
      gorm.mkStmt rows None (Z.of_nat (List.length rows))
  end.

Definition set_product (name description : string) (price : float)
  (updated_at : Time) (id : uint) (p : Product) : Product :=
  if hasProductID id p then
    mkProduct (Product_ID p) (Product_CreatedAt p) updated_at
              name description price (UserID p)
  else p.

(** [UPDATE products SET name = ?, description = ?, price = ?, updated_at = ?
    WHERE id = ?].  The check constraint is evaluated on the rows the
    statement rewrites. *)
Definition update_product (db : DB) (name description : string)
  (price : float) (updated_at : Time) (id : uint) : DB * gorm.Stmt unit :=
  match outage db with
  | Some msg => (db, failed tt msg)
  | None =>
      let n := List.length (filter (hasProductID id) (products db)) in
      if negb (Nat.eqb n 0) && negb (check_price price) then
        (db, failed tt (violates "chk_products_price"))
      else
        (mkDB (users db)
              (map (set_product name description price updated_at id)
                   (products db))
              (users_id_seq db) (products_id_seq db) None,
         gorm.mkStmt tt None (Z.of_nat n))
  end.

(** [DELETE FROM products WHERE id = ?] *)
Definition delete_product (db : DB) (id : uint) : DB * gorm.Stmt unit :=
  match outage db with
  | Some msg => (db, failed tt msg)
  | None =>
      let n := List.length (filter (hasProductID id) (products db)) in
      (mkDB (users db)
            (filter (fun p => negb (hasProductID id p)) (products db))
            (users_id_seq db) (products_id_seq db) None,
       gorm.mkStmt tt None (Z.of_nat n))
  end.

End database.
Import database.

(** ** internal/repository *)

Module repository.

(** [postgresUserRepository.CreateUser]: returns the error and the user
    with the identifier the statement wrote into it. *)
Definition CreateUser (db : DB) (created_at updated_at : Time) (user : User)
  : DB * User * option error :=
  let '(db', result) :=
    insert_user db (Username user) (Email user) (Password user)
                created_at updated_at in
  let newID := gorm.dest result in
  match gorm.Error result with
  | Some e => (db', user, Some ("failed to create user: " ++ gorm.Error_msg e))
  | None =>
      (db',
       mkUser newID (User_CreatedAt user) (User_UpdatedAt user)
              (Username user) (Email user) (Password user),
       None)
  end.

(** [postgresUserRepository.GetUserByEmail] *)
Definition GetUserByEmail (db : DB) (email : string) : result User :=
  let result := select_user_by_email db email in
  let user := gorm.dest result in
  if negb (isNil (gorm.Error result)) || N.eqb (User_ID user) 0 then
    if gorm.isErrRecordNotFound (gorm.Error result) then
      Err ("user not found with email " ++ email)
    else
      Err ("database error retrieving user by email: "
           ++ fmt.verb_w (gorm.asError (gorm.Error result)))
  else Ok user.

(** [postgresUserRepository.GetUserByID] *)
Definition GetUserByID (db : DB) (id : uint) : result User :=
  let result := select_user_by_id db id in
  let user := gorm.dest result in
  match gorm.Error result with
  | Some e =>
      if gorm.isErrRecordNotFound (gorm.Error result) then
        Err ("user not found with ID " ++ fmt.Sprintf_d id)
      else
        Err ("database error retrieving user by ID: " ++ gorm.Error_msg e)
  | None => Ok user
  end.

(** [postgresProductRepository.AddProduct] *)
Definition AddProduct (db : DB) (created_at updated_at : Time)
  (product : Product) : DB * Product * option error :=
  let '(db', result) :=
    insert_product db (Name product) (Description product) (Price product)
                   (UserID product) created_at updated_at in
  let newID := gorm.dest result in
  match gorm.Error result with
  | Some e =>
      (db', product, Some ("failed to add product: " ++ gorm.Error_msg e))
  | None =>
      (db',
       mkProduct newID (Product_CreatedAt product) (Product_UpdatedAt product)
                 (Name product) (Description product) (Price product)
                 (UserID product),
       None)
  end.

(** [postgresProductRepository.GetProductByID] *)
Definition GetProductByID (db : DB) (id : uint) : result Product :=
  let result := select_product_by_id db id in
  let product := gorm.dest result in
  match gorm.Error result with
  | Some e =>
      if gorm.isErrRecordNotFound (gorm.Error result) then
        Err ("product not found with ID " ++ fmt.Sprintf_d id)
      else
        Err ("database error retrieving product by ID: " ++ gorm.Error_msg e)
  | None => Ok product
  end.

(** [postgresProductRepository.GetProductsByUserID] *)
Definition GetProductsByUserID (db : DB) (userID : uint)
  : result (list Product) :=
  let result := select_products_by_user_id db userID in
  match gorm.Error result with
  | Some e => Err ("failed to get products by user ID: " ++ gorm.Error_msg e)
  | None => Ok (gorm.dest result)
  end.

(** [postgresProductRepository.UpdateProduct] *)
Definition UpdateProduct (db : DB) (now : Time) (product : Product)
  : DB * option error :=
  let '(db', result) :=
    update_product db (Name product) (Description product) (Price product)
                   now (Product_ID product) in
  match gorm.Error result with
  | Some e => (db', Some ("failed to update product: " ++ gorm.Error_msg e))
  | None =>
      if Z.eqb (gorm.RowsAffected result) 0 then
        (db', Some ("product with ID " ++ fmt.Sprintf_d (Product_ID product)
                    ++ " not found for update (raw SQL)"))
      else (db', None)
  end.

(** [postgresProductRepository.DeleteProduct] *)
Definition DeleteProduct (db : DB) (id : uint) : DB * option error :=
  let '(db', result) := delete_product db id in
  match gorm.Error result with
  | Some e => (db', Some ("failed to delete product: " ++ gorm.Error_msg e))
  | None =>
      if Z.eqb (gorm.RowsAffected result) 0 then
        (db', Some ("product with ID " ++ fmt.Sprintf_d id
                    ++ " not found for deletion (raw SQL)"))
      else (db', None)
  end.

End repository.

(** ** golang.org/x/crypto/bcrypt *)

Module bcrypt.

Definition DefaultCost : Z := 10%Z.

(** The two operations the account service calls.  [GenerateFromPassword]
    draws a salt, here its first argument, and may fail;
    [CompareHashAndPassword] returns nil exactly on a match. *)
Class Bcrypt : Type := {
  GenerateFromPassword : string -> string -> Z -> result string;
  CompareHashAndPassword : string -> string -> option error
}.

(** The contract of the package: a hash it generated from a password
    compares equal to that password. *)
Class BcryptCorrect `{Bcrypt} : Prop :=
  compare_generated :
    forall salt password cost hash,
      GenerateFromPassword salt password cost = Ok hash ->
      CompareHashAndPassword hash password = None.

End bcrypt.

(** ** internal/service *)

Module service.

(** [userService.RegisterUser].  [salt] is the entropy bcrypt draws;
    [created_at] and [updated_at] are the clock reads of the insert. *)
Definition RegisterUser `{bcrypt.Bcrypt} (db : DB) (salt : string)
  (created_at updated_at : Time) (req : RegisterRequest) : DB * result User :=
  if isOk (repository.GetUserByEmail db (reg_Email req)) then
    (db, Err "user with this email already exists")
  else
    match bcrypt.GenerateFromPassword salt (reg_Password req)
                                      bcrypt.DefaultCost with
    | Err err => (db, Err ("failed to hash password: " ++ err))
    | Ok hashedPassword =>
        let user :=
          mkUser 0%N zeroTime zeroTime
                 (reg_Username req) (reg_Email req) hashedPassword in
        match repository.CreateUser db created_at updated_at user with
        | (db', _, Some err) => (db', Err ("failed to register user: " ++ err))
        | (db', user, None) => (db', Ok user)
        end
    end.

(** [userService.LoginUser].  The three times are the clock reads of
    [GenerateToken]. *)
Definition LoginUser `{bcrypt.Bcrypt} `{jwt.HMAC auth.Claims}
  (jm : auth.JWTManager) (db : DB) (nowExp nowIat nowNbf : Time)
  (req : LoginRequest) : result LoginResponse :=
  match repository.GetUserByEmail db (login_Email req) with
  | Err _ => Err "invalid credentials"
  | Ok user =>
      match bcrypt.CompareHashAndPassword (Password user)
                                          (login_Password req) with
      | Some _ => Err "invalid credentials"
      | None =>
          match auth.GenerateToken jm nowExp nowIat nowNbf
                                   (fmt.Sprintf_d (User_ID user)) with
          | Err err => Err ("failed to generate token: " ++ err)
          | Ok token => Ok (mkLoginResponse token)
          end
      end
  end.

(** [userService.GetUserProfile] *)
Definition GetUserProfile (db : DB) (userID : uint) : result User :=
  match repository.GetUserByID db userID with
  | Err err => Err ("user not found: " ++ err)
  | Ok user => Ok user
  end.

(** [productService.AddProduct] *)
Definition AddProduct (db : DB) (created_at updated_at : Time)
  (userID : uint) (req : AddProductRequest) : DB * result Product :=
  let product :=
    mkProduct 0%N zeroTime zeroTime
              (add_Name req) (add_Description req) (add_Price req) userID in
  match repository.AddProduct db created_at updated_at product with
  | (db', _, Some err) => (db', Err ("failed to add product: " ++ err))
  | (db', product, None) => (db', Ok product)
  end.

(** [productService.GetProduct] *)
Definition GetProduct (db : DB) (productID : uint) : result Product :=
  match repository.GetProductByID db productID with
  | Err err => Err ("product not found: " ++ err)
  | Ok product => Ok product
  end.

(** [productService.GetProductsByOwner] *)
Definition GetProductsByOwner (db : DB) (userID : uint)
  : result (list Product) :=
  match repository.GetProductsByUserID db userID with
  | Err err => Err ("failed to retrieve products: " ++ err)
  | Ok products => Ok products
  end.

(** The three assignments "update fields if provided" of [UpdateProduct]. *)
Definition applyPatch (product : Product) (req : UpdateProductRequest)
  : Product :=
  let product :=
    if negb (String.eqb (upd_Name req) "") then
      mkProduct (Product_ID product) (Product_CreatedAt product)
                (Product_UpdatedAt product) (upd_Name req)
                (Description product) (Price product) (UserID product)
    else product in
  let product :=
    if negb (String.eqb (upd_Description req) "") then
      mkProduct (Product_ID product) (Product_CreatedAt product)
                (Product_UpdatedAt product) (Name product)
                (upd_Description req) (Price product) (UserID product)
    else product in
  if negb (PrimFloat.eqb (upd_Price req) 0) then
    mkProduct (Product_ID product) (Product_CreatedAt product)
              (Product_UpdatedAt product) (Name product)
              (Description product) (upd_Price req) (UserID product)
  else product.

(** [productService.UpdateProduct]; [now] is the clock read of the
    repository's update. *)
Definition UpdateProduct (db : DB) (now : Time) (productID userID : uint)
  (req : UpdateProductRequest) : DB * result Product :=
  match repository.GetProductByID db productID with
  | Err err => (db, Err ("product not found: " ++ err))
  | Ok product =>
      if negb (N.eqb (UserID product) userID) then
        (db, Err "you are not authorized to update this product")
      else
        let product := applyPatch product req in
        match repository.UpdateProduct db now product with
        | (db', Some err) => (db', Err ("failed to update product: " ++ err))
        | (db', None) => (db', Ok product)
        end
  end.

(** [productService.DeleteProduct] *)
Definition DeleteProduct (db : DB) (productID userID : uint)
  : DB * option error :=
  match repository.GetProductByID db productID with
  | Err err => (db, Some ("product not found: " ++ err))
  | Ok product =>
      if negb (N.eqb (UserID product) userID) then
        (db, Some "you are not authorized to delete this product")
      else
        match repository.DeleteProduct db productID with
        | (db', Some err) => (db', Some ("failed to delete product: " ++ err))
        | (db', None) => (db', None)
        end
  end.

End service.

(** ** Error kinds *)

(** The services carry no error type: the kind of a failure can be read
    from its message only, and the HTTP handlers read it that way.
    [kindOf] gives, for the messages the services produce, the error kind
    the specification names. *)
Inductive ErrorKind : Type :=
| HashingError
| TokenError
| Conflict
| InvalidCredentials
| NotFound
| Forbidden
| Unclassified.

Definition kindOf (e : error) : ErrorKind :=
  if String.eqb e "user with this email already exists" then Conflict
  else if String.eqb e "invalid credentials" then InvalidCredentials
  else if String.eqb e "you are not authorized to update this product"
          || String.eqb e "you are not authorized to delete this product"
  then Forbidden
  else if String.prefix "product not found" e
          || String.prefix "user not found" e
  then NotFound
  else if String.prefix "invalid token" e
          || String.eqb e "token is invalid"
          || String.prefix "failed to sign token" e
          || String.prefix "failed to generate token" e
  then TokenError
  else if String.prefix "failed to hash password" e then HashingError
  else Unclassified.

(** What a caller observes of a call that returns a value and an error. *)
Definition failsWith {A} (r : result A) (k : ErrorKind) : Prop :=
  exists e, r = Err e /\ kindOf e = k.

(** The same for a call that returns only an error. *)
Definition errorIs (r : option error) (k : ErrorKind) : Prop :=
  exists e, r = Some e /\ kindOf e = k.

(** ** Stores that satisfy the schema *)

Fixpoint distinct {A} (eqb : A -> A -> bool) (l : list A) : bool :=
  match l with
  | [] => true
  | x :: l' => negb (existsb (eqb x) l') && distinct eqb l'
  end.

Definition idInRange (seq id : N) : bool := (0 <? id)%N && (id <=? seq)%N.

(** The constraints [AutoMigrate] declares, with identifiers drawn from the
    sequences: what holds of every store the services have built. *)
Definition wf (db : DB) : bool :=
  distinct N.eqb (map User_ID (users db))
  && distinct String.eqb (map Username (users db))
  && distinct String.eqb (map Email (users db))
  && forallb (fun u => idInRange (users_id_seq db) (User_ID u)) (users db)
  && distinct N.eqb (map Product_ID (products db))
  && forallb (fun p => idInRange (products_id_seq db) (Product_ID p))
             (products db)
  && forallb (fun p => check_price (Price p)) (products db)
  && forallb (fun p => existsb (hasUserID (UserID p)) (users db))
             (products db).

(** ** Runs of the service *)

(** One call of a service operation, or a change of the connection state
    between two calls. *)
Inductive Op : Type :=
| OpRegisterUser (salt : string) (created_at updated_at : Time)
    (req : RegisterRequest)
| OpLoginUser (jm : auth.JWTManager) (nowExp nowIat nowNbf : Time)
    (req : LoginRequest)
| OpGetUserProfile (userID : uint)
| OpAddProduct (created_at updated_at : Time) (userID : uint)
    (req : AddProductRequest)
| OpGetProduct (productID : uint)
| OpGetProductsByOwner (userID : uint)
| OpUpdateProduct (now : Time) (productID userID : uint)
    (req : UpdateProductRequest)
| OpDeleteProduct (productID userID : uint)
| EnvConnection (state : option string).

(** The store an operation leaves behind.  The read operations take no
    store result: they cannot change it. *)
Definition step `{bcrypt.Bcrypt} (db : DB) (op : Op) : DB :=
  match op with
  | OpRegisterUser salt created_at updated_at req =>
      fst (service.RegisterUser db salt created_at updated_at req)
  | OpAddProduct created_at updated_at userID req =>
      fst (service.AddProduct db created_at updated_at userID req)
  | OpUpdateProduct now productID userID req =>
      fst (service.UpdateProduct db now productID userID req)
  | OpDeleteProduct productID userID =>
      fst (service.DeleteProduct db productID userID)
  | EnvConnection state =>
      mkDB (users db) (products db) (users_id_seq db) (products_id_seq db)
           state
  | OpLoginUser _ _ _ _ _ | OpGetUserProfile _ | OpGetProduct _
  | OpGetProductsByOwner _ => db
  end.

Definition run `{bcrypt.Bcrypt} (db : DB) (ops : list Op) : DB :=
  fold_left step ops db.

(** ** The token validity window in the words of the specification *)

(** "well-formed, signed with an HMAC-family algorithm under the configured
    secret, and notBefore <= now <= expiresAt" *)
Definition specAccepts `{jwt.HMAC auth.Claims} (jm : auth.JWTManager)
  (now : Time) (ts : auth.tokenString) (claims : auth.Claims) : Prop :=
  exists alg sig nbf exp,
    ts = jwt.Compact alg claims sig
    /\ jwt.isSigningMethodHMAC alg = true
    /\ sig = jwt.hmacSum alg (auth.secretKey jm) claims
    /\ jwt.NotBefore (auth.Registered claims) = Some nbf
    /\ jwt.ExpiresAt (auth.Registered claims) = Some exp
    /\ (nbf <= now <= exp)%Z.

(** What the code checks: each bound applies when the token carries it, and
    the expiry bound is strict. *)
Definition notBeforeOk (claims : auth.Claims) (now : Time) : Prop :=
  forall nbf, jwt.NotBefore (auth.Registered claims) = Some nbf ->
              (nbf <= now)%Z.

Definition notExpired (claims : auth.Claims) (now : Time) : Prop :=
  forall exp, jwt.ExpiresAt (auth.Registered claims) = Some exp ->
              (now < exp)%Z.

Definition accepts `{jwt.HMAC auth.Claims} (jm : auth.JWTManager)
  (now : Time) (ts : auth.tokenString) (claims : auth.Claims) : Prop :=
  exists alg sig,
    ts = jwt.Compact alg claims sig
    /\ jwt.isSigningMethodHMAC alg = true
    /\ sig = jwt.hmacSum alg (auth.secretKey jm) claims
    /\ notBeforeOk claims now
    /\ notExpired claims now.

(** ** A partial update in the words of the specification *)

(** "Applies only the fields present/non-empty in patch": the row a patch
    turns a stored row into.  A field whose patch value is empty or zero
    keeps its stored value, the owner and the creation time are kept, and
    the update time is the time of the statement. *)
Definition patchedRow (p : Product) (patch : UpdateProductRequest)
  (now : Time) : Product :=
  mkProduct (Product_ID p) (Product_CreatedAt p) now
    (if String.eqb (upd_Name patch) "" then Name p else upd_Name patch)
    (if String.eqb (upd_Description patch) "" then Description p
     else upd_Description patch)
    (if PrimFloat.eqb (upd_Price patch) 0 then Price p else upd_Price patch)
    (UserID p).

(** ** strings, strconv *)

Module strings.

(** [strings.Split(s, sep)] for a separator of one byte: the pieces between
    the occurrences of [sep], one more than there are occurrences. *)
Fixpoint splitByte (sep : ascii) (s : string) : list string :=
  match s with
  | EmptyString => [EmptyString]
  | String c s' =>
      if Ascii.eqb c sep then EmptyString :: splitByte sep s'
      else
        match splitByte sep s' with
        | piece :: rest => String c piece :: rest
        | [] => [String c EmptyString]
        end
  end.

(** [strings.Split(s, " ")] *)
Definition Split (s : string) : list string := splitByte " "%char s.

End strings.

Module strconv.

Inductive NumError : Type :=
| ErrSyntax
| ErrRange.

(** [1<<64 - 1] *)
Definition maxUint64 : N := 18446744073709551615%N.

(** [maxUint64/10 + 1]: the least [n] whose product by 10 overflows. *)
Definition cutoff : N := (maxUint64 / 10 + 1)%N.

(** The value of a byte as a digit of base 10: decimal digits count, a
    letter has a value of 10 or more and is refused like any other byte. *)
Definition digit (c : ascii) : option N :=
  let b := N_of_ascii c in
  if (48 <=? b)%N && (b <=? 57)%N then Some (b - 48)%N else None.

(** The loop of [ParseUint] over the bytes, [n] being a [uint64]: the
    additions wrap around at 64 bits and the wrap is what the loop tests. *)
Fixpoint parseDigits (s : string) (n : N) : N + NumError :=
  match s with
  | EmptyString => inl n
  | String c s' =>
      match digit c with
      | None => inr ErrSyntax
      | Some d =>
          if (cutoff <=? n)%N then inr ErrRange
          else
            let n10 := ((n * 10) mod 2 ^ 64)%N in
            let n1 := ((n10 + d) mod 2 ^ 64)%N in
            if (n1 <? n10)%N || (maxUint64 <? n1)%N then inr ErrRange
            else parseDigits s' n1
      end
  end.

(** [strconv.ParseUint(s, 10, 64)] *)
Definition ParseUint (s : string) : N + NumError :=
  match s with
  | EmptyString => inr ErrSyntax
  | _ => parseDigits s 0%N
  end.

End strconv.

(** ** net/http and gin *)

Module http.

Definition StatusOK : Z := 200%Z.
Definition StatusCreated : Z := 201%Z.
Definition StatusNoContent : Z := 204%Z.
Definition StatusBadRequest : Z := 400%Z.
Definition StatusUnauthorized : Z := 401%Z.
Definition StatusForbidden : Z := 403%Z.
Definition StatusNotFound : Z := 404%Z.
Definition StatusConflict : Z := 409%Z.
Definition StatusInternalServerError : Z := 500%Z.

End http.

Module gin.

(** A value of type [interface{}] kept in the context: a string, or a value
    of another type. *)
Inductive any : Type :=
| anyString (s : string)
| anyOther.

(** What the middleware and the handlers read from a [*gin.Context]: the
    [Authorization] header (empty when absent), the path parameter [id], and
    the value stored under the key "userID". *)
Record Context : Type := mkContext {
  Authorization : string;
  Param_id : string;
  Keys_userID : option any
}.

(** [c.Set("userID", v)] *)
Definition Set_userID (c : Context) (v : any) : Context :=
  mkContext (Authorization c) (Param_id c) (Some v).

(** The values the handlers hand to [c.JSON]. *)
Inductive Body : Type :=
| H_error (msg : string)
| H_registered (message : string) (id : uint) (username email : string)
| H_profile (id : uint) (username email : string)
    (createdAt updatedAt : Time)
| J_product (p : Product)
| J_products (ps : list Product)
| J_login (res : LoginResponse)
| J_nil.

(** [c.JSON(status, body)] *)
Record Response : Type := mkResponse {
  Status : Z;
  Payload : Body
}.

End gin.

(** ** pkg/middleware *)

Module middleware.

(** What the token parser reads in a string: the decoding of its three
    segments, or that it does not decode. *)
Class TokenReader : Type :=
  readToken : string -> auth.tokenString.

(** [AuthMiddleware]: the response it aborts the request with, or the
    context it passes to the next handler.  [now] is the clock read of the
    token validator. *)
Definition AuthMiddleware `{jwt.HMAC auth.Claims} `{TokenReader}
  (jwtManager : auth.JWTManager) (now : Time) (c : gin.Context)
  : gin.Response + gin.Context :=
  let authHeader := gin.Authorization c in
  if String.eqb authHeader "" then
    inl (gin.mkResponse http.StatusUnauthorized
           (gin.H_error "Authorization header missing"))
  else
    let parts := strings.Split authHeader in
    if negb (Nat.eqb (List.length parts) 2)
       || negb (String.eqb (nth 0 parts "") "Bearer") then
      inl (gin.mkResponse http.StatusUnauthorized
             (gin.H_error "Invalid Authorization header format"))
    else
      let tokenString := nth 1 parts "" in
      match auth.ValidateToken jwtManager now (readToken tokenString) with
      | Err _ =>
          inl (gin.mkResponse http.StatusUnauthorized
                 (gin.H_error "Invalid or expired token"))
      | Ok claims =>
          inr (gin.Set_userID c (gin.anyString (auth.UserID claims)))
      end.

End middleware.

(** ** internal/handler *)

Module handler.

(** The lines every authenticated handler but [GetProduct] runs to obtain
    the caller: the value under "userID" must exist, be a string, and parse
    as a decimal [uint64], which is then converted to [uint] (of the same
    width). *)
Definition contextUserID (c : gin.Context) : gin.Response + uint :=
  match gin.Keys_userID c with
  | None =>
      inl (gin.mkResponse http.StatusInternalServerError
             (gin.H_error "Authentication error"))
  | Some gin.anyOther =>
      inl (gin.mkResponse http.StatusInternalServerError
             (gin.H_error "Internal server error"))
  | Some (gin.anyString idStr) =>
      match strconv.ParseUint idStr with
      | inr _ =>
          inl (gin.mkResponse http.StatusInternalServerError
                 (gin.H_error "Invalid user ID format"))
      | inl userID => inr userID
      end
  end.

(** The lines [GetProduct], [UpdateProduct] and [DeleteProduct] run to read
    the path parameter [id]. *)
Definition paramProductID (c : gin.Context) : gin.Response + uint :=
  let productIDStr := gin.Param_id c in
  if String.eqb productIDStr "" then
    inl (gin.mkResponse http.StatusBadRequest
           (gin.H_error "Product ID is required"))
  else
    match strconv.ParseUint productIDStr with
    | inr _ =>
        inl (gin.mkResponse http.StatusBadRequest
               (gin.H_error "Invalid product ID format"))
    | inl productID => inr productID
    end.

(** [productHandler.AddProduct].  [bind] is the outcome of
    [c.ShouldBindJSON(&req)]: the decoded and validated request, or the
    error of the decoder or of the validator. *)
Definition AddProduct (db : DB) (created_at updated_at : Time)
  (c : gin.Context) (bind : result AddProductRequest) : DB * gin.Response :=
  match contextUserID c with
  | inl response => (db, response)
  | inr userID =>
      match bind with
      | Err err =>
          (db, gin.mkResponse http.StatusBadRequest (gin.H_error err))
      | Ok req =>
          match service.AddProduct db created_at updated_at userID req with
          | (db', Err _) =>
              (db', gin.mkResponse http.StatusInternalServerError
                      (gin.H_error "Failed to add product"))
          | (db', Ok product) =>
              (db', gin.mkResponse http.StatusCreated (gin.J_product product))
          end
      end
  end.

(** [productHandler.GetProduct] *)
Definition GetProduct (db : DB) (c : gin.Context) : gin.Response :=
  match paramProductID c with
  | inl response => response
  | inr productID =>
      match service.GetProduct db productID with
      | Err _ =>
          gin.mkResponse http.StatusNotFound (gin.H_error "Product not found")
      | Ok product => gin.mkResponse http.StatusOK (gin.J_product product)
      end
  end.

(** [productHandler.GetProducts] *)
Definition GetProducts (db : DB) (c : gin.Context) : gin.Response :=
  match contextUserID c with
  | inl response => response
  | inr userID =>
      match service.GetProductsByOwner db userID with
      | Err _ =>
          gin.mkResponse http.StatusInternalServerError
            (gin.H_error "Failed to retrieve products")
      | Ok products => gin.mkResponse http.StatusOK (gin.J_products products)
      end
  end.

(** [productHandler.UpdateProduct] *)
Definition UpdateProduct (db : DB) (now : Time) (c : gin.Context)
  (bind : result UpdateProductRequest) : DB * gin.Response :=
  match paramProductID c with
  | inl response => (db, response)
  | inr productID =>
      match contextUserID c with
      | inl response => (db, response)
      | inr userID =>
          match bind with
          | Err err =>
              (db, gin.mkResponse http.StatusBadRequest (gin.H_error err))
          | Ok req =>
              match service.UpdateProduct db now productID userID req with
              | (db', Err err) =>
                  if String.eqb err "product not found" then
                    (db', gin.mkResponse http.StatusNotFound
                            (gin.H_error err))
                  else if String.eqb err
                            "you are not authorized to update this product"
                  then
                    (db', gin.mkResponse http.StatusForbidden
                            (gin.H_error err))
                  else
                    (db', gin.mkResponse http.StatusInternalServerError
                            (gin.H_error "Failed to update product"))
              | (db', Ok product) =>
                  (db', gin.mkResponse http.StatusOK (gin.J_product product))
              end
          end
      end
  end.

(** [productHandler.DeleteProduct] *)
Definition DeleteProduct (db : DB) (c : gin.Context) : DB * gin.Response :=
  match paramProductID c with
  | inl response => (db, response)
  | inr productID =>
      match contextUserID c with
      | inl response => (db, response)
      | inr userID =>
          match service.DeleteProduct db productID userID with
          | (db', Some err) =>
              if String.eqb err "product not found" then
                (db', gin.mkResponse http.StatusNotFound (gin.H_error err))
              else if String.eqb err
                        "you are not authorized to delete this product"
              then
                (db', gin.mkResponse http.StatusForbidden (gin.H_error err))
              else
                (db', gin.mkResponse http.StatusInternalServerError
                        (gin.H_error "Failed to delete product"))
          | (db', None) =>
              (db', gin.mkResponse http.StatusNoContent gin.J_nil)
          end
      end
  end.

(** [userHandler.Register] *)
Definition Register `{bcrypt.Bcrypt} (db : DB) (salt : string)
  (created_at updated_at : Time) (bind : result RegisterRequest)
  : DB * gin.Response :=
  match bind with
  | Err err => (db, gin.mkResponse http.StatusBadRequest (gin.H_error err))
  | Ok req =>
      match service.RegisterUser db salt created_at updated_at req with
      | (db', Err err) =>
          if String.eqb err "user with this email already exists" then
            (db', gin.mkResponse http.StatusConflict (gin.H_error err))
          else
            (db', gin.mkResponse http.StatusInternalServerError
                    (gin.H_error "Failed to register user"))
      | (db', Ok user) =>
          (db', gin.mkResponse http.StatusCreated
                  (gin.H_registered "User registered successfully"
                     (User_ID user) (Username user) (Email user)))
      end
  end.

(** [userHandler.Login] *)
Definition Login `{bcrypt.Bcrypt} `{jwt.HMAC auth.Claims}
  (jm : auth.JWTManager) (db : DB) (nowExp nowIat nowNbf : Time)
  (bind : result LoginRequest) : gin.Response :=
  match bind with
  | Err err => gin.mkResponse http.StatusBadRequest (gin.H_error err)
  | Ok req =>
      match service.LoginUser jm db nowExp nowIat nowNbf req with
      | Err err => gin.mkResponse http.StatusUnauthorized (gin.H_error err)
      | Ok res => gin.mkResponse http.StatusOK (gin.J_login res)
      end
  end.

(** [userHandler.GetUser] *)
Definition GetUser (db : DB) (c : gin.Context) : gin.Response :=
  match contextUserID c with
  | inl response => response
  | inr userID =>
      match service.GetUserProfile db userID with
      | Err _ =>
          gin.mkResponse http.StatusNotFound (gin.H_error "User not found")
      | Ok user =>
          gin.mkResponse http.StatusOK
            (gin.H_profile (User_ID user) (Username user) (Email user)
                           (User_CreatedAt user) (User_UpdatedAt user))
      end
  end.

End handler.

(** ** internal/router *)

Module router.

(** The routes [SetupRouter] registers, each with the outcome of the body
    binding its handler performs. *)
Inductive Route : Type :=
| POST_register (bind : result RegisterRequest)
| POST_login (bind : result LoginRequest)
| GET_user
| POST_products (bind : result AddProductRequest)
| GET_product
| GET_products
| PUT_product (bind : result UpdateProductRequest)
| DELETE_product.

(** The routes of the group that uses [AuthMiddleware]. *)
Definition authenticated (r : Route) : bool :=
  match r with
  | POST_register _ | POST_login _ => false
  | _ => true
  end.

(** What one request draws from its environment: the entropy of bcrypt,
    the clock read of the token validator, and the clock reads of the
    handler, in the order it makes them. *)
Record Env : Type := mkEnv {
  entropy : string;
  authNow : Time;
  now1 : Time;
  now2 : Time;
  now3 : Time
}.

(** The handler of a route, on the context it is given. *)
Definition dispatch `{bcrypt.Bcrypt} `{jwt.HMAC auth.Claims}
  (jm : auth.JWTManager) (env : Env) (db : DB) (r : Route) (c : gin.Context)
  : DB * gin.Response :=
  match r with
  | POST_register bind =>
      handler.Register db (entropy env) (now1 env) (now2 env) bind
  | POST_login bind =>
      (db, handler.Login jm db (now1 env) (now2 env) (now3 env) bind)
  | GET_user => (db, handler.GetUser db c)
  | POST_products bind => handler.AddProduct db (now1 env) (now2 env) c bind
  | GET_product => (db, handler.GetProduct db c)
  | GET_products => (db, handler.GetProducts db c)
  | PUT_product bind => handler.UpdateProduct db (now1 env) c bind
  | DELETE_product => handler.DeleteProduct db c
  end.

(** A request through the engine [SetupRouter] builds: the routes of the
    authenticated group run [AuthMiddleware] first and stop at its
    response when it aborts. *)
Definition serve `{bcrypt.Bcrypt} `{jwt.HMAC auth.Claims}
  `{middleware.TokenReader}
  (jm : auth.JWTManager) (env : Env) (db : DB) (r : Route) (c : gin.Context)
  : DB * gin.Response :=
  if authenticated r then
    match middleware.AuthMiddleware jm (authNow env) c with
    | inl response => (db, response)
    | inr c' => dispatch jm env db r c'
    end
  else dispatch jm env db r c.

End router.

(** ** Auxiliary notions for the request boundary *)

(** Whether a string contains a space. *)
Fixpoint hasSpace (s : string) : bool :=
  match s with
  | EmptyString => false
  | String c s' => Ascii.eqb c " "%char || hasSpace s'
  end.

(** Whether a string contains a byte that is not a decimal digit. *)
Fixpoint hasNonDigit (s : string) : bool :=
  match s with
  | EmptyString => false
  | String c s' => isNil (strconv.digit c) || hasNonDigit s'
  end.

(** The number a sequence of decimal digits denotes after the digits
    already read denote [acc]. *)
Fixpoint digitsValue (d : Decimal.uint) (acc : N) : N :=
  match d with
  | Decimal.Nil => acc
  | Decimal.D0 d => digitsValue d (10 * acc)
  | Decimal.D1 d => digitsValue d (10 * acc + 1)
  | Decimal.D2 d => digitsValue d (10 * acc + 2)
  | Decimal.D3 d => digitsValue d (10 * acc + 3)
  | Decimal.D4 d => digitsValue d (10 * acc + 4)
  | Decimal.D5 d => digitsValue d (10 * acc + 5)
  | Decimal.D6 d => digitsValue d (10 * acc + 6)
  | Decimal.D7 d => digitsValue d (10 * acc + 7)
  | Decimal.D8 d => digitsValue d (10 * acc + 8)
  | Decimal.D9 d => digitsValue d (10 * acc + 9)
  end%N.

(** The token [GenerateToken] returns. *)
Definition issuedToken `{jwt.HMAC auth.Claims} (jm : auth.JWTManager)
  (nowExp nowIat nowNbf : Time) (userID : string) : auth.tokenString :=
  jwt.Compact jwt.HS256 (auth.newClaims jm nowExp nowIat nowNbf userID)
    (jwt.hmacSum jwt.HS256 (auth.secretKey jm)
       (auth.newClaims jm nowExp nowIat nowNbf userID)).

(** ** Sample values *)

(** Stand-ins for the cryptographic packages, used to run the services on
    concrete inputs. *)
Definition sampleBcrypt : bcrypt.Bcrypt := {|
  bcrypt.GenerateFromPassword := fun _ password _ =>
    if (72 <? String.length password)%nat then
      Err "bcrypt: password length exceeds 72 bytes"
    else Ok ("$2a$10$" ++ password);
  bcrypt.CompareHashAndPassword := fun hash password =>
    if String.eqb hash ("$2a$10$" ++ password) then None
    else Some "hashedPassword is not the hash of the given password"
|}.

Definition sampleHMAC : jwt.HMAC auth.Claims :=
  fun m key claims => jwt.Alg m ++ "/" ++ key ++ "/" ++ auth.UserID claims.

Definition day : Duration := (24 * 3600 * 1000000000)%Z.

Definition sampleJWT : auth.JWTManager := auth.mkJWTManager "secret" day.

Definition alice : User :=
  mkUser 1%N 10%Z 10%Z "alice" "alice@example.com" "$2a$10$wonderland".

Definition bob : User :=
  mkUser 2%N 20%Z 20%Z "bob" "bob@example.com" "$2a$10$builder".

Definition widget : Product :=
  mkProduct 1%N 30%Z 30%Z "widget" "" 9.99%float 1%N.

(** The struct [AddProduct] hands back for [widget]: the repository fills
    in the identifier only. *)
Definition createdWidget : Product :=
  mkProduct 1%N zeroTime zeroTime "widget" "" 9.99%float 1%N.

(** Two accounts, one product owned by the first. *)
Definition sampleDB : DB := mkDB [alice; bob] [widget] 2%N 1%N None.

(** The same accounts, no product. *)
Definition accountsDB : DB := mkDB [alice; bob] [] 2%N 0%N None.

Definition sampleAddWidget : AddProductRequest :=
  mkAddProductRequest "widget" "" 9.99%float.

Definition sampleFreeWidget : AddProductRequest :=
  mkAddProductRequest "widget" "" 0%float.

Definition samplePricePatch : UpdateProductRequest :=
  mkUpdateProductRequest "" "" 19.99%float.

Definition sampleClaims (exp : Time) : auth.Claims :=
  auth.mkClaims "1"
    (jwt.mkRegisteredClaims "*" "1" (Some exp) (Some 0%Z) (Some 0%Z)).

(** A claim set with no expiry and no not-before time. *)
Definition unboundedClaims : auth.Claims :=
  auth.mkClaims "1" (jwt.mkRegisteredClaims "*" "1" None None None).

Definition unboundedToken : auth.tokenString :=
  jwt.Compact jwt.HS256 unboundedClaims
    (sampleHMAC jwt.HS256 "secret" unboundedClaims).

(** A manager configured with a validity of zero. *)
Definition instantJWT : auth.JWTManager := auth.mkJWTManager "secret" 0%Z.

(** A token whose signature is the sample MAC of its content under the
    secret of [sampleJWT]. *)
Definition sampleToken (exp : Time) : auth.tokenString :=
  jwt.Compact jwt.HS256 (sampleClaims exp)
    (sampleHMAC jwt.HS256 "secret" (sampleClaims exp)).

(** A token for the second account, and one whose subject is not a
    number, both signed under the secret of [sampleJWT]. *)
Definition bobClaims : auth.Claims :=
  auth.mkClaims "2"
    (jwt.mkRegisteredClaims "*" "2" (Some day) (Some 0%Z) (Some 0%Z)).

Definition bobToken : auth.tokenString :=
  jwt.Compact jwt.HS256 bobClaims (sampleHMAC jwt.HS256 "secret" bobClaims).

Definition rootClaims : auth.Claims :=
  auth.mkClaims "root"
    (jwt.mkRegisteredClaims "*" "root" (Some day) (Some 0%Z) (Some 0%Z)).

Definition rootToken : auth.tokenString :=
  jwt.Compact jwt.HS256 rootClaims (sampleHMAC jwt.HS256 "secret" rootClaims).

(** The token [LoginUser] issues at instant 50 for account 3. *)
Definition carolToken : auth.tokenString :=
  jwt.Compact jwt.HS256 (auth.newClaims sampleJWT 50%Z 50%Z 50%Z "3")
    (sampleHMAC jwt.HS256 "secret"
       (auth.newClaims sampleJWT 50%Z 50%Z 50%Z "3")).

(** A stand-in for the decoding of token strings: four strings decode to
    the tokens above, every other string is malformed. *)
Definition sampleReader : middleware.TokenReader :=
  fun s =>
    if String.eqb s "alice.token" then sampleToken day
    else if String.eqb s "bob.token" then bobToken
    else if String.eqb s "root.token" then rootToken
    else if String.eqb s "carol.token" then carolToken
    else jwt.Malformed s.

(** A request that presents token string [s] and path parameter [id]. *)
Definition bearer (s id : string) : gin.Context :=
  gin.mkContext ("Bearer " ++ s) id None.

(** The sample store while the database refuses connections. *)
Definition downDB : DB :=
  mkDB [alice; bob] [widget] 2%N 1%N (Some "connection refused").

(** The sample store after its one product was deleted: the sequence
    keeps its value. *)
Definition afterDeleteDB : DB := mkDB [alice; bob] [] 2%N 1%N None.

Definition sampleEnv : router.Env := router.mkEnv "salt" 60%Z 40%Z 40%Z 40%Z.

(** * Theorems *)

(** ** Facts about [float64] comparisons *)

Lemma leb_zero_check_price (p : float) :
  PrimFloat.leb p 0 = true -> check_price p = false.
Proof.
  unfold check_price, PrimFloat.is_nan.
  rewrite leb_spec, ltb_spec, eqb_spec.
  change (Prim2SF 0) with (S754_zero false).
  destruct (Prim2SF p) as [s | s | | s m e]; try destruct s; cbn;
    try congruence.
  all: unfold SFeqb, SFcompare;
    rewrite ?Z.compare_refl, ?Pos.compare_cont_refl, ?Pos.compare_refl;
    cbn; auto.
Qed.

(** ** Facts about rows and keys *)

Section Keys.

Context {A K : Type} (eqb : K -> K -> bool).
Hypothesis eqb_eq : forall a b, eqb a b = true <-> a = b.
Variable key : A -> K.

Lemma existsb_key_false (l : list A) (k : K) :
  existsb (eqb k) (map key l) = false ->
  forall x, In x l -> key x <> k.
Proof.
  induction l as [| a l IH]; cbn; intros Hex x Hin; [contradiction |].
  apply orb_false_iff in Hex. destruct Hex as [Ha Hl].
  destruct Hin as [<- | Hin].
  - intros Heq. rewrite Heq in Ha.
    assert (eqb k k = true) by (apply eqb_eq; reflexivity). congruence.
  - now apply IH.
Qed.

(** Under a uniqueness constraint a stored row is the row its key finds. *)
Lemma find_distinct (l : list A) (x : A) :
  distinct eqb (map key l) = true ->
  In x l ->
  find (fun y => eqb (key y) (key x)) l = Some x.
Proof.
  induction l as [| a l IH]; cbn; intros Hd Hin; [contradiction |].
  apply andb_true_iff in Hd. destruct Hd as [Ha Hl].
  apply negb_true_iff in Ha.
  destruct Hin as [-> | Hin].
  - assert (E : eqb (key x) (key x) = true) by (apply eqb_eq; reflexivity).
    now rewrite E.
  - destruct (eqb (key a) (key x)) eqn:E.
    + apply eqb_eq in E.
      exfalso. eapply existsb_key_false; eauto.
    + now apply IH.
Qed.

Lemma find_absent (l : list A) (k : K) :
  (forall x, In x l -> key x <> k) ->
  find (fun y => eqb (key y) k) l = None.
Proof.
  induction l as [| a l IH]; cbn; intros Habs; [reflexivity |].
  destruct (eqb (key a) k) eqn:E.
  - apply eqb_eq in E. exfalso. eapply Habs; eauto.
  - apply IH. intros x Hx. apply Habs. now right.
Qed.

Lemma existsb_absent (l : list A) (k : K) :
  (forall x, In x l -> key x <> k) ->
  existsb (fun y => eqb (key y) k) l = false.
Proof.
  induction l as [| a l IH]; cbn; intros Habs; [reflexivity |].
  destruct (eqb (key a) k) eqn:E.
  - apply eqb_eq in E. exfalso. eapply Habs; eauto.
  - apply IH. intros x Hx. apply Habs. now right.
Qed.

Lemma existsb_false_absent (l : list A) (k : K) :
  existsb (fun y => eqb (key y) k) l = false ->
  forall x, In x l -> key x <> k.
Proof.
  induction l as [| a l IH]; cbn; intros Hex x Hin; [contradiction |].
  apply orb_false_iff in Hex. destruct Hex as [Ha Hl].
  destruct Hin as [<- | Hin].
  - intros Heq. apply eqb_eq in Heq. congruence.
  - now apply IH.
Qed.

End Keys.

Lemma find_app_new {A} (f : A -> bool) (l : list A) (x : A) :
  existsb f l = false ->
  find f (l ++ [x]) = if f x then Some x else None.
Proof.
  induction l as [| a l IH]; cbn; intros Hex; [reflexivity |].
  apply orb_false_iff in Hex. destruct Hex as [-> Hl]. now apply IH.
Qed.

(** The parts of [wf], one by one. *)
Lemma wf_product_ids db : wf db = true ->
  distinct N.eqb (map Product_ID (products db)) = true.
Proof. unfold wf. rewrite !andb_true_iff. tauto. Qed.

Lemma wf_emails db : wf db = true ->
  distinct String.eqb (map Email (users db)) = true.
Proof. unfold wf. rewrite !andb_true_iff. tauto. Qed.

Lemma wf_user_range db u : wf db = true -> In u (users db) ->
  (0 < User_ID u <= users_id_seq db)%N.
Proof.
  unfold wf. rewrite !andb_true_iff. intros H Hin.
  destruct H as [[[[[_ H] _] _] _] _].
  rewrite forallb_forall in H. specialize (H u Hin).
  unfold idInRange in H. apply andb_true_iff in H.
  rewrite N.ltb_lt, N.leb_le in H. exact H.
Qed.

Lemma wf_product_range db p : wf db = true -> In p (products db) ->
  (0 < Product_ID p <= products_id_seq db)%N.
Proof.
  unfold wf. rewrite !andb_true_iff. intros H Hin.
  destruct H as [[[_ H] _] _].
  rewrite forallb_forall in H. specialize (H p Hin).
  unfold idInRange in H. apply andb_true_iff in H.
  rewrite N.ltb_lt, N.leb_le in H. exact H.
Qed.

(** What the lookups return for a stored row of a well-formed store. *)
Lemma stored_product_found db p :
  wf db = true -> In p (products db) ->
  find (hasProductID (Product_ID p)) (products db) = Some p.
Proof.
  intros Hwf Hin.
  apply (find_distinct N.eqb N.eqb_eq Product_ID);
    [now apply wf_product_ids | exact Hin].
Qed.

Lemma stored_email_found db u :
  wf db = true -> In u (users db) ->
  find (hasEmail (Email u)) (users db) = Some u.
Proof.
  intros Hwf Hin.
  apply (find_distinct String.eqb String.eqb_eq Email);
    [now apply wf_emails | exact Hin].
Qed.

Lemma GetProductByID_stored db p :
  wf db = true -> outage db = None -> In p (products db) ->
  repository.GetProductByID db (Product_ID p) = Ok p.
Proof.
  intros Hwf Hup Hin.
  unfold repository.GetProductByID, select_product_by_id.
  rewrite Hup, (stored_product_found db p Hwf Hin). reflexivity.
Qed.

Lemma absent_product_not_found db id :
  (forall p, In p (products db) -> Product_ID p <> id) ->
  find (hasProductID id) (products db) = None.
Proof. apply (find_absent N.eqb N.eqb_eq Product_ID). Qed.

Lemma absent_user_not_found db id :
  (forall u, In u (users db) -> User_ID u <> id) ->
  find (hasUserID id) (users db) = None.
Proof. apply (find_absent N.eqb N.eqb_eq User_ID). Qed.

Lemma absent_email_not_found db email :
  (forall u, In u (users db) -> Email u <> email) ->
  find (hasEmail email) (users db) = None.
Proof. apply (find_absent String.eqb String.eqb_eq Email). Qed.

Lemma GetProductByID_absent db id :
  outage db = None ->
  (forall p, In p (products db) -> Product_ID p <> id) ->
  repository.GetProductByID db id = Ok zeroProduct.
Proof.
  intros Hup Habs.
  unfold repository.GetProductByID, select_product_by_id.
  rewrite Hup, (absent_product_not_found db id Habs).
  reflexivity.
Qed.

(** ** Ownership is enforced *)

(** C1: for every stored product and every caller other than its owner,
    [UpdateProduct] and [DeleteProduct] fail with [Forbidden] and return the
    store untouched; and after [AddProduct] by one account with price 9.99,
    an update of the price to 19.99 by another account fails with
    [Forbidden] while the stored price is still 9.99. *)
Theorem non_owner_is_forbidden :
  (forall db now p c patch,
      wf db = true -> outage db = None ->
      In p (products db) -> c <> UserID p ->
      failsWith (snd (service.UpdateProduct db now (Product_ID p) c patch))
                Forbidden
      /\ fst (service.UpdateProduct db now (Product_ID p) c patch) = db
      /\ errorIs (snd (service.DeleteProduct db (Product_ID p) c)) Forbidden
      /\ fst (service.DeleteProduct db (Product_ID p) c) = db)
  /\ (forall db created_at updated_at now ownerA ownerB db1 p,
      service.AddProduct db created_at updated_at ownerA sampleAddWidget
        = (db1, Ok p) ->
      ownerB <> ownerA ->
      failsWith
        (snd (service.UpdateProduct db1 now (Product_ID p) ownerB
                                    samplePricePatch))
        Forbidden
      /\ (exists row,
             In row (products
                       (fst (service.UpdateProduct db1 now (Product_ID p)
                                                   ownerB samplePricePatch)))
             /\ Product_ID row = Product_ID p)
      /\ (forall row,
             In row (products
                       (fst (service.UpdateProduct db1 now (Product_ID p)
                                                   ownerB samplePricePatch))) ->
             Product_ID row = Product_ID p ->
             Price row = 9.99%float)).
Proof.
  split.
  - intros db now p c patch Hwf Hup Hin Hc.
    unfold service.UpdateProduct, service.DeleteProduct.
    rewrite (GetProductByID_stored db p Hwf Hup Hin).
    assert (E : N.eqb (UserID p) c = false)
      by (apply N.eqb_neq; congruence).
    rewrite E; cbn.
    repeat split; eexists; split; reflexivity.
  - intros db created_at updated_at now ownerA ownerB db1 p Hadd Hneq.
    unfold service.AddProduct, repository.AddProduct, insert_product in Hadd.
    cbn in Hadd.
    destruct (outage db) as [msg |] eqn:Hup; [discriminate |].
    destruct (existsb (hasProductID (N.succ (products_id_seq db)))
                      (products db)) eqn:Hpk; [discriminate |].
    destruct (check_price 9.99) eqn:Hck; [| discriminate].
    destruct (existsb (hasUserID ownerA) (users db)) eqn:Hfk;
      [| discriminate].
    cbn in Hadd. inversion Hadd; subst db1 p; clear Hadd.
    set (id := N.succ (products_id_seq db)) in *.
    set (row := mkProduct id created_at updated_at "widget" "" 9.99 ownerA).
    unfold service.UpdateProduct, repository.GetProductByID,
      select_product_by_id.
    cbn [outage products Product_ID gorm.Error gorm.dest].
    rewrite (find_app_new _ _ row Hpk).
    assert (Hrow : hasProductID id row = true) by apply N.eqb_refl.
    rewrite Hrow.
    cbn [gorm.Error gorm.dest UserID row].
    assert (E : N.eqb ownerA ownerB = false)
      by (apply N.eqb_neq; congruence).
    rewrite E. cbn [negb fst snd products].
    split; [eexists; split; reflexivity |].
    split.
    + exists row. split; [apply in_or_app; right; now left | reflexivity].
    + intros r Hr Hid. apply in_app_or in Hr. destruct Hr as [Hr | [<- | []]].
      * exfalso.
        apply (existsb_false_absent N.eqb N.eqb_eq Product_ID
                 (products db) id Hpk r Hr Hid).
      * reflexivity.
Qed.

Lemma non_owner_is_forbidden_witness :
  (failsWith (snd (service.UpdateProduct sampleDB 40%Z (Product_ID widget)
                                         2%N samplePricePatch)) Forbidden
   /\ fst (service.UpdateProduct sampleDB 40%Z (Product_ID widget)
                                 2%N samplePricePatch) = sampleDB
   /\ errorIs (snd (service.DeleteProduct sampleDB (Product_ID widget) 2%N))
              Forbidden
   /\ fst (service.DeleteProduct sampleDB (Product_ID widget) 2%N) = sampleDB)
  /\ service.AddProduct accountsDB 30%Z 30%Z 1%N sampleAddWidget
     = (sampleDB, Ok createdWidget)
  /\ failsWith
       (snd (service.UpdateProduct sampleDB 40%Z (Product_ID createdWidget)
                                   2%N samplePricePatch))
       Forbidden.
Proof.
  destruct non_owner_is_forbidden as [Hgen Hscen].
  split.
  - apply (Hgen sampleDB 40%Z widget 2%N samplePricePatch).
    + reflexivity.
    + reflexivity.
    + left; reflexivity.
    + discriminate.
  - split; [reflexivity |].
    refine (proj1 (Hscen accountsDB 30%Z 30%Z 40%Z 1%N 2%N sampleDB
                         createdWidget _ _)).
    + reflexivity.
    + discriminate.
Defined.

(** ** Creating a product *)

(** C8: for every store, owner and request whose price is at most zero,
    [AddProduct] fails and creates no product record: both tables are what
    they were.  The refusal comes from the check constraint of the store. *)
Theorem AddProduct_rejects_nonpositive_price :
  forall db created_at updated_at userID req,
    PrimFloat.leb (add_Price req) 0 = true ->
    exists err,
      snd (service.AddProduct db created_at updated_at userID req) = Err err
      /\ products (fst (service.AddProduct db created_at updated_at userID req))
         = products db
      /\ users (fst (service.AddProduct db created_at updated_at userID req))
         = users db.
Proof.
  intros db created_at updated_at userID req Hle.
  apply leb_zero_check_price in Hle.
  unfold service.AddProduct, repository.AddProduct, insert_product; cbn.
  destruct (outage db) as [msg |]; cbn.
  - eexists; repeat split.
  - destruct (existsb _ (products db)); cbn.
    + eexists; repeat split.
    + rewrite Hle; cbn. eexists; repeat split.
Qed.

Lemma AddProduct_rejects_nonpositive_price_witness :
  PrimFloat.leb (add_Price sampleFreeWidget) 0 = true
  /\ exists err,
      snd (service.AddProduct emptyDB 1%Z 2%Z 1%N sampleFreeWidget) = Err err
      /\ products
           (fst (service.AddProduct emptyDB 1%Z 2%Z 1%N sampleFreeWidget))
         = products emptyDB
      /\ users (fst (service.AddProduct emptyDB 1%Z 2%Z 1%N sampleFreeWidget))
         = users emptyDB.
Proof.
  split.
  - reflexivity.
  - apply (AddProduct_rejects_nonpositive_price emptyDB 1%Z 2%Z 1%N
             sampleFreeWidget).
    reflexivity.
Defined.

(** ** Lookups *)

Lemma GetUserByEmail_stored db u :
  wf db = true -> outage db = None -> In u (users db) ->
  repository.GetUserByEmail db (Email u) = Ok u.
Proof.
  intros Hwf Hup Hin.
  unfold repository.GetUserByEmail, select_user_by_email.
  rewrite Hup, (stored_email_found db u Hwf Hin). cbn.
  destruct (wf_user_range db u Hwf Hin) as [Hpos _].
  assert (E : N.eqb (User_ID u) 0 = false) by (apply N.eqb_neq; lia).
  now rewrite E.
Qed.

Lemma GetUserByEmail_absent db email :
  (forall u, In u (users db) -> Email u <> email) ->
  exists err, repository.GetUserByEmail db email = Err err.
Proof.
  intros Habs.
  unfold repository.GetUserByEmail, select_user_by_email.
  destruct (outage db) as [msg |]; cbn.
  - eexists; reflexivity.
  - rewrite (absent_email_not_found db email Habs). cbn.
    eexists; reflexivity.
Qed.

(** C10: for every email that no stored account carries, [GetUserByEmail]
    returns an error and no record.  When the store is reachable the scan
    itself reports no error and leaves identifier 0 in the destination; the
    guard on that identifier turns it into the failure.  Hence [LoginUser]
    answers with its lookup failure and [RegisterUser] does not take the
    email for a duplicate. *)
Theorem GetUserByEmail_absent_email_is_error :
  forall (B : bcrypt.Bcrypt) (H : jwt.HMAC auth.Claims) db email,
    (forall u, In u (users db) -> Email u <> email) ->
    (exists err, repository.GetUserByEmail db email = Err err)
    /\ (outage db = None ->
        gorm.Error (select_user_by_email db email) = None
        /\ User_ID (gorm.dest (select_user_by_email db email)) = 0%N
        /\ repository.GetUserByEmail db email
           = Err "database error retrieving user by email: %!w(<nil>)")
    /\ (forall jm nowExp nowIat nowNbf password,
           service.LoginUser jm db nowExp nowIat nowNbf
                             (mkLoginRequest email password)
           = Err "invalid credentials")
    /\ (forall salt created_at updated_at username password,
           snd (service.RegisterUser db salt created_at updated_at
                  (mkRegisterRequest username email password))
           <> Err "user with this email already exists").
Proof.
  intros B H db email Habs.
  destruct (GetUserByEmail_absent db email Habs) as [err Herr].
  split; [now exists err |].
  split.
  - intros Hup.
    unfold repository.GetUserByEmail, select_user_by_email.
    rewrite Hup, (absent_email_not_found db email Habs). cbn.
    repeat split.
  - split.
    + intros. unfold service.LoginUser. cbn. now rewrite Herr.
    + intros. unfold service.RegisterUser. cbn. rewrite Herr. cbn.
      destruct (bcrypt.GenerateFromPassword _ _ _); cbn; [| discriminate].
      destruct (repository.CreateUser _ _ _ _) as [[db' user'] [e |]]; cbn.
      * intros Heq. inversion Heq.
      * discriminate.
Qed.

Lemma GetUserByEmail_absent_email_is_error_witness :
  (forall u, In u (users sampleDB) -> Email u <> "carol@example.com")
  /\ exists err,
      repository.GetUserByEmail sampleDB "carol@example.com" = Err err.
Proof.
  assert (Habs : forall u, In u (users sampleDB) ->
                           Email u <> "carol@example.com").
  { intros u [<- | [<- | []]]; discriminate. }
  split; [exact Habs |].
  exact (proj1 (GetUserByEmail_absent_email_is_error
                  sampleBcrypt sampleHMAC sampleDB "carol@example.com" Habs)).
Defined.

(** C4 (the code departs from it): on a reachable store, looking up an
    identifier that matches no row does not fail.  [GetProductByID] and
    [GetProduct] return the zero product, [GetUserByID] and [GetUserProfile]
    the zero user, each with a nil error; so does [GetProduct] after a
    successful [DeleteProduct] of the same identifier. *)
Theorem lookup_of_absent_id_returns_zero_record :
  forall db,
    outage db = None ->
    (forall id,
        (forall p, In p (products db) -> Product_ID p <> id) ->
        repository.GetProductByID db id = Ok zeroProduct
        /\ service.GetProduct db id = Ok zeroProduct)
    /\ (forall id,
        (forall u, In u (users db) -> User_ID u <> id) ->
        repository.GetUserByID db id = Ok zeroUser
        /\ service.GetUserProfile db id = Ok zeroUser)
    /\ (forall id caller db',
        service.DeleteProduct db id caller = (db', None) ->
        service.GetProduct db' id = Ok zeroProduct).
Proof.
  intros db Hup. split; [| split].
  - intros id Habs. unfold service.GetProduct.
    now rewrite (GetProductByID_absent db id Hup Habs).
  - intros id Habs.
    unfold service.GetUserProfile, repository.GetUserByID, select_user_by_id.
    rewrite Hup, (absent_user_not_found db id Habs). cbn. now split.
  - intros id caller db' Hdel.
    unfold service.DeleteProduct in Hdel.
    destruct (repository.GetProductByID db id) as [product | err];
      [| discriminate].
    destruct (negb (N.eqb (UserID product) caller)); [discriminate |].
    unfold repository.DeleteProduct, delete_product in Hdel.
    rewrite Hup in Hdel. cbn in Hdel.
    destruct (Z.eqb _ 0); [discriminate |].
    inversion Hdel; subst db'; clear Hdel.
    unfold service.GetProduct.
    rewrite GetProductByID_absent; [reflexivity | reflexivity |].
    cbn. intros p Hp. apply filter_In in Hp. destruct Hp as [_ Hp].
    apply negb_true_iff in Hp. now apply N.eqb_neq in Hp.
Qed.

Lemma lookup_of_absent_id_returns_zero_record_witness :
  outage sampleDB = None
  /\ service.GetProduct sampleDB 7%N = Ok zeroProduct
  /\ service.GetUserProfile sampleDB 7%N = Ok zeroUser
  /\ service.GetProduct (fst (service.DeleteProduct sampleDB 1%N 1%N)) 1%N
     = Ok zeroProduct.
Proof.
  destruct (lookup_of_absent_id_returns_zero_record sampleDB eq_refl)
    as [Hp [Hu Hd]].
  split; [reflexivity |].
  split; [| split].
  - apply Hp. intros p [<- | []]; discriminate.
  - apply Hu. intros u [<- | [<- | []]]; discriminate.
  - apply (Hd 1%N 1%N). reflexivity.
Defined.

(** ** Updates and deletions of identifiers that match no row *)

Lemma filter_absent db id :
  (forall p, In p (products db) -> Product_ID p <> id) ->
  filter (hasProductID id) (products db) = []
  /\ filter (fun p => negb (hasProductID id p)) (products db) = products db.
Proof.
  intros Habs. induction (products db) as [| a l IH]; cbn; [now split |].
  assert (E : hasProductID id a = false)
    by (apply N.eqb_neq; apply Habs; now left).
  rewrite E; cbn.
  destruct IH as [IH1 IH2]; [intros p Hp; apply Habs; now right |].
  now rewrite IH1, IH2.
Qed.

Lemma map_set_product_absent db name description price now id :
  (forall p, In p (products db) -> Product_ID p <> id) ->
  map (set_product name description price now id) (products db) = products db.
Proof.
  intros Habs. induction (products db) as [| a l IH]; cbn; [reflexivity |].
  unfold set_product at 1.
  assert (E : hasProductID id a = false)
    by (apply N.eqb_neq; apply Habs; now left).
  rewrite E, IH; [reflexivity |].
  intros p Hp. apply Habs. now right.
Qed.

Lemma applyPatch_ID product req :
  Product_ID (service.applyPatch product req) = Product_ID product.
Proof.
  unfold service.applyPatch.
  destruct (negb (String.eqb (upd_Name req) ""));
    destruct (negb (String.eqb (upd_Description req) ""));
    destruct (negb (PrimFloat.eqb (upd_Price req) 0)); reflexivity.
Qed.

Lemma applyPatch_UserID product req :
  UserID (service.applyPatch product req) = UserID product.
Proof.
  unfold service.applyPatch.
  destruct (negb (String.eqb (upd_Name req) ""));
    destruct (negb (String.eqb (upd_Description req) ""));
    destruct (negb (PrimFloat.eqb (upd_Price req) 0)); reflexivity.
Qed.

(** C5 (the code departs from it): on a reachable store, for a product
    identifier that matches no row, [UpdateProduct] and [DeleteProduct]
    called by any account other than 0 fail with [Forbidden], not with
    [NotFound], because the lookup hands the zero product, owned by
    account 0, to the ownership check.  Called by account 0 they fail with a
    message of neither kind.  In every case no stored product is modified or
    removed. *)
Theorem absent_product_update_is_forbidden :
  (forall db now id caller patch,
      outage db = None ->
      (forall p, In p (products db) -> Product_ID p <> id) ->
      caller <> 0%N ->
      failsWith (snd (service.UpdateProduct db now id caller patch)) Forbidden
      /\ fst (service.UpdateProduct db now id caller patch) = db
      /\ errorIs (snd (service.DeleteProduct db id caller)) Forbidden
      /\ fst (service.DeleteProduct db id caller) = db)
  /\ (forall db now id patch,
      wf db = true ->
      outage db = None ->
      (forall p, In p (products db) -> Product_ID p <> id) ->
      failsWith (snd (service.UpdateProduct db now id 0%N patch)) Unclassified
      /\ fst (service.UpdateProduct db now id 0%N patch) = db
      /\ errorIs (snd (service.DeleteProduct db id 0%N)) Unclassified
      /\ fst (service.DeleteProduct db id 0%N) = db).
Proof.
  split.
  - intros db now id caller patch Hup Habs Hc.
    unfold service.UpdateProduct, service.DeleteProduct.
    rewrite (GetProductByID_absent db id Hup Habs).
    cbn [UserID zeroProduct].
    assert (E : N.eqb 0 caller = false) by (apply N.eqb_neq; congruence).
    rewrite E; cbn.
    repeat split; eexists; split; reflexivity.
  - intros db now id patch Hwf Hup Habs.
    assert (Hzero : forall p, In p (products db) -> Product_ID p <> 0%N).
    { intros p Hp. pose proof (wf_product_range db p Hwf Hp). lia. }
    unfold service.UpdateProduct, service.DeleteProduct.
    rewrite (GetProductByID_absent db id Hup Habs).
    cbn [UserID zeroProduct N.eqb negb].
    unfold repository.UpdateProduct, update_product,
      repository.DeleteProduct, delete_product.
    rewrite Hup, applyPatch_ID. cbn [Product_ID zeroProduct].
    destruct (filter_absent db 0%N Hzero) as [F0 _].
    destruct (filter_absent db id Habs) as [Fid Fid'].
    rewrite F0, Fid, Fid', (map_set_product_absent db _ _ _ now 0%N Hzero).
    cbn.
    assert (Hdb : mkDB (users db) (products db) (users_id_seq db)
                       (products_id_seq db) None = db)
      by (destruct db; cbn in *; congruence).
    rewrite Hdb.
    repeat split; eexists; split; reflexivity.
Qed.

Lemma absent_product_update_is_forbidden_witness :
  (failsWith (snd (service.UpdateProduct sampleDB 40%Z 7%N 2%N
                                         samplePricePatch)) Forbidden
   /\ fst (service.UpdateProduct sampleDB 40%Z 7%N 2%N samplePricePatch)
      = sampleDB
   /\ errorIs (snd (service.DeleteProduct sampleDB 7%N 2%N)) Forbidden
   /\ fst (service.DeleteProduct sampleDB 7%N 2%N) = sampleDB)
  /\ failsWith (snd (service.UpdateProduct sampleDB 40%Z 7%N 0%N
                                           samplePricePatch)) Unclassified.
Proof.
  destruct absent_product_update_is_forbidden as [Hother Hzero].
  assert (Habs : forall p, In p (products sampleDB) -> Product_ID p <> 7%N).
  { intros p [<- | []]; discriminate. }
  split.
  - apply Hother; [reflexivity | exact Habs | discriminate].
  - apply (Hzero sampleDB 40%Z 7%N samplePricePatch);
      [reflexivity | reflexivity | exact Habs].
Defined.

(** ** Registration and login *)

(** C6: for every email a stored account carries, [RegisterUser] with that
    email fails with [Conflict] and returns the store as it was: no account
    is created. *)
Theorem RegisterUser_existing_email_conflicts :
  forall (B : bcrypt.Bcrypt) db salt created_at updated_at req u,
    wf db = true ->
    outage db = None ->
    In u (users db) ->
    Email u = reg_Email req ->
    failsWith (snd (service.RegisterUser db salt created_at updated_at req))
              Conflict
    /\ fst (service.RegisterUser db salt created_at updated_at req) = db.
Proof.
  intros B db salt created_at updated_at req u Hwf Hup Hin Hemail.
  unfold service.RegisterUser.
  rewrite <- Hemail, (GetUserByEmail_stored db u Hwf Hup Hin). cbn.
  split; [eexists; split; reflexivity | reflexivity].
Qed.

Lemma RegisterUser_existing_email_conflicts_witness :
  failsWith
    (snd (@service.RegisterUser sampleBcrypt sampleDB "salt" 40%Z 40%Z
            (mkRegisterRequest "alicia" "alice@example.com" "looking-glass")))
    Conflict
  /\ fst (@service.RegisterUser sampleBcrypt sampleDB "salt" 40%Z 40%Z
            (mkRegisterRequest "alicia" "alice@example.com" "looking-glass"))
     = sampleDB.
Proof.
  apply (RegisterUser_existing_email_conflicts sampleBcrypt sampleDB "salt"
           40%Z 40%Z
           (mkRegisterRequest "alicia" "alice@example.com" "looking-glass")
           alice).
  - reflexivity.
  - reflexivity.
  - left; reflexivity.
  - reflexivity.
Defined.

(** C7: [LoginUser] with an email no stored account carries, and
    [LoginUser] with the email of a stored account and a password that
    bcrypt rejects against its hash, return the same result: the error
    "invalid credentials", of kind [InvalidCredentials], and no token.  The
    two runs may be against different stores, at different times. *)
Theorem LoginUser_failures_indistinguishable :
  forall (B : bcrypt.Bcrypt) (H : jwt.HMAC auth.Claims) jm
         db1 t1 t1' t1'' req1 db2 t2 t2' t2'' req2 u mismatch,
    (forall v, In v (users db1) -> Email v <> login_Email req1) ->
    wf db2 = true ->
    In u (users db2) ->
    Email u = login_Email req2 ->
    bcrypt.CompareHashAndPassword (Password u) (login_Password req2)
      = Some mismatch ->
    service.LoginUser jm db1 t1 t1' t1'' req1
      = service.LoginUser jm db2 t2 t2' t2'' req2
    /\ service.LoginUser jm db1 t1 t1' t1'' req1 = Err "invalid credentials"
    /\ failsWith (service.LoginUser jm db1 t1 t1' t1'' req1)
                 InvalidCredentials
    /\ failsWith (service.LoginUser jm db2 t2 t2' t2'' req2)
                 InvalidCredentials.
Proof.
  intros B H jm db1 t1 t1' t1'' req1 db2 t2 t2' t2'' req2 u mismatch
         Habs Hwf Hin Hemail Hbad.
  assert (L1 : service.LoginUser jm db1 t1 t1' t1'' req1
               = Err "invalid credentials").
  { unfold service.LoginUser.
    destruct (GetUserByEmail_absent db1 _ Habs) as [err ->]. reflexivity. }
  assert (L2 : service.LoginUser jm db2 t2 t2' t2'' req2
               = Err "invalid credentials").
  { unfold service.LoginUser.
    destruct (outage db2) as [msg |] eqn:Hup.
    - unfold repository.GetUserByEmail, select_user_by_email.
      rewrite Hup. reflexivity.
    - rewrite <- Hemail, (GetUserByEmail_stored db2 u Hwf Hup Hin).
      now rewrite Hbad. }
  rewrite L1, L2.
  repeat split; eexists; split; reflexivity.
Qed.

Lemma LoginUser_failures_indistinguishable_witness :
  @service.LoginUser sampleBcrypt sampleHMAC sampleJWT accountsDB
     50%Z 50%Z 50%Z (mkLoginRequest "carol@example.com" "wonderland")
  = @service.LoginUser sampleBcrypt sampleHMAC sampleJWT sampleDB
     60%Z 60%Z 60%Z (mkLoginRequest "alice@example.com" "looking-glass").
Proof.
  refine (proj1 (LoginUser_failures_indistinguishable
                   sampleBcrypt sampleHMAC sampleJWT
                   accountsDB 50%Z 50%Z 50%Z
                   (mkLoginRequest "carol@example.com" "wonderland")
                   sampleDB 60%Z 60%Z 60%Z
                   (mkLoginRequest "alice@example.com" "looking-glass")
                   alice
                   "hashedPassword is not the hash of the given password"
                   _ _ _ _ _)).
  - intros v [<- | [<- | []]]; discriminate.
  - reflexivity.
  - left; reflexivity.
  - reflexivity.
  - reflexivity.
Defined.

(** ** The schema is an invariant of the service *)

Section Distinct.

Context {K : Type} (eqb : K -> K -> bool).
Hypothesis eqb_eq : forall a b, eqb a b = true <-> a = b.

Lemma eqb_sym_false a b : eqb a b = false -> eqb b a = false.
Proof.
  intros H. destruct (eqb b a) eqn:E; [| reflexivity].
  apply eqb_eq in E. subst.
  assert (eqb a a = true) by (now apply eqb_eq). congruence.
Qed.

Lemma existsb_snoc_false (l : list K) (x k : K) :
  existsb (eqb x) l = false -> eqb x k = false ->
  existsb (eqb x) (l ++ [k]) = false.
Proof.
  intros Hl Hk. rewrite existsb_app, Hl. cbn. now rewrite Hk.
Qed.

Lemma distinct_snoc (l : list K) (k : K) :
  distinct eqb l = true ->
  existsb (eqb k) l = false ->
  distinct eqb (l ++ [k]) = true.
Proof.
  induction l as [| x l IH]; cbn; intros Hd Hk; [reflexivity |].
  apply andb_true_iff in Hd. destruct Hd as [Hx Hl].
  apply orb_false_iff in Hk. destruct Hk as [Hkx Hkl].
  apply negb_true_iff in Hx.
  rewrite (existsb_snoc_false l x k Hx (eqb_sym_false k x Hkx)). cbn.
  now apply IH.
Qed.

Lemma existsb_filter_false {A} (key : A -> K) (f : A -> bool) (l : list A) k :
  existsb (eqb k) (map key l) = false ->
  existsb (eqb k) (map key (filter f l)) = false.
Proof.
  induction l as [| a l IH]; cbn; intros Hk; [reflexivity |].
  apply orb_false_iff in Hk. destruct Hk as [Ha Hl].
  destruct (f a); cbn; [rewrite Ha; cbn |]; now apply IH.
Qed.

Lemma distinct_filter {A} (key : A -> K) (f : A -> bool) (l : list A) :
  distinct eqb (map key l) = true ->
  distinct eqb (map key (filter f l)) = true.
Proof.
  induction l as [| a l IH]; cbn; intros Hd; [reflexivity |].
  apply andb_true_iff in Hd. destruct Hd as [Ha Hl].
  destruct (f a); cbn; [| now apply IH].
  apply negb_true_iff in Ha.
  rewrite (existsb_filter_false key f l _ Ha). cbn. now apply IH.
Qed.

End Distinct.

Lemma forallb_snoc {A} (f : A -> bool) (l : list A) (x : A) :
  forallb f (l ++ [x]) = forallb f l && f x.
Proof. rewrite forallb_app. cbn. now rewrite andb_true_r. Qed.

Lemma forallb_weaken {A} (f g : A -> bool) (l : list A) :
  (forall x, In x l -> f x = true -> g x = true) ->
  forallb f l = true -> forallb g l = true.
Proof.
  intros Hfg Hf. apply forallb_forall. intros x Hx.
  apply Hfg; [exact Hx |]. rewrite forallb_forall in Hf. now apply Hf.
Qed.

Lemma forallb_filter {A} (f g : A -> bool) (l : list A) :
  forallb f l = true -> forallb f (filter g l) = true.
Proof.
  intros Hf. apply forallb_forall. intros x Hx.
  apply filter_In in Hx. rewrite forallb_forall in Hf. now apply Hf.
Qed.

Lemma idInRange_succ seq id :
  idInRange seq id = true -> idInRange (N.succ seq) id = true.
Proof.
  unfold idInRange. rewrite !andb_true_iff, !N.ltb_lt, !N.leb_le. lia.
Qed.

Lemma idInRange_new seq : idInRange (N.succ seq) (N.succ seq) = true.
Proof.
  unfold idInRange. rewrite andb_true_iff, N.ltb_lt, N.leb_le. lia.
Qed.

Lemma map_Product_ID_set_product name description price now id l :
  map Product_ID (map (set_product name description price now id) l)
  = map Product_ID l.
Proof.
  rewrite map_map. apply map_ext. intros p. unfold set_product.
  now destruct (hasProductID id p).
Qed.

Lemma existsb_map_key {A K} (f : K -> bool) (g : A -> bool) (key : A -> K)
  (l : list A) :
  (forall x, f (key x) = g x) ->
  existsb f (map key l) = existsb g l.
Proof.
  intros Hfg. induction l as [| a l IH]; cbn; [reflexivity |].
  now rewrite Hfg, IH.
Qed.

Lemma existsb_app_l {A} (f : A -> bool) (l : list A) (x : A) :
  existsb f l = true -> existsb f (l ++ [x]) = true.
Proof. intros H. rewrite existsb_app, H. reflexivity. Qed.

(** How each mutating statement leaves the tables. *)
Lemma insert_user_wf db username email password created_at updated_at :
  wf db = true ->
  wf (fst (insert_user db username email password created_at updated_at))
  = true.
Proof.
  intros Hwf. unfold insert_user.
  destruct (outage db) as [msg |] eqn:Hup; [exact Hwf |].
  unfold wf in Hwf. rewrite !andb_true_iff in Hwf.
  destruct Hwf as [[[[[[[W1 W2] W3] W4] W5] W6] W7] W8].
  assert (R : forallb (fun u => idInRange (N.succ (users_id_seq db))
                                          (User_ID u))
                      (users db) = true).
  { revert W4. apply forallb_weaken. intros x _. apply idInRange_succ. }
  destruct (existsb (hasUserID _) (users db)) eqn:Hpk;
    [| destruct (existsb (hasUsername username) (users db)) eqn:Hun;
       [| destruct (existsb (hasEmail email) (users db)) eqn:Hem]];
    cbn [fst]; unfold wf; cbn [users products users_id_seq products_id_seq];
    rewrite ?andb_true_iff; repeat split; try assumption.
  - rewrite map_app. cbn. apply (distinct_snoc N.eqb N.eqb_eq); [exact W1 |].
    rewrite <- Hpk. apply existsb_map_key. intros x. apply N.eqb_sym.
  - rewrite map_app. cbn.
    apply (distinct_snoc String.eqb String.eqb_eq); [exact W2 |].
    rewrite <- Hun. apply existsb_map_key. intros x. apply String.eqb_sym.
  - rewrite map_app. cbn.
    apply (distinct_snoc String.eqb String.eqb_eq); [exact W3 |].
    rewrite <- Hem. apply existsb_map_key. intros x. apply String.eqb_sym.
  - rewrite forallb_snoc, R. cbn. apply idInRange_new.
  - revert W8. apply forallb_weaken. intros p _. apply existsb_app_l.
Qed.

Lemma insert_product_wf db name description price user_id created_at
  updated_at :
  wf db = true ->
  wf (fst (insert_product db name description price user_id created_at
                          updated_at)) = true.
Proof.
  intros Hwf. unfold insert_product.
  destruct (outage db) as [msg |] eqn:Hup; [exact Hwf |].
  unfold wf in Hwf. rewrite !andb_true_iff in Hwf.
  destruct Hwf as [[[[[[[W1 W2] W3] W4] W5] W6] W7] W8].
  assert (R : forallb (fun p => idInRange (N.succ (products_id_seq db))
                                          (Product_ID p))
                      (products db) = true).
  { revert W6. apply forallb_weaken. intros x _. apply idInRange_succ. }
  destruct (existsb (hasProductID _) (products db)) eqn:Hpk;
    [| destruct (check_price price) eqn:Hck;
       [destruct (existsb (hasUserID user_id) (users db)) eqn:Hfk |]];
    cbn [fst negb]; unfold wf;
    cbn [users products users_id_seq products_id_seq];
    rewrite ?andb_true_iff; repeat split; try assumption.
  - rewrite map_app. cbn. apply (distinct_snoc N.eqb N.eqb_eq); [exact W5 |].
    rewrite <- Hpk. apply existsb_map_key. intros x. apply N.eqb_sym.
  - rewrite forallb_snoc, R. cbn. apply idInRange_new.
  - rewrite forallb_snoc, W7. exact Hck.
  - rewrite forallb_snoc, W8. exact Hfk.
Qed.

Lemma matched_row_counts id (l : list Product) p :
  In p l -> hasProductID id p = true ->
  Nat.eqb (List.length (filter (hasProductID id) l)) 0 = false.
Proof.
  intros Hin Hp.
  assert (Hf : In p (filter (hasProductID id) l)) by (now apply filter_In).
  destruct (filter (hasProductID id) l); [contradiction | reflexivity].
Qed.

Lemma update_product_wf db name description price now id :
  wf db = true ->
  wf (fst (update_product db name description price now id)) = true.
Proof.
  intros Hwf. unfold update_product.
  destruct (outage db) as [msg |] eqn:Hup; [exact Hwf |].
  destruct (negb (Nat.eqb _ 0) && negb (check_price price)) eqn:Hguard;
    [exact Hwf |].
  unfold wf in Hwf. rewrite !andb_true_iff in Hwf.
  destruct Hwf as [[[[[[[W1 W2] W3] W4] W5] W6] W7] W8].
  cbn [fst]; unfold wf; cbn [users products users_id_seq products_id_seq].
  rewrite map_Product_ID_set_product.
  rewrite ?andb_true_iff; repeat split; try assumption.
  - rewrite forallb_forall in *. intros q Hq.
    apply in_map_iff in Hq. destruct Hq as [p [<- Hp]].
    unfold set_product. destruct (hasProductID id p); cbn; now apply W6.
  - rewrite forallb_forall in *. intros q Hq.
    apply in_map_iff in Hq. destruct Hq as [p [<- Hp]].
    unfold set_product. destruct (hasProductID id p) eqn:Hid; cbn;
      [| now apply W7].
    rewrite (matched_row_counts id _ p Hp Hid) in Hguard. cbn in Hguard.
    now apply negb_false_iff in Hguard.
  - rewrite forallb_forall in *. intros q Hq.
    apply in_map_iff in Hq. destruct Hq as [p [<- Hp]].
    unfold set_product. destruct (hasProductID id p); cbn; now apply W8.
Qed.

Lemma delete_product_wf db id :
  wf db = true -> wf (fst (delete_product db id)) = true.
Proof.
  intros Hwf. unfold delete_product.
  destruct (outage db) as [msg |] eqn:Hup; [exact Hwf |].
  unfold wf in Hwf. rewrite !andb_true_iff in Hwf.
  destruct Hwf as [[[[[[[W1 W2] W3] W4] W5] W6] W7] W8].
  cbn [fst]; unfold wf; cbn [users products users_id_seq products_id_seq].
  rewrite ?andb_true_iff; repeat split; try assumption.
  - now apply distinct_filter.
  - now apply forallb_filter.
  - now apply forallb_filter.
  - now apply forallb_filter.
Qed.

(** The store each service operation returns, in terms of the statements
    it ran. *)
Lemma RegisterUser_store (B : bcrypt.Bcrypt) db salt created_at updated_at req :
  fst (service.RegisterUser db salt created_at updated_at req) = db
  \/ exists password,
      fst (service.RegisterUser db salt created_at updated_at req)
      = fst (insert_user db (reg_Username req) (reg_Email req) password
                         created_at updated_at).
Proof.
  unfold service.RegisterUser.
  destruct (isOk _); [now left |].
  destruct (bcrypt.GenerateFromPassword _ _ _) as [hash | err]; [| now left].
  right. exists hash.
  unfold repository.CreateUser. cbn [Username Email Password].
  destruct (insert_user _ _ _ _ _ _) as [db' result].
  now destruct (gorm.Error result).
Qed.

Lemma AddProduct_store db created_at updated_at userID req :
  fst (service.AddProduct db created_at updated_at userID req)
  = fst (insert_product db (add_Name req) (add_Description req)
                        (add_Price req) userID created_at updated_at).
Proof.
  unfold service.AddProduct, repository.AddProduct.
  cbn [Name Description Price UserID].
  destruct (insert_product _ _ _ _ _ _ _) as [db' result].
  now destruct (gorm.Error result).
Qed.

Lemma UpdateProduct_store db now productID userID req :
  fst (service.UpdateProduct db now productID userID req) = db
  \/ exists product,
      repository.GetProductByID db productID = Ok product
      /\ UserID product = userID
      /\ fst (service.UpdateProduct db now productID userID req)
         = fst (update_product db
                  (Name (service.applyPatch product req))
                  (Description (service.applyPatch product req))
                  (Price (service.applyPatch product req))
                  now (Product_ID product)).
Proof.
  unfold service.UpdateProduct.
  destruct (repository.GetProductByID db productID) as [product | err];
    [| now left].
  destruct (N.eqb (UserID product) userID) eqn:Hown; cbn [negb]; [| now left].
  right. exists product. apply N.eqb_eq in Hown.
  split; [reflexivity | split; [exact Hown |]].
  unfold repository.UpdateProduct. rewrite applyPatch_ID.
  destruct (update_product _ _ _ _ _ _) as [db' result].
  destruct (gorm.Error result); [reflexivity |].
  now destruct (Z.eqb _ 0).
Qed.

Lemma DeleteProduct_store db productID userID :
  fst (service.DeleteProduct db productID userID) = db
  \/ fst (service.DeleteProduct db productID userID)
     = fst (delete_product db productID).
Proof.
  unfold service.DeleteProduct.
  destruct (repository.GetProductByID db productID) as [product | err];
    [| now left].
  destruct (negb (N.eqb (UserID product) userID)); [now left |].
  right. unfold repository.DeleteProduct.
  destruct (delete_product _ _) as [db' result].
  destruct (gorm.Error result); [reflexivity |].
  now destruct (Z.eqb _ 0).
Qed.

(** Every operation, and every change of the connection state, takes a
    store that satisfies the schema to one that does. *)
Lemma step_wf (B : bcrypt.Bcrypt) db op :
  wf db = true -> wf (step db op) = true.
Proof.
  intros Hwf. destruct op; cbn [step]; try exact Hwf.
  - destruct (RegisterUser_store B db salt created_at updated_at req)
      as [-> | [password ->]]; [exact Hwf | now apply insert_user_wf].
  - rewrite AddProduct_store. now apply insert_product_wf.
  - destruct (UpdateProduct_store db now productID userID req)
      as [-> | [product [_ [_ ->]]]]; [exact Hwf | now apply update_product_wf].
  - destruct (DeleteProduct_store db productID userID) as [-> | ->];
      [exact Hwf | now apply delete_product_wf].
Qed.

Lemma run_wf (B : bcrypt.Bcrypt) ops : forall db,
  wf db = true -> wf (run db ops) = true.
Proof.
  induction ops as [| op ops IH]; intros db Hwf; [exact Hwf |].
  cbn. apply IH. now apply step_wf.
Qed.

Lemma emptyDB_wf : wf emptyDB = true.
Proof. reflexivity. Qed.

(** Every store the service builds from the empty one satisfies the
    schema. *)
Lemma reachable_wf (B : bcrypt.Bcrypt) ops : wf (run emptyDB ops) = true.
Proof. apply run_wf, emptyDB_wf. Qed.

(** ** Partial updates and ownership *)

Lemma same_id_same_product db p q :
  wf db = true -> In p (products db) -> In q (products db) ->
  Product_ID q = Product_ID p -> q = p.
Proof.
  intros Hwf Hp Hq Hid.
  pose proof (stored_product_found db p Hwf Hp) as Fp.
  pose proof (stored_product_found db q Hwf Hq) as Fq.
  rewrite Hid in Fq. congruence.
Qed.

Lemma applyPatch_fields p patch :
  Name (service.applyPatch p patch)
  = (if String.eqb (upd_Name patch) "" then Name p else upd_Name patch)
  /\ Description (service.applyPatch p patch)
     = (if String.eqb (upd_Description patch) "" then Description p
        else upd_Description patch)
  /\ Price (service.applyPatch p patch)
     = (if PrimFloat.eqb (upd_Price patch) 0 then Price p
        else upd_Price patch).
Proof.
  unfold service.applyPatch.
  destruct (String.eqb (upd_Name patch) "");
    destruct (String.eqb (upd_Description patch) "");
    destruct (PrimFloat.eqb (upd_Price patch) 0); cbn; repeat split.
Qed.

Lemma insert_product_rows db name description price user_id created_at
  updated_at p' :
  In p' (products (fst (insert_product db name description price user_id
                                       created_at updated_at))) ->
  In p' (products db) \/ Product_ID p' = N.succ (products_id_seq db).
Proof.
  unfold insert_product.
  destruct (outage db); [now left |].
  destruct (existsb _ (products db)); [now left |].
  destruct (negb (check_price price)); [now left |].
  destruct (negb (existsb _ (users db))); [now left |].
  cbn. intros Hin. apply in_app_or in Hin.
  destruct Hin as [Hin | [<- | []]]; [now left | now right].
Qed.

Lemma insert_product_seq db name description price user_id created_at
  updated_at :
  (products_id_seq db
   <= products_id_seq (fst (insert_product db name description price user_id
                                           created_at updated_at)))%N.
Proof.
  unfold insert_product.
  destruct (outage db); [cbn; lia |].
  destruct (existsb _ (products db)); [cbn; lia |].
  destruct (negb (check_price price)); [cbn; lia |].
  destruct (negb (existsb _ (users db))); cbn; lia.
Qed.

Lemma insert_user_products db username email password created_at updated_at :
  products (fst (insert_user db username email password created_at
                             updated_at)) = products db
  /\ products_id_seq (fst (insert_user db username email password created_at
                                       updated_at)) = products_id_seq db.
Proof.
  unfold insert_user.
  destruct (outage db); [now split |].
  destruct (existsb _ (users db)); [now split |].
  destruct (existsb _ (users db)); [now split |].
  destruct (existsb _ (users db)); now split.
Qed.

Lemma update_product_rows db name description price now id p' :
  In p' (products (fst (update_product db name description price now id))) ->
  exists p, In p (products db)
            /\ Product_ID p = Product_ID p' /\ UserID p = UserID p'.
Proof.
  unfold update_product.
  destruct (outage db); [intros; now exists p' |].
  destruct (_ && _); [intros; now exists p' |].
  cbn. intros Hin. apply in_map_iff in Hin. destruct Hin as [p [<- Hp]].
  exists p. unfold set_product. now destruct (hasProductID id p).
Qed.

Lemma update_product_seq db name description price now id :
  products_id_seq (fst (update_product db name description price now id))
  = products_id_seq db.
Proof.
  unfold update_product.
  destruct (outage db); [reflexivity |]. now destruct (_ && _).
Qed.

Lemma delete_product_rows db id p' :
  In p' (products (fst (delete_product db id))) -> In p' (products db).
Proof.
  unfold delete_product.
  destruct (outage db); [trivial |].
  cbn. intros Hin. now apply filter_In in Hin.
Qed.

Lemma delete_product_seq db id :
  products_id_seq (fst (delete_product db id)) = products_id_seq db.
Proof. unfold delete_product. now destruct (outage db). Qed.

(** A product of the store after one step was there before, with the same
    owner, or carries an identifier the sequence had not yet handed out. *)
Lemma step_products (B : bcrypt.Bcrypt) db op p' :
  In p' (products (step db op)) ->
  (exists p, In p (products db)
             /\ Product_ID p = Product_ID p' /\ UserID p = UserID p')
  \/ (products_id_seq db < Product_ID p')%N.
Proof.
  destruct op; cbn [step products]; try (intros; left; now exists p').
  - destruct (RegisterUser_store B db salt created_at updated_at req)
      as [-> | [password ->]]; [intros; left; now exists p' |].
    rewrite (proj1 (insert_user_products _ _ _ _ _ _)).
    intros; left; now exists p'.
  - rewrite AddProduct_store. intros Hin.
    apply insert_product_rows in Hin. destruct Hin as [Hin | ->].
    + left; now exists p'.
    + right; lia.
  - destruct (UpdateProduct_store db now productID userID req)
      as [-> | [product [_ [_ ->]]]]; [intros; left; now exists p' |].
    intros Hin. left. now apply update_product_rows in Hin.
  - destruct (DeleteProduct_store db productID userID) as [-> | ->];
      intros Hin; left; exists p'; repeat split;
      [exact Hin | now apply delete_product_rows in Hin].
Qed.

Lemma step_seq (B : bcrypt.Bcrypt) db op :
  (products_id_seq db <= products_id_seq (step db op))%N.
Proof.
  destruct op; cbn [step products_id_seq]; try lia.
  - destruct (RegisterUser_store B db salt created_at updated_at req)
      as [-> | [password ->]]; [lia |].
    rewrite (proj2 (insert_user_products _ _ _ _ _ _)). lia.
  - rewrite AddProduct_store. apply insert_product_seq.
  - destruct (UpdateProduct_store db now productID userID req)
      as [-> | [product [_ [_ ->]]]]; [lia |].
    rewrite update_product_seq. lia.
  - destruct (DeleteProduct_store db productID userID) as [-> | ->]; [lia |].
    rewrite delete_product_seq. lia.
Qed.

Lemma run_products (B : bcrypt.Bcrypt) ops : forall db p',
  In p' (products (run db ops)) ->
  (exists p, In p (products db)
             /\ Product_ID p = Product_ID p' /\ UserID p = UserID p')
  \/ (products_id_seq db < Product_ID p')%N.
Proof.
  induction ops as [| op ops IH]; intros db p' Hin.
  - left. now exists p'.
  - cbn in Hin. apply IH in Hin.
    pose proof (step_seq B db op) as Hseq.
    destruct Hin as [[p1 [Hp1 [Hid Hown]]] | Hnew]; [| right; lia].
    apply (step_products B) in Hp1.
    destruct Hp1 as [[p [Hp [Hid' Hown']]] | Hnew]; [| right; lia].
    left. exists p. repeat split; congruence.
Qed.

(** C9: a successful [UpdateProduct] is made by the owner and replaces the
    stored row by [patchedRow]: name, description and price change exactly
    where the patch value is non-empty or non-zero, every other row and the
    accounts are kept, and the returned record carries the same name,
    description, price and owner.  A patch with only a price leaves name and
    description as they were.  Across every run of operations a stored
    product keeps its owner. *)
Theorem UpdateProduct_changes_only_patched_fields :
  (forall db now p caller patch db' p',
      wf db = true ->
      In p (products db) ->
      service.UpdateProduct db now (Product_ID p) caller patch = (db', Ok p') ->
      caller = UserID p
      /\ products db'
         = map (fun r => if hasProductID (Product_ID p) r
                         then patchedRow p patch now else r)
               (products db)
      /\ users db' = users db
      /\ In (patchedRow p patch now) (products db')
      /\ Name p' = Name (patchedRow p patch now)
      /\ Description p' = Description (patchedRow p patch now)
      /\ Price p' = Price (patchedRow p patch now)
      /\ UserID p' = UserID p
      /\ (upd_Name patch = "" -> upd_Description patch = "" ->
          Name (patchedRow p patch now) = Name p
          /\ Description (patchedRow p patch now) = Description p))
  /\ (forall (B : bcrypt.Bcrypt) db ops p p',
      wf db = true ->
      In p (products db) ->
      In p' (products (run db ops)) ->
      Product_ID p' = Product_ID p ->
      UserID p' = UserID p).
Proof.
  split.
  - intros db now p caller patch db' p' Hwf Hin Hupd.
    unfold service.UpdateProduct in Hupd.
    destruct (outage db) as [msg |] eqn:Hup.
    { unfold repository.GetProductByID, select_product_by_id in Hupd.
      rewrite Hup in Hupd. discriminate. }
    rewrite (GetProductByID_stored db p Hwf Hup Hin) in Hupd.
    destruct (N.eqb (UserID p) caller) eqn:Hown; cbn [negb] in Hupd;
      [| discriminate].
    apply N.eqb_eq in Hown.
    unfold repository.UpdateProduct, update_product in Hupd.
    rewrite Hup, applyPatch_ID in Hupd.
    destruct (applyPatch_fields p patch) as [Fn [Fd Fp]].
    destruct (negb (Nat.eqb _ 0) && negb (check_price _)); cbn in Hupd;
      [discriminate |].
    destruct (Z.eqb _ 0); [discriminate |].
    inversion Hupd; subst db' p'; clear Hupd. cbn [products users].
    assert (Hmap :
      map (set_product (Name (service.applyPatch p patch))
                       (Description (service.applyPatch p patch))
                       (Price (service.applyPatch p patch)) now (Product_ID p))
          (products db)
      = map (fun r => if hasProductID (Product_ID p) r
                      then patchedRow p patch now else r) (products db)).
    { apply map_ext_in. intros r Hr. unfold set_product.
      destruct (hasProductID (Product_ID p) r) eqn:Hid; [| reflexivity].
      apply N.eqb_eq in Hid.
      rewrite (same_id_same_product db p r Hwf Hin Hr Hid).
      unfold patchedRow. now rewrite Fn, Fd, Fp. }
    rewrite Hmap.
    split; [now symmetry |]. split; [reflexivity |]. split; [reflexivity |].
    split.
    { apply in_map_iff. exists p. split; [| exact Hin].
      unfold hasProductID. now rewrite N.eqb_refl. }
    unfold patchedRow; cbn [Name Description Price].
    rewrite applyPatch_UserID.
    split; [exact Fn |]. split; [exact Fd |]. split; [exact Fp |].
    split; [reflexivity |].
    intros Hn Hd. rewrite Hn, Hd. now split.
  - intros B db ops p p' Hwf Hp Hp' Hid.
    destruct (run_products B ops db p' Hp') as [[p0 [Hp0 [Hid0 Hown0]]] | Hnew].
    + assert (p0 = p)
        by (apply (same_id_same_product db p p0 Hwf Hp Hp0); congruence).
      congruence.
    + pose proof (wf_product_range db p Hwf Hp). lia.
Qed.

Lemma UpdateProduct_changes_only_patched_fields_witness :
  service.UpdateProduct sampleDB 40%Z (Product_ID widget) 1%N samplePricePatch
  = (mkDB [alice; bob] [patchedRow widget samplePricePatch 40%Z] 2%N 1%N None,
     Ok (mkProduct 1%N 30%Z 30%Z "widget" "" 19.99%float 1%N))
  /\ Name (patchedRow widget samplePricePatch 40%Z) = "widget"
  /\ Price (patchedRow widget samplePricePatch 40%Z) = 19.99%float
  /\ UserID (mkProduct 1%N 30%Z 30%Z "widget" "" 19.99%float 1%N) = 1%N
  /\ UserID (patchedRow widget samplePricePatch 40%Z) = UserID widget.
Proof.
  assert (Hrun : service.UpdateProduct sampleDB 40%Z (Product_ID widget) 1%N
                                       samplePricePatch
    = (mkDB [alice; bob] [patchedRow widget samplePricePatch 40%Z] 2%N 1%N None,
       Ok (mkProduct 1%N 30%Z 30%Z "widget" "" 19.99%float 1%N)))
    by reflexivity.
  split; [exact Hrun |].
  destruct UpdateProduct_changes_only_patched_fields as [Hpatch Hkeep].
  destruct (Hpatch sampleDB 40%Z widget 1%N samplePricePatch _ _
                   eq_refl (or_introl eq_refl) Hrun)
    as [_ [_ [_ [_ [_ [_ [_ [Hown _]]]]]]]].
  split; [reflexivity |]. split; [reflexivity |]. split; [exact Hown |].
  apply (Hkeep sampleBcrypt sampleDB
               [OpUpdateProduct 40%Z 1%N 1%N samplePricePatch;
                OpDeleteProduct 1%N 2%N]
               widget (patchedRow widget samplePricePatch 40%Z)).
  - reflexivity.
  - left; reflexivity.
  - left; reflexivity.
  - reflexivity.
Defined.

(** ** Tokens *)

(** The token [GenerateToken] returns: it never fails. *)
Lemma GenerateToken_issues (H : jwt.HMAC auth.Claims) jm nowExp nowIat nowNbf
  userID :
  auth.GenerateToken jm nowExp nowIat nowNbf userID
  = Ok (jwt.Compact jwt.HS256
          (auth.newClaims jm nowExp nowIat nowNbf userID)
          (jwt.hmacSum jwt.HS256 (auth.secretKey jm)
             (auth.newClaims jm nowExp nowIat nowNbf userID))).
Proof. reflexivity. Qed.

Lemma Truncate_le t : (jwt.Truncate t jwt.Second <= t)%Z.
Proof.
  unfold jwt.Truncate, jwt.Second.
  pose proof (Z.mod_pos_bound t 1000000000 ltac:(lia)). lia.
Qed.

Lemma Truncate_gt t : (t - jwt.Second < jwt.Truncate t jwt.Second)%Z.
Proof.
  unfold jwt.Truncate, jwt.Second.
  pose proof (Z.mod_pos_bound t 1000000000 ltac:(lia)). lia.
Qed.

(** [ValidateToken] either returns the claims of a token it accepts, or
    fails with a token error on a token it does not accept. *)
Lemma ValidateToken_cases (H : jwt.HMAC auth.Claims) jm now ts :
  (exists claims,
      auth.ValidateToken jm now ts = Ok claims /\ accepts jm now ts claims)
  \/ (failsWith (auth.ValidateToken jm now ts) TokenError
      /\ forall claims, ~ accepts jm now ts claims).
Proof.
  destruct ts as [raw | alg claims sig].
  - right. split; [eexists; split; reflexivity |].
    intros claims [alg [sig [Hts _]]]. discriminate.
  - unfold auth.ValidateToken, jwt.ParseWithClaims, auth.keyFunc.
    cbn [jwt.Method].
    destruct (jwt.isSigningMethodHMAC alg) eqn:Halg; cbn [negb].
    2:{ right. split; [eexists; split; reflexivity |].
        intros c [alg' [sig' [Hts [Halg' _]]]].
        inversion Hts; subst. congruence. }
    unfold jwt.Verify. rewrite Halg.
    destruct (String.eqb sig (jwt.hmacSum alg (auth.secretKey jm) claims))
      eqn:Hsig.
    2:{ right. split; [eexists; split; reflexivity |].
        intros c [alg' [sig' [Hts [_ [Hsig' _]]]]].
        inversion Hts; subst. rewrite String.eqb_refl in Hsig. discriminate. }
    apply String.eqb_eq in Hsig.
    unfold jwt.Validate, jwt.verifyExpiresAt, jwt.verifyNotBefore.
    cbn [jwt.GetExpirationTime jwt.GetNotBefore auth.Claims_Claims].
    destruct (jwt.ExpiresAt (auth.Registered claims)) as [exp |] eqn:Hexp;
      [destruct (Z.ltb now exp) eqn:Hlt |];
      (destruct (jwt.NotBefore (auth.Registered claims)) as [nbf |] eqn:Hnbf;
       [destruct (Z.ltb now nbf) eqn:Hlt' |]);
      cbn [jwt.errList app jwt.Valid negb jwt.TokenClaims];
      rewrite ?Z.ltb_lt, ?Z.ltb_ge in *.
    all: try (right; split; [eexists; split; reflexivity |];
              intros c [alg' [sig' [Hts [_ [_ [Hn He]]]]]];
              inversion Hts; subst;
              try (specialize (Hn _ Hnbf)); try (specialize (He _ Hexp));
              lia).
    all: left; exists claims; split; [reflexivity |];
      exists alg, sig; repeat split; try assumption;
      unfold notBeforeOk, notExpired; intros x Hx;
      rewrite ?Hnbf, ?Hexp in Hx; inversion Hx; subst; lia.
Qed.

(** A token [GenerateToken] issued validates from the last clock read of
    the issuance up to, and excluding, its expiry. *)
Lemma ValidateToken_issued (H : jwt.HMAC auth.Claims) jm nowExp nowIat nowNbf
  userID now ts :
  auth.GenerateToken jm nowExp nowIat nowNbf userID = Ok ts ->
  (nowNbf <= now)%Z ->
  (now < jwt.Truncate (nowExp + auth.expiresInHour jm)%Z jwt.Second)%Z ->
  exists claims,
    auth.ValidateToken jm now ts = Ok claims
    /\ auth.UserID claims = userID
    /\ jwt.Subject (auth.Registered claims) = userID.
Proof.
  rewrite GenerateToken_issues. intros Hts Hnbf Hexp.
  inversion Hts; subst ts; clear Hts.
  pose proof (Truncate_le nowNbf) as Hle.
  unfold auth.ValidateToken, jwt.ParseWithClaims, auth.keyFunc, jwt.Verify.
  cbn [jwt.Method jwt.isSigningMethodHMAC negb].
  rewrite String.eqb_refl.
  unfold jwt.Validate, jwt.verifyExpiresAt, jwt.verifyNotBefore.
  cbn [jwt.GetExpirationTime jwt.GetNotBefore auth.Claims_Claims
       jwt.ExpiresAt jwt.NotBefore auth.Registered auth.newClaims
       jwt.NewNumericDate].
  apply Z.ltb_lt in Hexp. rewrite Hexp.
  assert (Hn : Z.ltb now (jwt.Truncate nowNbf jwt.Second) = false)
    by (apply Z.ltb_ge; lia).
  rewrite Hn. cbn.
  eexists; repeat split.
Qed.

Lemma ValidateToken_expired (H : jwt.HMAC auth.Claims) jm nowExp nowIat nowNbf
  userID now ts :
  auth.GenerateToken jm nowExp nowIat nowNbf userID = Ok ts ->
  (jwt.Truncate (nowExp + auth.expiresInHour jm)%Z jwt.Second <= now)%Z ->
  failsWith (auth.ValidateToken jm now ts) TokenError.
Proof.
  rewrite GenerateToken_issues. intros Hts Hexp.
  inversion Hts; subst ts; clear Hts.
  destruct (ValidateToken_cases H jm now
              (jwt.Compact jwt.HS256
                 (auth.newClaims jm nowExp nowIat nowNbf userID)
                 (jwt.hmacSum jwt.HS256 (auth.secretKey jm)
                    (auth.newClaims jm nowExp nowIat nowNbf userID))))
    as [[claims [_ Hacc]] | [Hfail _]]; [| exact Hfail].
  exfalso.
  destruct Hacc as [alg [sig [Hts [_ [_ [_ He]]]]]].
  inversion Hts; subst.
  specialize (He _ eq_refl). lia.
Qed.

(** C3 (amended): [ValidateToken] returns the claims of a token, and with
    them its subject, exactly when the token is well-formed, names an HMAC
    algorithm, carries the MAC of its content under the configured secret,
    is not before its not-before time when it has one, and is strictly
    before its expiry time when it has one.  In every other case it fails
    with [TokenError]: on a malformed string, a non-HMAC algorithm, a
    signature that is not that MAC, an expiry time at or before now, a
    not-before time after now.  A token just issued validates from the end
    of the issuance until its expiry, the issue time plus the validity
    truncated to whole seconds, and is refused at that instant and later;
    the interval is not empty when one second or more of validity is left. *)
Theorem ValidateToken_accepts_exactly :
  forall (H : jwt.HMAC auth.Claims) jm,
    (forall now ts claims,
        auth.ValidateToken jm now ts = Ok claims <-> accepts jm now ts claims)
    /\ (forall now ts,
        (forall claims, ~ accepts jm now ts claims) ->
        failsWith (auth.ValidateToken jm now ts) TokenError)
    /\ (forall now raw,
        failsWith (auth.ValidateToken jm now (jwt.Malformed raw)) TokenError)
    /\ (forall now alg claims sig,
        jwt.isSigningMethodHMAC alg = false ->
        failsWith (auth.ValidateToken jm now (jwt.Compact alg claims sig))
                  TokenError)
    /\ (forall now alg claims sig,
        sig <> jwt.hmacSum alg (auth.secretKey jm) claims ->
        failsWith (auth.ValidateToken jm now (jwt.Compact alg claims sig))
                  TokenError)
    /\ (forall now alg claims sig exp,
        jwt.ExpiresAt (auth.Registered claims) = Some exp ->
        (exp <= now)%Z ->
        failsWith (auth.ValidateToken jm now (jwt.Compact alg claims sig))
                  TokenError)
    /\ (forall now alg claims sig nbf,
        jwt.NotBefore (auth.Registered claims) = Some nbf ->
        (now < nbf)%Z ->
        failsWith (auth.ValidateToken jm now (jwt.Compact alg claims sig))
                  TokenError)
    /\ (forall nowExp nowIat nowNbf userID,
        exists ts,
          auth.GenerateToken jm nowExp nowIat nowNbf userID = Ok ts
          /\ (forall now,
                 (nowNbf <= now)%Z ->
                 (now < jwt.Truncate (nowExp + auth.expiresInHour jm)%Z
                                     jwt.Second)%Z ->
                 exists claims,
                   auth.ValidateToken jm now ts = Ok claims
                   /\ auth.UserID claims = userID)
          /\ (forall now,
                 (nowNbf <= now)%Z ->
                 (now + jwt.Second <= nowExp + auth.expiresInHour jm)%Z ->
                 exists claims,
                   auth.ValidateToken jm now ts = Ok claims
                   /\ auth.UserID claims = userID)
          /\ (forall now,
                 (jwt.Truncate (nowExp + auth.expiresInHour jm)%Z jwt.Second
                  <= now)%Z ->
                 failsWith (auth.ValidateToken jm now ts) TokenError)
          /\ (forall now,
                 (nowExp + auth.expiresInHour jm <= now)%Z ->
                 failsWith (auth.ValidateToken jm now ts) TokenError)).
Proof.
  intros H jm.
  assert (Hfail : forall now ts,
             (forall claims, ~ accepts jm now ts claims) ->
             failsWith (auth.ValidateToken jm now ts) TokenError).
  { intros now ts Hno.
    destruct (ValidateToken_cases H jm now ts) as [[c [_ Hc]] | [Hf _]];
      [now apply Hno in Hc | exact Hf]. }
  split.
  { intros now ts claims.
    destruct (ValidateToken_cases H jm now ts)
      as [[c [Hok Hc]] | [[e [Herr _]] Hno]].
    - split.
      + intros Hok'. rewrite Hok in Hok'. inversion Hok'; now subst.
      + intros [alg [sig [Hts _]]]. destruct Hc as [alg' [sig' [Hts' _]]].
        rewrite Hts in Hts'. inversion Hts'; now subst.
    - split.
      + intros Hok. rewrite Herr in Hok. discriminate.
      + intros Hc. now apply Hno in Hc. }
  split; [exact Hfail |].
  split.
  { intros now raw. apply Hfail. intros c [alg [sig [Hts _]]]. discriminate. }
  split.
  { intros now alg claims sig Halg. apply Hfail.
    intros c [alg' [sig' [Hts [Halg' _]]]]. inversion Hts; subst. congruence. }
  split.
  { intros now alg claims sig Hsig. apply Hfail.
    intros c [alg' [sig' [Hts [_ [Hsig' _]]]]]. inversion Hts; subst.
    now apply Hsig. }
  split.
  { intros now alg claims sig exp Hexp Hle. apply Hfail.
    intros c [alg' [sig' [Hts [_ [_ [_ He]]]]]]. inversion Hts; subst.
    specialize (He _ Hexp). lia. }
  split.
  { intros now alg claims sig nbf Hnbf Hlt. apply Hfail.
    intros c [alg' [sig' [Hts [_ [_ [Hn _]]]]]]. inversion Hts; subst.
    specialize (Hn _ Hnbf). lia. }
  intros nowExp nowIat nowNbf userID.
  eexists. split; [apply GenerateToken_issues |].
  pose proof (GenerateToken_issues H jm nowExp nowIat nowNbf userID) as Hgen.
  pose proof (Truncate_gt (nowExp + auth.expiresInHour jm)%Z) as Hgt.
  pose proof (Truncate_le (nowExp + auth.expiresInHour jm)%Z) as Hle.
  repeat split.
  - intros now Hn He.
    destruct (ValidateToken_issued H jm _ _ _ _ now _ Hgen Hn He)
      as [c [Hok [Hid _]]].
    now exists c.
  - intros now Hn He.
    assert (He' : (now < jwt.Truncate (nowExp + auth.expiresInHour jm)%Z
                                      jwt.Second)%Z) by lia.
    destruct (ValidateToken_issued H jm _ _ _ _ now _ Hgen Hn He')
      as [c [Hok [Hid _]]].
    now exists c.
  - intros now He. exact (ValidateToken_expired H jm _ _ _ _ now _ Hgen He).
  - intros now He.
    apply (ValidateToken_expired H jm _ _ _ _ now _ Hgen). lia.
Qed.

Lemma ValidateToken_accepts_exactly_witness :
  failsWith (@auth.ValidateToken sampleHMAC sampleJWT 100%Z
               (jwt.Compact jwt.RS256 (sampleClaims 200%Z) "forged"))
            TokenError
  /\ exists claims,
      @auth.ValidateToken sampleHMAC sampleJWT 99%Z (sampleToken 100%Z)
      = Ok claims.
Proof.
  destruct (ValidateToken_accepts_exactly sampleHMAC sampleJWT)
    as [Hiff [_ [_ [Halg _]]]].
  split.
  - apply Halg. reflexivity.
  - exists (sampleClaims 100%Z).
    apply (Hiff 99%Z (sampleToken 100%Z) (sampleClaims 100%Z)).
    exists jwt.HS256, (sampleHMAC jwt.HS256 "secret" (sampleClaims 100%Z)).
    repeat split.
    + intros nbf Hnbf. cbn in Hnbf. inversion Hnbf. lia.
    + intros exp Hexp. cbn in Hexp. inversion Hexp. lia.
Defined.

(** C3 as stated fails in three places.  A well-formed token, signed with
    HS256 under the configured secret and validated at the very instant of
    its expiry, meets "notBefore <= now <= expiresAt" and is refused.  A
    token with that signature and neither expiry nor not-before time is
    accepted although the stated condition does not hold of it.  A token
    issued by a manager whose validity is zero is refused at the instant of
    its issuance. *)
Lemma ValidateToken_refuses_at_expiry :
  (@specAccepts sampleHMAC sampleJWT 100%Z (sampleToken 100%Z)
                (sampleClaims 100%Z)
   /\ @auth.ValidateToken sampleHMAC sampleJWT 100%Z (sampleToken 100%Z)
      = Err "invalid token: token has invalid claims: token is expired"
   /\ ~ (forall claims,
           @auth.ValidateToken sampleHMAC sampleJWT 100%Z (sampleToken 100%Z)
           = Ok claims
           <-> @specAccepts sampleHMAC sampleJWT 100%Z (sampleToken 100%Z)
                            claims))
  /\ (@auth.ValidateToken sampleHMAC sampleJWT 100%Z unboundedToken
      = Ok unboundedClaims
      /\ ~ @specAccepts sampleHMAC sampleJWT 100%Z unboundedToken
                        unboundedClaims)
  /\ (exists ts,
         @auth.GenerateToken sampleHMAC instantJWT 100%Z 100%Z 100%Z "1"
         = Ok ts
         /\ failsWith (@auth.ValidateToken sampleHMAC instantJWT 100%Z ts)
                      TokenError).
Proof.
  assert (Hspec : @specAccepts sampleHMAC sampleJWT 100%Z (sampleToken 100%Z)
                               (sampleClaims 100%Z)).
  { exists jwt.HS256, (sampleHMAC jwt.HS256 "secret" (sampleClaims 100%Z)),
      0%Z, 100%Z.
    repeat split; lia. }
  split; [| split].
  - split; [exact Hspec |].
    split; [reflexivity |].
    intros Hiff. apply Hiff in Hspec. discriminate.
  - split; [reflexivity |].
    intros [alg [sig [nbf [exp [_ [_ [_ [Hnbf _]]]]]]]]. discriminate.
  - eexists. split; [reflexivity |].
    eexists. split; reflexivity.
Qed.

(** ** Registration, login, validation *)

Lemma sampleBcrypt_correct : @bcrypt.BcryptCorrect sampleBcrypt.
Proof.
  intros salt password cost hash.
  unfold bcrypt.GenerateFromPassword, bcrypt.CompareHashAndPassword,
    sampleBcrypt.
  destruct (Nat.ltb 72 (String.length password)); intros Hgen;
    [discriminate |].
  inversion Hgen; subst hash.
  now rewrite String.eqb_refl.
Qed.

Lemma insert_user_users db username email password created_at updated_at u :
  In u (users db) ->
  In u (users (fst (insert_user db username email password created_at
                                updated_at))).
Proof.
  unfold insert_user.
  destruct (outage db); [trivial |].
  destruct (existsb _ (users db)); [trivial |].
  destruct (existsb _ (users db)); [trivial |].
  destruct (existsb _ (users db)); [trivial |].
  cbn. intros Hin. apply in_or_app. now left.
Qed.

Lemma insert_product_users db name description price user_id created_at
  updated_at :
  users (fst (insert_product db name description price user_id created_at
                             updated_at)) = users db.
Proof.
  unfold insert_product.
  destruct (outage db); [reflexivity |].
  destruct (existsb _ (products db)); [reflexivity |].
  destruct (negb (check_price price)); [reflexivity |].
  now destruct (negb (existsb _ (users db))).
Qed.

Lemma update_product_users db name description price now id :
  users (fst (update_product db name description price now id)) = users db.
Proof.
  unfold update_product.
  destruct (outage db); [reflexivity |]. now destruct (_ && _).
Qed.

Lemma delete_product_users db id :
  users (fst (delete_product db id)) = users db.
Proof. unfold delete_product. now destruct (outage db). Qed.

(** Accounts are never removed nor rewritten. *)
Lemma step_users (B : bcrypt.Bcrypt) db op u :
  In u (users db) -> In u (users (step db op)).
Proof.
  intros Hin. destruct op; cbn [step users]; try exact Hin.
  - destruct (RegisterUser_store B db salt created_at updated_at req)
      as [-> | [password ->]]; [exact Hin | now apply insert_user_users].
  - now rewrite AddProduct_store, insert_product_users.
  - destruct (UpdateProduct_store db now productID userID req)
      as [-> | [product [_ [_ ->]]]];
      [exact Hin | now rewrite update_product_users].
  - destruct (DeleteProduct_store db productID userID) as [-> | ->];
      [exact Hin | now rewrite delete_product_users].
Qed.

Lemma run_users (B : bcrypt.Bcrypt) ops : forall db u,
  In u (users db) -> In u (users (run db ops)).
Proof.
  induction ops as [| op ops IH]; intros db u Hin; [exact Hin |].
  cbn. apply IH. now apply step_users.
Qed.

(** Registration with a fresh email and a fresh username on a reachable
    store, when bcrypt produces a hash. *)
Lemma RegisterUser_fresh (B : bcrypt.Bcrypt) db salt created_at updated_at req
  hash :
  wf db = true ->
  outage db = None ->
  (forall u, In u (users db) -> Email u <> reg_Email req) ->
  (forall u, In u (users db) -> Username u <> reg_Username req) ->
  bcrypt.GenerateFromPassword salt (reg_Password req) bcrypt.DefaultCost
    = Ok hash ->
  service.RegisterUser db salt created_at updated_at req
  = (mkDB (users db
           ++ [mkUser (N.succ (users_id_seq db)) created_at updated_at
                      (reg_Username req) (reg_Email req) hash])
          (products db) (N.succ (users_id_seq db)) (products_id_seq db) None,
     Ok (mkUser (N.succ (users_id_seq db)) zeroTime zeroTime
                (reg_Username req) (reg_Email req) hash)).
Proof.
  intros Hwf Hup Hemail Hname Hhash.
  unfold service.RegisterUser.
  destruct (GetUserByEmail_absent db _ Hemail) as [err ->].
  cbn [isOk]. rewrite Hhash.
  unfold repository.CreateUser, insert_user.
  cbn [Username Email Password User_CreatedAt User_UpdatedAt].
  rewrite Hup.
  assert (Hid : existsb (hasUserID (N.succ (users_id_seq db))) (users db)
                = false).
  { apply (existsb_absent N.eqb N.eqb_eq User_ID).
    intros u Hu. pose proof (wf_user_range db u Hwf Hu). lia. }
  assert (Hn : existsb (hasUsername (reg_Username req)) (users db) = false)
    by (now apply (existsb_absent String.eqb String.eqb_eq Username)).
  assert (He : existsb (hasEmail (reg_Email req)) (users db) = false)
    by (now apply (existsb_absent String.eqb String.eqb_eq Email)).
  rewrite Hid, Hn, He. reflexivity.
Qed.

(** C2: on a reachable store that satisfies the schema, for a request whose
    email and username no stored account carries and whose password bcrypt
    hashes, [RegisterUser] succeeds; [LoginUser] with the same email and
    password, on the store registration returned or on any store later
    operations made of it, returns a token; and [ValidateToken], from the
    end of the issuance until the token expires, returns claims whose
    [UserID], and subject, is the decimal form of the identifier
    registration assigned. *)
Theorem register_login_validate_roundtrip :
  forall (B : bcrypt.Bcrypt) (BC : bcrypt.BcryptCorrect)
         (H : jwt.HMAC auth.Claims)
         jm db salt created_at updated_at req hash ops
         nowExp nowIat nowNbf now,
    wf db = true ->
    outage db = None ->
    (forall u, In u (users db) -> Email u <> reg_Email req) ->
    (forall u, In u (users db) -> Username u <> reg_Username req) ->
    bcrypt.GenerateFromPassword salt (reg_Password req) bcrypt.DefaultCost
      = Ok hash ->
    outage (run (fst (service.RegisterUser db salt created_at updated_at req))
                ops) = None ->
    (nowNbf <= now)%Z ->
    (now < jwt.Truncate (nowExp + auth.expiresInHour jm)%Z jwt.Second)%Z ->
    exists user token claims,
      snd (service.RegisterUser db salt created_at updated_at req) = Ok user
      /\ service.LoginUser jm
           (run (fst (service.RegisterUser db salt created_at updated_at req))
                ops)
           nowExp nowIat nowNbf
           (mkLoginRequest (reg_Email req) (reg_Password req))
         = Ok (mkLoginResponse token)
      /\ auth.ValidateToken jm now token = Ok claims
      /\ auth.UserID claims = fmt.Sprintf_d (User_ID user)
      /\ jwt.Subject (auth.Registered claims) = fmt.Sprintf_d (User_ID user).
Proof.
  intros B BC H jm db salt created_at updated_at req hash ops
         nowExp nowIat nowNbf now Hwf Hup Hemail Hname Hhash Hup' Hnbf Hexp.
  pose proof (RegisterUser_fresh B db salt created_at updated_at req hash
                Hwf Hup Hemail Hname Hhash) as Hreg.
  pose proof (step_wf B db (OpRegisterUser salt created_at updated_at req)
                Hwf) as Hwf1.
  cbn [step] in Hwf1.
  rewrite Hreg in *. cbn [fst snd] in *.
  set (db1 := mkDB _ _ _ _ _) in *.
  set (row := mkUser (N.succ (users_id_seq db)) created_at updated_at
                     (reg_Username req) (reg_Email req) hash).
  assert (Hrow : In row (users (run db1 ops))).
  { apply run_users. cbn. apply in_or_app. right. now left. }
  pose proof (run_wf B ops db1 Hwf1) as Hwf2.
  pose proof (GetUserByEmail_stored _ row Hwf2 Hup' Hrow) as Hget.
  cbn [Email row] in Hget.
  destruct (ValidateToken_issued H jm nowExp nowIat nowNbf
              (fmt.Sprintf_d (N.succ (users_id_seq db))) now _
              (GenerateToken_issues H jm nowExp nowIat nowNbf _) Hnbf Hexp)
    as [claims [Hval [Hid Hsub]]].
  eexists; eexists; exists claims.
  split; [reflexivity |].
  split.
  - unfold service.LoginUser. cbn [login_Email login_Password].
    rewrite Hget. cbn [Password User_ID row].
    rewrite (bcrypt.compare_generated _ _ _ _ Hhash).
    rewrite GenerateToken_issues. reflexivity.
  - cbn [User_ID]. repeat split; assumption.
Qed.

Lemma register_login_validate_roundtrip_witness :
  exists user token claims,
    snd (@service.RegisterUser sampleBcrypt sampleDB "salt" 40%Z 40%Z
           (mkRegisterRequest "carol" "carol@example.com" "looking-glass"))
    = Ok user
    /\ @service.LoginUser sampleBcrypt sampleHMAC sampleJWT
         (@run sampleBcrypt
            (fst (@service.RegisterUser sampleBcrypt sampleDB "salt" 40%Z 40%Z
                    (mkRegisterRequest "carol" "carol@example.com"
                                       "looking-glass")))
            [OpDeleteProduct 1%N 1%N])
         50%Z 50%Z 50%Z
         (mkLoginRequest "carol@example.com" "looking-glass")
       = Ok (mkLoginResponse token)
    /\ @auth.ValidateToken sampleHMAC sampleJWT 60%Z token = Ok claims
    /\ auth.UserID claims = fmt.Sprintf_d (User_ID user)
    /\ jwt.Subject (auth.Registered claims) = fmt.Sprintf_d (User_ID user).
Proof.
  apply (register_login_validate_roundtrip sampleBcrypt sampleBcrypt_correct
           sampleHMAC sampleJWT sampleDB "salt" 40%Z 40%Z
           (mkRegisterRequest "carol" "carol@example.com" "looking-glass")
           "$2a$10$looking-glass" [OpDeleteProduct 1%N 1%N]
           50%Z 50%Z 50%Z 60%Z).
  - reflexivity.
  - reflexivity.
  - intros u [<- | [<- | []]]; discriminate.
  - intros u [<- | [<- | []]]; discriminate.
  - reflexivity.
  - reflexivity.
  - vm_compute; discriminate.
  - reflexivity.
Defined.

(** * Further properties *)

(** ** Decimal identifiers at the request boundary *)

Lemma digitsValue_ge d : forall acc, (acc <= digitsValue d acc)%N.
Proof.
  induction d; intros acc; cbn [digitsValue]; try lia;
    match goal with
    | |- (_ <= digitsValue _ ?a)%N => specialize (IHd a); lia
    end.
Qed.

Lemma of_uint_acc_value d : forall acc,
  N.pos (Pos.of_uint_acc d acc) = digitsValue d (N.pos acc).
Proof.
  induction d; intros acc; cbn [Pos.of_uint_acc digitsValue];
    try reflexivity; rewrite IHd; f_equal; lia.
Qed.

Lemma of_uint_value d : N.of_uint d = digitsValue d 0.
Proof.
  unfold N.of_uint.
  induction d; cbn [Pos.of_uint digitsValue]; try reflexivity;
    try (rewrite of_uint_acc_value; reflexivity).
  exact IHd.
Qed.

Lemma parseDigits_digits d : forall acc,
  (digitsValue d acc <= strconv.maxUint64)%N ->
  strconv.parseDigits (NilEmpty.string_of_uint d) acc
  = inl (digitsValue d acc).
Proof.
  induction d; intros acc Hmax;
    cbn [NilEmpty.string_of_uint digitsValue strconv.parseDigits] in *;
    try reflexivity.
  all: match goal with
       | H : (digitsValue _ ?a <= _)%N |- _ =>
           pose proof (digitsValue_ge d a) as Hge
       end.
  all: unfold strconv.maxUint64 in *.
  all: change (strconv.digit _) with (Some 0%N) ||
       change (strconv.digit _) with (Some 1%N) ||
       change (strconv.digit _) with (Some 2%N) ||
       change (strconv.digit _) with (Some 3%N) ||
       change (strconv.digit _) with (Some 4%N) ||
       change (strconv.digit _) with (Some 5%N) ||
       change (strconv.digit _) with (Some 6%N) ||
       change (strconv.digit _) with (Some 7%N) ||
       change (strconv.digit _) with (Some 8%N) ||
       change (strconv.digit _) with (Some 9%N).
  all: cbv beta iota.
  all: change strconv.cutoff with 1844674407370955162%N.
  all: change (2 ^ 64)%N with 18446744073709551616%N.
  all: destruct (N.leb_spec 1844674407370955162 acc) as [Hc | Hc]; [lia |].
  all: rewrite (N.mod_small (acc * 10)) by lia.
  all: rewrite N.mod_small by lia.
  all: match goal with
       | |- context [(?a <? ?b)%N || _] =>
           destruct (N.ltb_spec a b) as [Hl | Hl]; [lia |]
       end.
  all: cbn [orb].
  all: match goal with
       | |- context [(?a <? ?b)%N] =>
           destruct (N.ltb_spec a b) as [Hm | Hm]; [lia |]
       end.
  all: rewrite IHd; [f_equal; f_equal; lia |].
  all: match goal with
       | |- (digitsValue _ ?x <= _)%N =>
           match type of Hmax with
           | (digitsValue _ ?y <= _)%N => replace x with y by lia; exact Hmax
           end
       end.
Qed.

Lemma string_of_uint_nonempty d :
  d <> Decimal.Nil -> NilEmpty.string_of_uint d <> EmptyString.
Proof. destruct d; cbn; congruence. Qed.

Lemma to_uint_nonnil n : N.to_uint n <> Decimal.Nil.
Proof.
  destruct n as [| p]; cbn; [discriminate |].
  apply DecimalPos.Unsigned.to_uint_nonnil.
Qed.

(** What [fmt.Sprintf] prints of an identifier that fits 64 bits,
    [ParseUint] reads back. *)
Lemma ParseUint_Sprintf_d n :
  (n <= strconv.maxUint64)%N ->
  strconv.ParseUint (fmt.Sprintf_d n) = inl n.
Proof.
  intros Hmax. unfold fmt.Sprintf_d, NilZero.string_of_uint.
  pose proof (to_uint_nonnil n) as Hnil.
  pose proof (DecimalN.Unsigned.of_to n) as Hval.
  rewrite of_uint_value in Hval.
  destruct (N.to_uint n) as [| d | d | d | d | d | d | d | d | d | d] eqn:E;
    [congruence | ..].
  all: subst n; exact (parseDigits_digits _ 0%N Hmax).
Qed.

Lemma parseDigits_nondigit s : forall acc,
  hasNonDigit s = true -> exists e, strconv.parseDigits s acc = inr e.
Proof.
  induction s as [| c s IH]; intros acc Hs; cbn in Hs; [discriminate |].
  cbn [strconv.parseDigits].
  destruct (strconv.digit c) as [d |]; cbn in Hs; [| now eexists].
  destruct (N.leb _ acc); [now eexists |].
  destruct (_ || _); [now eexists |].
  now apply IH.
Qed.

Lemma parseDigits_bound s : forall acc n,
  (acc <= strconv.maxUint64)%N ->
  strconv.parseDigits s acc = inl n -> (n <= strconv.maxUint64)%N.
Proof.
  induction s as [| c s IH]; intros acc n Hacc; cbn [strconv.parseDigits].
  - intros Heq. inversion Heq. now subst.
  - destruct (strconv.digit c) as [d |]; [| discriminate].
    destruct (N.leb _ acc); [discriminate |].
    destruct (N.ltb _ _ || N.ltb strconv.maxUint64 _) eqn:Hchk;
      [discriminate |].
    apply orb_false_iff in Hchk. destruct Hchk as [_ Hmax].
    apply N.ltb_ge in Hmax. now apply IH.
Qed.

Lemma ParseUint_cases s :
  (s = EmptyString \/ hasNonDigit s = true ->
   exists e, strconv.ParseUint s = inr e)
  /\ (forall n, strconv.ParseUint s = inl n ->
                 (n <= strconv.maxUint64)%N).
Proof.
  split.
  - intros [-> | Hs]; [now eexists |].
    destruct s as [| c s]; [discriminate |].
    now apply parseDigits_nondigit.
  - intros n. destruct s as [| c s]; [discriminate |].
    apply parseDigits_bound. unfold strconv.maxUint64. lia.
Qed.

(** ** The authentication gate *)

Lemma splitByte_nonempty sep s : strings.splitByte sep s <> [].
Proof.
  destruct s as [| c s]; cbn; [discriminate |].
  destruct (Ascii.eqb c sep); [discriminate |].
  destruct (strings.splitByte sep s); discriminate.
Qed.

Lemma Split_no_space t : hasSpace t = false -> strings.Split t = [t].
Proof.
  unfold strings.Split.
  induction t as [| c t IH]; cbn; intros Ht; [reflexivity |].
  apply orb_false_iff in Ht. destruct Ht as [Hc Ht].
  rewrite Hc, (IH Ht). reflexivity.
Qed.

Lemma Split_app_space a b :
  hasSpace a = false ->
  strings.Split (a ++ String " "%char b) = a :: strings.Split b.
Proof.
  unfold strings.Split.
  induction a as [| c a IH]; cbn; intros Ha; [reflexivity |].
  apply orb_false_iff in Ha. destruct Ha as [Hc Ha].
  rewrite Hc, (IH Ha). reflexivity.
Qed.

Lemma concat_cons2 sep a b (l : list string) :
  String.concat sep (a :: b :: l) = a ++ sep ++ String.concat sep (b :: l).
Proof. reflexivity. Qed.

(** The pieces of a split hold no space, and joined by spaces they give the
    string back. *)
Lemma Split_join s :
  String.concat " " (strings.Split s) = s
  /\ forallb (fun piece => negb (hasSpace piece)) (strings.Split s) = true.
Proof.
  unfold strings.Split.
  induction s as [| c s [IHj IHp]]; [now split |].
  cbn [strings.splitByte].
  pose proof (splitByte_nonempty " "%char s) as Hne.
  destruct (strings.splitByte " " s) as [| piece rest]; [congruence |].
  destruct (Ascii.eqb c " "%char) eqn:Hc.
  - apply Ascii.eqb_eq in Hc. subst c.
    rewrite concat_cons2, IHj. split; [reflexivity |].
    change (forallb _ (EmptyString :: piece :: rest))
      with (forallb (fun piece => negb (hasSpace piece)) (piece :: rest)).
    exact IHp.
  - split.
    + destruct rest as [| piece' rest].
      * rewrite <- IHj. reflexivity.
      * rewrite <- IHj. reflexivity.
    + cbn [forallb hasSpace] in IHp |- *. now rewrite Hc.
Qed.

Lemma Split_two s p0 p1 :
  strings.Split s = [p0; p1] ->
  s = p0 ++ String " "%char p1 /\ hasSpace p1 = false.
Proof.
  intros Hs. destruct (Split_join s) as [Hj Hp]. rewrite Hs in Hj, Hp.
  cbn in Hj, Hp. split; [now symmetry |].
  rewrite andb_true_r in Hp. apply andb_true_iff in Hp.
  destruct Hp as [_ Hp]. now apply negb_true_iff in Hp.
Qed.

Lemma AuthMiddleware_bearer (H : jwt.HMAC auth.Claims)
  (R : middleware.TokenReader) jm now c t :
  gin.Authorization c = "Bearer " ++ t ->
  hasSpace t = false ->
  middleware.AuthMiddleware jm now c
  = match auth.ValidateToken jm now (middleware.readToken t) with
    | Err _ =>
        inl (gin.mkResponse http.StatusUnauthorized
               (gin.H_error "Invalid or expired token"))
    | Ok claims =>
        inr (gin.Set_userID c (gin.anyString (auth.UserID claims)))
    end.
Proof.
  intros Hh Ht. unfold middleware.AuthMiddleware. rewrite Hh.
  change ("Bearer " ++ t) with ("Bearer" ++ String " "%char t).
  rewrite (Split_app_space "Bearer" t eq_refl), (Split_no_space t Ht).
  reflexivity.
Qed.

Lemma AuthMiddleware_pass_inv (H : jwt.HMAC auth.Claims)
  (R : middleware.TokenReader) jm now c c' :
  middleware.AuthMiddleware jm now c = inr c' ->
  exists t claims,
    gin.Authorization c = "Bearer " ++ t
    /\ hasSpace t = false
    /\ auth.ValidateToken jm now (middleware.readToken t) = Ok claims
    /\ c' = gin.Set_userID c (gin.anyString (auth.UserID claims)).
Proof.
  unfold middleware.AuthMiddleware.
  destruct (String.eqb (gin.Authorization c) ""); [discriminate |].
  destruct (strings.Split (gin.Authorization c))
    as [| p0 [| p1 [| p2 rest]]] eqn:Hs; cbn; try discriminate.
  destruct (String.eqb p0 "Bearer") eqn:Hb; cbn; [| discriminate].
  apply String.eqb_eq in Hb. subst p0.
  destruct (Split_two _ _ _ Hs) as [Hh Hp].
  destruct (auth.ValidateToken jm now (middleware.readToken p1))
    as [claims | err] eqn:Hv; [| discriminate].
  intros Heq. inversion Heq; subst c'.
  exists p1, claims. repeat split; assumption.
Qed.

Lemma AuthMiddleware_stop_status (H : jwt.HMAC auth.Claims)
  (R : middleware.TokenReader) jm now c response :
  middleware.AuthMiddleware jm now c = inl response ->
  gin.Status response = http.StatusUnauthorized.
Proof.
  unfold middleware.AuthMiddleware.
  destruct (String.eqb (gin.Authorization c) "");
    [intros Heq; inversion Heq; reflexivity |].
  destruct (_ || _); [intros Heq; inversion Heq; reflexivity |].
  destruct (auth.ValidateToken _ _ _);
    [discriminate | intros Heq; inversion Heq; reflexivity].
Qed.

(** X1: [AuthMiddleware] passes a request on exactly when its
    [Authorization] header is "Bearer", one space, and a string without a
    space that [ValidateToken] accepts; the context it passes carries the
    [UserID] claim of that token under "userID".  Every request it stops,
    it stops with status 401. *)
Theorem AuthMiddleware_passes_exactly :
  forall (H : jwt.HMAC auth.Claims) (R : middleware.TokenReader) jm now c,
    (forall c',
        middleware.AuthMiddleware jm now c = inr c'
        <-> exists t claims,
            gin.Authorization c = "Bearer " ++ t
            /\ hasSpace t = false
            /\ auth.ValidateToken jm now (middleware.readToken t) = Ok claims
            /\ c' = gin.Set_userID c (gin.anyString (auth.UserID claims)))
    /\ (forall response,
           middleware.AuthMiddleware jm now c = inl response ->
           gin.Status response = http.StatusUnauthorized).
Proof.
  intros H R jm now c. split.
  - intros c'. split.
    + apply AuthMiddleware_pass_inv.
    + intros [t [claims [Hh [Ht [Hv ->]]]]].
      rewrite (AuthMiddleware_bearer H R jm now c t Hh Ht), Hv. reflexivity.
  - intros response. apply AuthMiddleware_stop_status.
Qed.

Lemma AuthMiddleware_passes_exactly_witness :
  @middleware.AuthMiddleware sampleHMAC sampleReader sampleJWT 60%Z
    (bearer "alice.token" "1")
  = inr (gin.Set_userID (bearer "alice.token" "1") (gin.anyString "1"))
  /\ forall response,
      @middleware.AuthMiddleware sampleHMAC sampleReader sampleJWT 60%Z
        (bearer "alice token" "1") = inl response ->
      gin.Status response = http.StatusUnauthorized.
Proof.
  split.
  - apply (proj1 (AuthMiddleware_passes_exactly sampleHMAC sampleReader
                    sampleJWT 60%Z (bearer "alice.token" "1"))).
    exists "alice.token", (sampleClaims day).
    repeat split.
  - apply (proj2 (AuthMiddleware_passes_exactly sampleHMAC sampleReader
                    sampleJWT 60%Z (bearer "alice token" "1"))).
Defined.

(** X2: a request to a route of the authenticated group that does not
    present, after "Bearer ", a token [ValidateToken] accepts is answered
    with status 401, and its handler does not run: the store is returned as
    it was. *)
Theorem authenticated_routes_stop_without_token :
  forall (B : bcrypt.Bcrypt) (H : jwt.HMAC auth.Claims)
         (R : middleware.TokenReader) jm env db r c,
    router.authenticated r = true ->
    (forall t claims,
        gin.Authorization c = "Bearer " ++ t ->
        auth.ValidateToken jm (router.authNow env) (middleware.readToken t)
        <> Ok claims) ->
    fst (router.serve jm env db r c) = db
    /\ gin.Status (snd (router.serve jm env db r c))
       = http.StatusUnauthorized.
Proof.
  intros B H R jm env db r c Hauth Hno.
  unfold router.serve. rewrite Hauth.
  destruct (middleware.AuthMiddleware jm (router.authNow env) c)
    as [response | c'] eqn:Hmw.
  - split; [reflexivity |].
    exact (AuthMiddleware_stop_status H R jm _ c response Hmw).
  - exfalso.
    destruct (AuthMiddleware_pass_inv H R jm _ c c' Hmw)
      as [t [claims [Hh [_ [Hv _]]]]].
    exact (Hno t claims Hh Hv).
Qed.

Lemma authenticated_routes_stop_without_token_witness :
  fst (@router.serve sampleBcrypt sampleHMAC sampleReader sampleJWT sampleEnv
         sampleDB router.DELETE_product (bearer "mallory.token" "1"))
  = sampleDB
  /\ gin.Status
       (snd (@router.serve sampleBcrypt sampleHMAC sampleReader sampleJWT
               sampleEnv sampleDB router.DELETE_product
               (bearer "mallory.token" "1")))
     = http.StatusUnauthorized.
Proof.
  apply (authenticated_routes_stop_without_token sampleBcrypt sampleHMAC
           sampleReader sampleJWT sampleEnv sampleDB router.DELETE_product
           (bearer "mallory.token" "1")).
  - reflexivity.
  - intros t claims Hh. cbn in Hh. inversion Hh; subst t. discriminate.
Defined.

(** ** Handlers *)

Lemma paramProductID_ok c id :
  strconv.ParseUint (gin.Param_id c) = inl id ->
  handler.paramProductID c = inr id.
Proof.
  unfold handler.paramProductID.
  destruct (gin.Param_id c) as [| a s]; [discriminate |].
  cbn [String.eqb]. now intros ->.
Qed.

Lemma paramProductID_status c response :
  handler.paramProductID c = inl response ->
  gin.Status response = http.StatusBadRequest.
Proof.
  unfold handler.paramProductID.
  destruct (String.eqb _ ""); [intros Heq; now inversion Heq |].
  destruct (strconv.ParseUint _); [discriminate |].
  intros Heq; now inversion Heq.
Qed.

Lemma contextUserID_status c response :
  handler.contextUserID c = inl response ->
  gin.Status response = http.StatusInternalServerError.
Proof.
  unfold handler.contextUserID.
  destruct (gin.Keys_userID c) as [[idStr |] |];
    try (intros Heq; now inversion Heq).
  destruct (strconv.ParseUint idStr); [discriminate |].
  intros Heq; now inversion Heq.
Qed.

(** X3: whatever the request and the store, [UpdateProduct] answers 200,
    400, 403 or 500 and [DeleteProduct] answers 204, 400, 403 or 500.
    Neither ever answers 404: the service wraps every lookup error, so the
    message never equals "product not found". *)
Theorem update_delete_handlers_never_answer_404 :
  forall db now c bind,
    (let s := gin.Status (snd (handler.UpdateProduct db now c bind)) in
     s = http.StatusOK \/ s = http.StatusBadRequest
     \/ s = http.StatusForbidden \/ s = http.StatusInternalServerError)
    /\ (let s := gin.Status (snd (handler.DeleteProduct db c)) in
        s = http.StatusNoContent \/ s = http.StatusBadRequest
        \/ s = http.StatusForbidden \/ s = http.StatusInternalServerError)
    /\ gin.Status (snd (handler.UpdateProduct db now c bind))
       <> http.StatusNotFound
    /\ gin.Status (snd (handler.DeleteProduct db c)) <> http.StatusNotFound.
Proof.
  intros db now c bind.
  assert (HU : let s := gin.Status (snd (handler.UpdateProduct db now c bind))
               in s = http.StatusOK \/ s = http.StatusBadRequest
                  \/ s = http.StatusForbidden
                  \/ s = http.StatusInternalServerError).
  { unfold handler.UpdateProduct.
    destruct (handler.paramProductID c) as [r | productID] eqn:Hp.
    { cbn. rewrite (paramProductID_status c r Hp). auto. }
    destruct (handler.contextUserID c) as [r | userID] eqn:Hu.
    { cbn. rewrite (contextUserID_status c r Hu). auto. }
    destruct bind as [req | err]; [| cbn; auto].
    unfold service.UpdateProduct.
    destruct (repository.GetProductByID db productID) as [product | err];
      [| cbn; auto].
    destruct (negb (N.eqb (UserID product) userID)); [cbn; auto |].
    destruct (repository.UpdateProduct db now _) as [db' [err |]];
      cbn; auto. }
  assert (HD : let s := gin.Status (snd (handler.DeleteProduct db c)) in
               s = http.StatusNoContent \/ s = http.StatusBadRequest
               \/ s = http.StatusForbidden
               \/ s = http.StatusInternalServerError).
  { unfold handler.DeleteProduct.
    destruct (handler.paramProductID c) as [r | productID] eqn:Hp.
    { cbn. rewrite (paramProductID_status c r Hp). auto. }
    destruct (handler.contextUserID c) as [r | userID] eqn:Hu.
    { cbn. rewrite (contextUserID_status c r Hu). auto. }
    unfold service.DeleteProduct.
    destruct (repository.GetProductByID db productID) as [product | err];
      [| cbn; auto].
    destruct (negb (N.eqb (UserID product) userID)); [cbn; auto |].
    destruct (repository.DeleteProduct db productID) as [db' [err |]];
      cbn; auto. }
  split; [exact HU |]. split; [exact HD |].
  cbv zeta in HU, HD. unfold http.StatusOK, http.StatusNoContent,
    http.StatusBadRequest, http.StatusForbidden,
    http.StatusInternalServerError, http.StatusNotFound in *.
  split; lia.
Qed.



(** ** From registration to an authenticated request *)

Lemma stored_user_by_id db u :
  wf db = true -> In u (users db) ->
  find (hasUserID (User_ID u)) (users db) = Some u.
Proof.
  intros Hwf Hin.
  apply (find_distinct N.eqb N.eqb_eq User_ID); [| exact Hin].
  unfold wf in Hwf. rewrite !andb_true_iff in Hwf. tauto.
Qed.

Lemma GetUserProfile_stored db u :
  wf db = true -> outage db = None -> In u (users db) ->
  service.GetUserProfile db (User_ID u) = Ok u.
Proof.
  intros Hwf Hup Hin.
  unfold service.GetUserProfile, repository.GetUserByID, select_user_by_id.
  now rewrite Hup, (stored_user_by_id db u Hwf Hin).
Qed.

Lemma LoginUser_stored (B : bcrypt.Bcrypt) (H : jwt.HMAC auth.Claims) jm db
  nowExp nowIat nowNbf u password :
  wf db = true -> outage db = None -> In u (users db) ->
  bcrypt.CompareHashAndPassword (Password u) password = None ->
  service.LoginUser jm db nowExp nowIat nowNbf
                    (mkLoginRequest (Email u) password)
  = Ok (mkLoginResponse
          (jwt.Compact jwt.HS256
             (auth.newClaims jm nowExp nowIat nowNbf
                             (fmt.Sprintf_d (User_ID u)))
             (jwt.hmacSum jwt.HS256 (auth.secretKey jm)
                (auth.newClaims jm nowExp nowIat nowNbf
                                (fmt.Sprintf_d (User_ID u)))))).
Proof.
  intros Hwf Hup Hin Hpw.
  unfold service.LoginUser. cbn [login_Email login_Password].
  rewrite (GetUserByEmail_stored db u Hwf Hup Hin), Hpw.
  now rewrite GenerateToken_issues.
Qed.

Lemma contextUserID_subject c n :
  (n <= strconv.maxUint64)%N ->
  handler.contextUserID
    (gin.Set_userID c (gin.anyString (fmt.Sprintf_d n))) = inr n.
Proof.
  intros Hn. unfold handler.contextUserID. cbn [gin.Keys_userID gin.Set_userID].
  now rewrite (ParseUint_Sprintf_d n Hn).
Qed.

(** X5: on a reachable store that satisfies the schema, a registration
    request with a fresh email, a fresh username and a password bcrypt
    hashes is answered 201 with the new identifier; the login request with
    the same email and password is answered 200 with the token
    [GenerateToken] issues for that identifier; and a [GET /user] request
    that presents a string of that token, without a space, between the end
    of the issuance and the expiry, is answered 200 with the identifier,
    username and email of the registration and the times of its insert. *)
Theorem registered_account_reads_its_profile :
  forall (B : bcrypt.Bcrypt) (BC : bcrypt.BcryptCorrect)
         (H : jwt.HMAC auth.Claims) (R : middleware.TokenReader)
         jm db envR envL envG req hash cR cL s cG,
    wf db = true ->
    outage db = None ->
    (forall u, In u (users db) -> Email u <> reg_Email req) ->
    (forall u, In u (users db) -> Username u <> reg_Username req) ->
    bcrypt.GenerateFromPassword (router.entropy envR) (reg_Password req)
                                bcrypt.DefaultCost = Ok hash ->
    (N.succ (users_id_seq db) <= strconv.maxUint64)%N ->
    middleware.readToken s
      = issuedToken jm (router.now1 envL) (router.now2 envL)
                    (router.now3 envL)
                    (fmt.Sprintf_d (N.succ (users_id_seq db))) ->
    hasSpace s = false ->
    gin.Authorization cG = "Bearer " ++ s ->
    (router.now3 envL <= router.authNow envG)%Z ->
    (router.authNow envG
     < jwt.Truncate (router.now1 envL + auth.expiresInHour jm)%Z
                    jwt.Second)%Z ->
    snd (router.serve jm envR db (router.POST_register (Ok req)) cR)
    = gin.mkResponse http.StatusCreated
        (gin.H_registered "User registered successfully"
           (N.succ (users_id_seq db)) (reg_Username req) (reg_Email req))
    /\ snd (router.serve jm envL
              (fst (router.serve jm envR db (router.POST_register (Ok req))
                                 cR))
              (router.POST_login
                 (Ok (mkLoginRequest (reg_Email req) (reg_Password req))))
              cL)
       = gin.mkResponse http.StatusOK
           (gin.J_login
              (mkLoginResponse
                 (issuedToken jm (router.now1 envL) (router.now2 envL)
                    (router.now3 envL)
                    (fmt.Sprintf_d (N.succ (users_id_seq db))))))
    /\ snd (router.serve jm envG
              (fst (router.serve jm envR db (router.POST_register (Ok req))
                                 cR))
              router.GET_user cG)
       = gin.mkResponse http.StatusOK
           (gin.H_profile (N.succ (users_id_seq db))
              (reg_Username req) (reg_Email req)
              (router.now1 envR) (router.now2 envR)).
Proof.
  intros B BC H R jm db envR envL envG req hash cR cL s cG
         Hwf Hup Hemail Hname Hhash Hid Hs Hsp Hh Hnbf Hexp.
  pose proof (RegisterUser_fresh B db _ (router.now1 envR) (router.now2 envR)
                req hash Hwf Hup Hemail Hname Hhash) as Hreg.
  pose proof (step_wf B db
                (OpRegisterUser (router.entropy envR) (router.now1 envR)
                                (router.now2 envR) req) Hwf) as Hwf1.
  cbn [step] in Hwf1. rewrite Hreg in Hwf1. cbn [fst] in Hwf1.
  set (row := mkUser (N.succ (users_id_seq db)) (router.now1 envR)
                     (router.now2 envR) (reg_Username req) (reg_Email req)
                     hash) in *.
  set (db1 := mkDB (users db ++ [row]) (products db)
                   (N.succ (users_id_seq db)) (products_id_seq db) None) in *.
  assert (Hrow : In row (users db1))
    by (cbn; apply in_or_app; right; now left).
  pose proof (LoginUser_stored B H jm db1 (router.now1 envL)
                (router.now2 envL) (router.now3 envL) row (reg_Password req)
                Hwf1 eq_refl Hrow
                (bcrypt.compare_generated _ _ _ _ Hhash)) as Hlogin.
  cbn [Email User_ID row] in Hlogin.
  assert (Hserve : router.serve jm envR db (router.POST_register (Ok req)) cR
                   = (db1,
                      gin.mkResponse http.StatusCreated
                        (gin.H_registered "User registered successfully"
                           (N.succ (users_id_seq db)) (reg_Username req)
                           (reg_Email req)))).
  { unfold router.serve, router.dispatch, handler.Register.
    cbn [router.authenticated]. rewrite Hreg. reflexivity. }
  rewrite Hserve. cbn [fst snd].
  split; [reflexivity |]. split.
  - unfold router.serve, router.dispatch, handler.Login.
    cbn [router.authenticated]. rewrite Hlogin. reflexivity.
  - destruct (ValidateToken_issued H jm _ _ _ _ (router.authNow envG) _
                (GenerateToken_issues H jm (router.now1 envL)
                   (router.now2 envL) (router.now3 envL)
                   (fmt.Sprintf_d (N.succ (users_id_seq db)))) Hnbf Hexp)
      as [claims [Hval [Hclaim _]]].
    unfold router.serve. cbn [router.authenticated].
    rewrite (AuthMiddleware_bearer H R jm _ cG s Hh Hsp), Hs.
    unfold issuedToken. rewrite Hval, Hclaim.
    unfold router.dispatch, handler.GetUser.
    rewrite (contextUserID_subject cG _ Hid).
    change (N.succ (users_id_seq db)) with (User_ID row) at 1.
    rewrite (GetUserProfile_stored db1 row Hwf1 eq_refl Hrow).
    reflexivity.
Qed.

Lemma registered_account_reads_its_profile_witness :
  snd (@router.serve sampleBcrypt sampleHMAC sampleReader sampleJWT sampleEnv
         sampleDB
         (router.POST_register
            (Ok (mkRegisterRequest "carol" "carol@example.com"
                                   "looking-glass")))
         (bearer "" ""))
  = gin.mkResponse http.StatusCreated
      (gin.H_registered "User registered successfully" 3%N "carol"
                        "carol@example.com")
  /\ snd (@router.serve sampleBcrypt sampleHMAC sampleReader sampleJWT
            sampleEnv
            (fst (@router.serve sampleBcrypt sampleHMAC sampleReader
                    sampleJWT sampleEnv sampleDB
                    (router.POST_register
                       (Ok (mkRegisterRequest "carol" "carol@example.com"
                                              "looking-glass")))
                    (bearer "" "")))
            router.GET_user (bearer "carol.token" ""))
     = gin.mkResponse http.StatusOK
         (gin.H_profile 3%N "carol" "carol@example.com" 40%Z 40%Z).
Proof.
  destruct (registered_account_reads_its_profile
              sampleBcrypt sampleBcrypt_correct sampleHMAC sampleReader
              sampleJWT sampleDB sampleEnv
              (router.mkEnv "salt" 50%Z 50%Z 50%Z 50%Z) sampleEnv
              (mkRegisterRequest "carol" "carol@example.com" "looking-glass")
              "$2a$10$looking-glass" (bearer "" "") (bearer "" "")
              "carol.token" (bearer "carol.token" ""))
    as [Hreg [_ Hget]].
  - reflexivity.
  - reflexivity.
  - intros u [<- | [<- | []]]; discriminate.
  - intros u [<- | [<- | []]]; discriminate.
  - reflexivity.
  - vm_compute; discriminate.
  - reflexivity.
  - reflexivity.
  - reflexivity.
  - vm_compute; discriminate.
  - reflexivity.
  - split; [exact Hreg | exact Hget].
Defined.

(** X6: on a reachable store that satisfies the schema, a [PUT] or [DELETE]
    request for a stored product, presenting a valid token whose subject is
    the decimal form of an account other than the owner, is answered 403
    with the message of the service, and the store is returned as it was. *)
Theorem foreign_token_cannot_change_a_product :
  forall (B : bcrypt.Bcrypt) (H : jwt.HMAC auth.Claims)
         (R : middleware.TokenReader) jm env db p caller s claims c patch,
    wf db = true ->
    outage db = None ->
    In p (products db) ->
    caller <> UserID p ->
    (caller <= strconv.maxUint64)%N ->
    (Product_ID p <= strconv.maxUint64)%N ->
    gin.Authorization c = "Bearer " ++ s ->
    hasSpace s = false ->
    auth.ValidateToken jm (router.authNow env) (middleware.readToken s)
      = Ok claims ->
    auth.UserID claims = fmt.Sprintf_d caller ->
    gin.Param_id c = fmt.Sprintf_d (Product_ID p) ->
    router.serve jm env db (router.PUT_product (Ok patch)) c
    = (db, gin.mkResponse http.StatusForbidden
             (gin.H_error "you are not authorized to update this product"))
    /\ router.serve jm env db router.DELETE_product c
       = (db, gin.mkResponse http.StatusForbidden
                (gin.H_error "you are not authorized to delete this product")).
Proof.
  intros B H R jm env db p caller s claims c patch
         Hwf Hup Hin Hneq Hcaller Hpid Hh Hsp Hval Hclaim Hparam.
  assert (Hparam' : handler.paramProductID
                      (gin.Set_userID c (gin.anyString (fmt.Sprintf_d caller)))
                    = inr (Product_ID p)).
  { apply paramProductID_ok. cbn [gin.Param_id gin.Set_userID].
    rewrite Hparam. now apply ParseUint_Sprintf_d. }
  assert (E : N.eqb (UserID p) caller = false)
    by (apply N.eqb_neq; congruence).
  unfold router.serve. cbn [router.authenticated].
  rewrite (AuthMiddleware_bearer H R jm _ c s Hh Hsp), Hval, Hclaim.
  unfold router.dispatch, handler.UpdateProduct, handler.DeleteProduct.
  rewrite Hparam', (contextUserID_subject c caller Hcaller).
  unfold service.UpdateProduct, service.DeleteProduct.
  rewrite (GetProductByID_stored db p Hwf Hup Hin), E. cbn.
  split; reflexivity.
Qed.

Lemma foreign_token_cannot_change_a_product_witness :
  @router.serve sampleBcrypt sampleHMAC sampleReader sampleJWT sampleEnv
     sampleDB (router.PUT_product (Ok samplePricePatch))
     (bearer "bob.token" "1")
  = (sampleDB,
     gin.mkResponse http.StatusForbidden
       (gin.H_error "you are not authorized to update this product"))
  /\ @router.serve sampleBcrypt sampleHMAC sampleReader sampleJWT sampleEnv
       sampleDB router.DELETE_product (bearer "bob.token" "1")
     = (sampleDB,
        gin.mkResponse http.StatusForbidden
          (gin.H_error "you are not authorized to delete this product")).
Proof.
  apply (foreign_token_cannot_change_a_product sampleBcrypt sampleHMAC
           sampleReader sampleJWT sampleEnv sampleDB widget 2%N "bob.token"
           bobClaims (bearer "bob.token" "1") samplePricePatch).
  - reflexivity.
  - reflexivity.
  - left; reflexivity.
  - discriminate.
  - vm_compute; discriminate.
  - vm_compute; discriminate.
  - reflexivity.
  - reflexivity.
  - reflexivity.
  - reflexivity.
  - reflexivity.
Defined.

(** X7: a request that presents a valid token whose subject is empty or
    holds a byte that is not a decimal digit is answered 500 with "Invalid
    user ID format" by [GetUser], [GetProducts] and [AddProduct], and by
    [UpdateProduct] and [DeleteProduct] when the path parameter parses.  The
    store is returned as it was. *)
Theorem non_numeric_subject_is_a_server_error :
  forall (B : bcrypt.Bcrypt) (H : jwt.HMAC auth.Claims)
         (R : middleware.TokenReader) jm env db s claims c,
    gin.Authorization c = "Bearer " ++ s ->
    hasSpace s = false ->
    auth.ValidateToken jm (router.authNow env) (middleware.readToken s)
      = Ok claims ->
    auth.UserID claims = "" \/ hasNonDigit (auth.UserID claims) = true ->
    let refused :=
      (db, gin.mkResponse http.StatusInternalServerError
             (gin.H_error "Invalid user ID format")) in
    router.serve jm env db router.GET_user c = refused
    /\ router.serve jm env db router.GET_products c = refused
    /\ (forall bind,
           router.serve jm env db (router.POST_products bind) c = refused)
    /\ (forall id bind,
           strconv.ParseUint (gin.Param_id c) = inl id ->
           router.serve jm env db (router.PUT_product bind) c = refused
           /\ router.serve jm env db router.DELETE_product c = refused).
Proof.
  intros B H R jm env db s claims c Hh Hsp Hval Hbad refused.
  destruct (proj1 (ParseUint_cases (auth.UserID claims)) Hbad) as [e He].
  assert (Hctx : handler.contextUserID
                   (gin.Set_userID c (gin.anyString (auth.UserID claims)))
                 = inl (gin.mkResponse http.StatusInternalServerError
                          (gin.H_error "Invalid user ID format"))).
  { unfold handler.contextUserID. cbn [gin.Keys_userID gin.Set_userID].
    now rewrite He. }
  unfold router.serve. cbn [router.authenticated].
  rewrite (AuthMiddleware_bearer H R jm _ c s Hh Hsp), Hval.
  unfold router.dispatch, handler.GetUser, handler.AddProduct,
    handler.GetProducts, handler.UpdateProduct, handler.DeleteProduct.
  rewrite Hctx.
  split; [reflexivity |]. split; [reflexivity |].
  split; [intros bind; reflexivity |].
  intros id bind Hidp.
  rewrite (paramProductID_ok _ id); [| exact Hidp].
  split; reflexivity.
Qed.

Lemma non_numeric_subject_is_a_server_error_witness :
  @router.serve sampleBcrypt sampleHMAC sampleReader sampleJWT sampleEnv
     sampleDB router.GET_user (bearer "root.token" "")
  = (sampleDB, gin.mkResponse http.StatusInternalServerError
                 (gin.H_error "Invalid user ID format")).
Proof.
  apply (non_numeric_subject_is_a_server_error sampleBcrypt sampleHMAC
           sampleReader sampleJWT sampleEnv sampleDB "root.token" rootClaims
           (bearer "root.token" "")).
  - reflexivity.
  - reflexivity.
  - reflexivity.
  - right; reflexivity.
Defined.

(** ** Products: creation, listing, deletion *)

Lemma existsb_hasUserID db owner :
  (exists u, In u (users db) /\ User_ID u = owner) ->
  existsb (hasUserID owner) (users db) = true.
Proof.
  intros [u [Hin Hid]]. apply existsb_exists. exists u.
  split; [exact Hin | now apply N.eqb_eq].
Qed.

Lemma fresh_product_id db :
  wf db = true ->
  existsb (hasProductID (N.succ (products_id_seq db))) (products db) = false.
Proof.
  intros Hwf. apply (existsb_absent N.eqb N.eqb_eq Product_ID).
  intros p Hp. pose proof (wf_product_range db p Hwf Hp). lia.
Qed.

Lemma AddProduct_created db created_at updated_at owner req :
  wf db = true ->
  outage db = None ->
  (exists u, In u (users db) /\ User_ID u = owner) ->
  PrimFloat.ltb 0 (add_Price req) = true ->
  service.AddProduct db created_at updated_at owner req
  = (mkDB (users db)
          (products db
           ++ [mkProduct (N.succ (products_id_seq db)) created_at updated_at
                         (add_Name req) (add_Description req) (add_Price req)
                         owner])
          (users_id_seq db) (N.succ (products_id_seq db)) None,
     Ok (mkProduct (N.succ (products_id_seq db)) zeroTime zeroTime
                   (add_Name req) (add_Description req) (add_Price req)
                   owner)).
Proof.
  intros Hwf Hup Howner Hprice.
  unfold service.AddProduct, repository.AddProduct, insert_product.
  cbn [Name Description Price UserID Product_CreatedAt Product_UpdatedAt].
  rewrite Hup, (fresh_product_id db Hwf), (existsb_hasUserID db owner Howner).
  unfold check_price. rewrite Hprice. reflexivity.
Qed.





Lemma filter_matched_nonempty id (l : list Product) p :
  In p l -> hasProductID id p = true ->
  Z.eqb (Z.of_nat (List.length (filter (hasProductID id) l))) 0 = false.
Proof.
  intros Hin Hp.
  assert (Hf : In p (filter (hasProductID id) l)) by (now apply filter_In).
  destruct (filter (hasProductID id) l); [contradiction | reflexivity].
Qed.

Lemma wf_owner_positive db p :
  wf db = true -> In p (products db) -> UserID p <> 0%N.
Proof.
  intros Hwf Hp.
  pose proof Hwf as Hwf'. unfold wf in Hwf'.
  rewrite !andb_true_iff in Hwf'. destruct Hwf' as [_ Hfk].
  rewrite forallb_forall in Hfk. specialize (Hfk p Hp).
  apply existsb_exists in Hfk. destruct Hfk as [u [Hu Hid]].
  apply N.eqb_eq in Hid.
  pose proof (wf_user_range db u Hwf Hu). lia.
Qed.

(** X10: on a reachable store that satisfies the schema, [DeleteProduct]
    by the owner succeeds and removes that product and nothing else: every
    other product and every account is kept.  The same call repeated on the
    store it returned fails with [Forbidden]. *)
Theorem DeleteProduct_by_owner_removes_only_that_product :
  forall db p,
    wf db = true ->
    outage db = None ->
    In p (products db) ->
    let db' := fst (service.DeleteProduct db (Product_ID p) (UserID p)) in
    snd (service.DeleteProduct db (Product_ID p) (UserID p)) = None
    /\ (forall q, In q (products db')
                  <-> In q (products db) /\ Product_ID q <> Product_ID p)
    /\ users db' = users db
    /\ errorIs (snd (service.DeleteProduct db' (Product_ID p) (UserID p)))
               Forbidden
    /\ fst (service.DeleteProduct db' (Product_ID p) (UserID p)) = db'.
Proof.
  intros db p Hwf Hup Hin db'. subst db'.
  assert (Hdel : service.DeleteProduct db (Product_ID p) (UserID p)
                 = (mkDB (users db)
                         (filter (fun q => negb (hasProductID (Product_ID p) q))
                                 (products db))
                         (users_id_seq db) (products_id_seq db) None,
                    None)).
  { unfold service.DeleteProduct.
    rewrite (GetProductByID_stored db p Hwf Hup Hin), N.eqb_refl.
    cbn [negb]. unfold repository.DeleteProduct, delete_product.
    rewrite Hup. cbn [gorm.Error gorm.RowsAffected].
    rewrite (filter_matched_nonempty (Product_ID p) (products db) p Hin
               (N.eqb_refl _)).
    reflexivity. }
  rewrite Hdel. cbn [fst snd products users].
  split; [reflexivity |].
  assert (Hrows : forall q,
             In q (filter (fun q => negb (hasProductID (Product_ID p) q))
                          (products db))
             <-> In q (products db) /\ Product_ID q <> Product_ID p).
  { intros q. rewrite filter_In, negb_true_iff. unfold hasProductID.
    now rewrite N.eqb_neq. }
  split; [exact Hrows |]. split; [reflexivity |].
  unfold service.DeleteProduct.
  rewrite GetProductByID_absent;
    [| reflexivity | cbn; intros q Hq; now apply Hrows in Hq].
  cbn [UserID zeroProduct].
  assert (E : N.eqb 0 (UserID p) = false).
  { apply N.eqb_neq. pose proof (wf_owner_positive db p Hwf Hin).
    congruence. }
  rewrite E. cbn.
  split; [eexists; split; reflexivity | reflexivity].
Qed.

Lemma DeleteProduct_by_owner_removes_only_that_product_witness :
  snd (service.DeleteProduct sampleDB (Product_ID widget) (UserID widget))
  = None
  /\ users (fst (service.DeleteProduct sampleDB (Product_ID widget)
                                       (UserID widget)))
     = users sampleDB.
Proof.
  destruct (DeleteProduct_by_owner_removes_only_that_product sampleDB widget)
    as [Hret [_ [Husers _]]].
  - reflexivity.
  - reflexivity.
  - left; reflexivity.
  - split; [exact Hret | exact Husers].
Defined.

(** ** Failures *)

Lemma length_zero_nil {A} (l : list A) :
  Z.eqb (Z.of_nat (List.length l)) 0 = true -> l = [].
Proof. destruct l; [reflexivity | discriminate]. Qed.

Lemma filter_nil_none id (l : list Product) :
  filter (hasProductID id) l = [] ->
  forall p, In p l -> hasProductID id p = false.
Proof.
  intros Hnil p Hp. destruct (hasProductID id p) eqn:E; [| reflexivity].
  assert (Hf : In p (filter (hasProductID id) l)) by (now apply filter_In).
  rewrite Hnil in Hf. contradiction.
Qed.

Lemma map_set_product_none name description price now id (l : list Product) :
  filter (hasProductID id) l = [] ->
  map (set_product name description price now id) l = l.
Proof.
  intros Hnil. rewrite <- (map_id l) at 2. apply map_ext_in.
  intros p Hp. unfold set_product.
  now rewrite (filter_nil_none id l Hnil p Hp).
Qed.

Lemma filter_negb_none id (l : list Product) :
  filter (hasProductID id) l = [] ->
  filter (fun p => negb (hasProductID id p)) l = l.
Proof.
  intros Hnil. induction l as [| a l IH]; [reflexivity |].
  cbn in Hnil |- *. destruct (hasProductID id a); [discriminate |].
  cbn. now rewrite IH.
Qed.

(** X11: an operation that returns an error has stored nothing: after a
    failed [RegisterUser], [AddProduct], [UpdateProduct] or [DeleteProduct]
    the accounts and the products are what they were. *)
Theorem failed_operations_change_no_table :
  forall (B : bcrypt.Bcrypt) db,
    (forall salt created_at updated_at req e,
        snd (service.RegisterUser db salt created_at updated_at req) = Err e ->
        users (fst (service.RegisterUser db salt created_at updated_at req))
        = users db
        /\ products (fst (service.RegisterUser db salt created_at updated_at
                                               req))
           = products db)
    /\ (forall created_at updated_at userID req e,
        snd (service.AddProduct db created_at updated_at userID req) = Err e ->
        users (fst (service.AddProduct db created_at updated_at userID req))
        = users db
        /\ products (fst (service.AddProduct db created_at updated_at userID
                                             req))
           = products db)
    /\ (forall now productID userID req e,
        snd (service.UpdateProduct db now productID userID req) = Err e ->
        users (fst (service.UpdateProduct db now productID userID req))
        = users db
        /\ products (fst (service.UpdateProduct db now productID userID req))
           = products db)
    /\ (forall productID userID e,
        snd (service.DeleteProduct db productID userID) = Some e ->
        users (fst (service.DeleteProduct db productID userID)) = users db
        /\ products (fst (service.DeleteProduct db productID userID))
           = products db).
Proof.
  intros B db. split; [| split; [| split]].
  - intros salt created_at updated_at req e.
    unfold service.RegisterUser.
    destruct (isOk _); [now split |].
    destruct (bcrypt.GenerateFromPassword _ _ _) as [hash | err];
      [| now split].
    unfold repository.CreateUser, insert_user.
    cbn [Username Email Password].
    destruct (outage db); [now split |].
    destruct (existsb _ (users db)); [now split |].
    destruct (existsb _ (users db)); [now split |].
    destruct (existsb _ (users db)); [now split |].
    discriminate.
  - intros created_at updated_at userID req e.
    unfold service.AddProduct, repository.AddProduct, insert_product.
    cbn [Name Description Price UserID].
    destruct (outage db); [now split |].
    destruct (existsb _ (products db)); [now split |].
    destruct (negb (check_price _)); [now split |].
    destruct (negb (existsb _ (users db))); [now split |].
    discriminate.
  - intros now productID userID req e.
    unfold service.UpdateProduct.
    destruct (repository.GetProductByID db productID) as [product | err];
      [| now split].
    destruct (negb (N.eqb (UserID product) userID)); [now split |].
    unfold repository.UpdateProduct, update_product.
    destruct (outage db); [now split |].
    destruct (negb (Nat.eqb _ 0) && negb (check_price _)); [now split |].
    cbn [gorm.Error gorm.RowsAffected fst snd].
    destruct (Z.eqb _ 0) eqn:Hrows; [| discriminate].
    intros _. cbn [fst users products]. split; [reflexivity |].
    apply map_set_product_none. now apply length_zero_nil.
  - intros productID userID e.
    unfold service.DeleteProduct.
    destruct (repository.GetProductByID db productID) as [product | err];
      [| now split].
    destruct (negb (N.eqb (UserID product) userID)); [now split |].
    unfold repository.DeleteProduct, delete_product.
    destruct (outage db); [now split |].
    cbn [gorm.Error gorm.RowsAffected fst snd].
    destruct (Z.eqb _ 0) eqn:Hrows; [| discriminate].
    intros _. cbn [fst users products]. split; [reflexivity |].
    apply filter_negb_none. now apply length_zero_nil.
Qed.

Lemma failed_operations_change_no_table_witness :
  products (fst (service.AddProduct sampleDB 40%Z 40%Z 9%N sampleAddWidget))
  = products sampleDB.
Proof.
  destruct (failed_operations_change_no_table sampleBcrypt sampleDB)
    as [_ [Hadd _]].
  refine (proj2 (Hadd 40%Z 40%Z 9%N sampleAddWidget _ _)).
  reflexivity.
Defined.

(** X12: while the store is unreachable every service operation fails and
    returns the store as it was.  [LoginUser] reports the outage as
    "invalid credentials", whatever the password; [GetProduct],
    [GetUserProfile], [UpdateProduct] and [DeleteProduct] report it with a
    message of kind [NotFound]. *)
Theorem outage_fails_every_operation :
  forall (B : bcrypt.Bcrypt) (H : jwt.HMAC auth.Claims) db msg,
    outage db = Some msg ->
    (forall salt created_at updated_at req,
        isOk (snd (service.RegisterUser db salt created_at updated_at req))
        = false
        /\ fst (service.RegisterUser db salt created_at updated_at req) = db)
    /\ (forall jm nowExp nowIat nowNbf req,
        service.LoginUser jm db nowExp nowIat nowNbf req
        = Err "invalid credentials")
    /\ (forall userID,
        failsWith (service.GetUserProfile db userID) NotFound)
    /\ (forall created_at updated_at userID req,
        isOk (snd (service.AddProduct db created_at updated_at userID req))
        = false
        /\ fst (service.AddProduct db created_at updated_at userID req) = db)
    /\ (forall productID,
        failsWith (service.GetProduct db productID) NotFound)
    /\ (forall userID,
        isOk (service.GetProductsByOwner db userID) = false)
    /\ (forall now productID userID req,
        failsWith (snd (service.UpdateProduct db now productID userID req))
                  NotFound
        /\ fst (service.UpdateProduct db now productID userID req) = db)
    /\ (forall productID userID,
        errorIs (snd (service.DeleteProduct db productID userID)) NotFound
        /\ fst (service.DeleteProduct db productID userID) = db).
Proof.
  intros B H db msg Hout.
  assert (Hget : forall id,
             repository.GetProductByID db id
             = Err ("database error retrieving product by ID: " ++ msg)).
  { intros id. unfold repository.GetProductByID, select_product_by_id.
    now rewrite Hout. }
  assert (Hmail : forall email,
             repository.GetUserByEmail db email
             = Err ("database error retrieving user by email: " ++ msg)).
  { intros email. unfold repository.GetUserByEmail, select_user_by_email.
    now rewrite Hout. }
  repeat match goal with |- _ /\ _ => split end.
  - intros salt created_at updated_at req.
    unfold service.RegisterUser. rewrite Hmail. cbn [isOk].
    destruct (bcrypt.GenerateFromPassword _ _ _); [| now split].
    unfold repository.CreateUser, insert_user. rewrite Hout. now split.
  - intros. unfold service.LoginUser. now rewrite Hmail.
  - intros userID.
    unfold service.GetUserProfile, repository.GetUserByID, select_user_by_id.
    rewrite Hout. eexists; split; reflexivity.
  - intros. unfold service.AddProduct, repository.AddProduct, insert_product.
    rewrite Hout. now split.
  - intros productID. unfold service.GetProduct. rewrite Hget.
    eexists; split; reflexivity.
  - intros userID.
    unfold service.GetProductsByOwner, repository.GetProductsByUserID,
      select_products_by_user_id.
    now rewrite Hout.
  - intros. unfold service.UpdateProduct. rewrite Hget.
    split; [eexists; split; reflexivity | reflexivity].
  - intros. unfold service.DeleteProduct. rewrite Hget.
    split; [eexists; split; reflexivity | reflexivity].
Qed.

Lemma outage_fails_every_operation_witness :
  @service.LoginUser sampleBcrypt sampleHMAC sampleJWT downDB 50%Z 50%Z 50%Z
     (mkLoginRequest "alice@example.com" "wonderland")
  = Err "invalid credentials"
  /\ failsWith (service.GetProduct downDB 1%N) NotFound.
Proof.
  destruct (outage_fails_every_operation sampleBcrypt sampleHMAC downDB
              "connection refused" eq_refl)
    as [_ [Hlogin [_ [_ [Hget _]]]]].
  split; [apply Hlogin | apply Hget].
Defined.

(** X13: on a reachable store that satisfies the schema, [UpdateProduct] by
    the owner with a patch price that is not zero and at most zero fails,
    with a message of no named kind, and returns the store as it was. *)
Theorem UpdateProduct_refuses_negative_price :
  forall db now p patch,
    wf db = true ->
    outage db = None ->
    In p (products db) ->
    PrimFloat.eqb (upd_Price patch) 0 = false ->
    PrimFloat.leb (upd_Price patch) 0 = true ->
    failsWith
      (snd (service.UpdateProduct db now (Product_ID p) (UserID p) patch))
      Unclassified
    /\ fst (service.UpdateProduct db now (Product_ID p) (UserID p) patch)
       = db.
Proof.
  intros db now p patch Hwf Hup Hin Hnz Hle.
  unfold service.UpdateProduct.
  rewrite (GetProductByID_stored db p Hwf Hup Hin), N.eqb_refl. cbn [negb].
  unfold repository.UpdateProduct, update_product.
  rewrite Hup, applyPatch_ID.
  destruct (applyPatch_fields p patch) as [_ [_ Fp]].
  rewrite Hnz in Fp. rewrite Fp, (leb_zero_check_price _ Hle).
  rewrite (matched_row_counts (Product_ID p) (products db) p Hin
             (N.eqb_refl _)).
  cbn. split; [eexists; split; reflexivity | reflexivity].
Qed.

Lemma UpdateProduct_refuses_negative_price_witness :
  fst (service.UpdateProduct sampleDB 40%Z (Product_ID widget)
         (UserID widget) (mkUpdateProductRequest "" "" (-1)%float))
  = sampleDB.
Proof.
  apply (UpdateProduct_refuses_negative_price sampleDB 40%Z widget
           (mkUpdateProductRequest "" "" (-1)%float)).
  - reflexivity.
  - reflexivity.
  - left; reflexivity.
  - reflexivity.
  - reflexivity.
Defined.

(** ** What every reachable store satisfies *)

Lemma distinct_same_key {A K} (eqb : K -> K -> bool)
  (eqb_eq : forall a b, eqb a b = true <-> a = b) (key : A -> K)
  (l : list A) x y :
  distinct eqb (map key l) = true ->
  In x l -> In y l -> key x = key y -> x = y.
Proof.
  intros Hd Hx Hy Hk.
  pose proof (find_distinct eqb eqb_eq key l x Hd Hx) as Fx.
  pose proof (find_distinct eqb eqb_eq key l y Hd Hy) as Fy.
  rewrite Hk in Fx. congruence.
Qed.

(** X14: in every store a run of operations builds from the empty one, no
    two accounts share an identifier, an email or a username, and no
    account has identifier 0; no two products share an identifier, no
    product has a price of zero or below, and every product is owned by a
    stored account. *)
Theorem reachable_stores_satisfy_the_schema :
  forall (B : bcrypt.Bcrypt) ops,
    let db := run emptyDB ops in
    (forall u v, In u (users db) -> In v (users db) ->
                 User_ID u = User_ID v \/ Email u = Email v
                 \/ Username u = Username v ->
                 u = v)
    /\ (forall u, In u (users db) -> User_ID u <> 0%N)
    /\ (forall p q, In p (products db) -> In q (products db) ->
                    Product_ID p = Product_ID q -> p = q)
    /\ (forall p, In p (products db) ->
                  PrimFloat.leb (Price p) 0 = false
                  /\ exists u, In u (users db) /\ User_ID u = UserID p).
Proof.
  intros B ops db.
  pose proof (run_wf B ops emptyDB emptyDB_wf) as Hwf. fold db in Hwf.
  pose proof Hwf as Hparts. unfold wf in Hparts.
  rewrite !andb_true_iff in Hparts.
  destruct Hparts as [[[[[[[W1 W2] W3] W4] W5] W6] W7] W8].
  split; [| split; [| split]].
  - intros u v Hu Hv [Hk | [Hk | Hk]].
    + exact (distinct_same_key N.eqb N.eqb_eq User_ID _ u v W1 Hu Hv Hk).
    + exact (distinct_same_key String.eqb String.eqb_eq Email _ u v W3
               Hu Hv Hk).
    + exact (distinct_same_key String.eqb String.eqb_eq Username _ u v W2
               Hu Hv Hk).
  - intros u Hu. pose proof (wf_user_range db u Hwf Hu). lia.
  - intros p q Hp Hq Hk.
    exact (distinct_same_key N.eqb N.eqb_eq Product_ID _ p q W5 Hp Hq Hk).
  - intros p Hp. split.
    + rewrite forallb_forall in W7. specialize (W7 p Hp).
      destruct (PrimFloat.leb (Price p) 0) eqn:Hle; [| reflexivity].
      rewrite (leb_zero_check_price _ Hle) in W7. discriminate.
    + rewrite forallb_forall in W8. specialize (W8 p Hp).
      apply existsb_exists in W8. destruct W8 as [u [Hu Hid]].
      exists u. split; [exact Hu | now apply N.eqb_eq].
Qed.

(** X15: product identifiers are not handed out twice.  In a store that
    satisfies the schema, an identifier the sequence has passed and no
    product carries, such as that of a deleted product, is carried by no
    product of any later store; and a product [AddProduct] creates has an
    identifier above that of every product stored before. *)
Theorem product_identifiers_are_never_reused :
  forall (B : bcrypt.Bcrypt) db,
    wf db = true ->
    (forall ops id,
        (id <= products_id_seq db)%N ->
        (forall p, In p (products db) -> Product_ID p <> id) ->
        forall p', In p' (products (run db ops)) -> Product_ID p' <> id)
    /\ (forall created_at updated_at userID req product,
           snd (service.AddProduct db created_at updated_at userID req)
           = Ok product ->
           forall p, In p (products db) ->
                     (Product_ID p < Product_ID product)%N).
Proof.
  intros B db Hwf. split.
  - intros ops id Hseq Habs p' Hp' Hid.
    destruct (run_products B ops db p' Hp') as [[p [Hp [Hpid _]]] | Hnew].
    + apply (Habs p Hp). congruence.
    + lia.
  - intros created_at updated_at userID req product.
    unfold service.AddProduct, repository.AddProduct, insert_product.
    cbn [Name Description Price UserID].
    destruct (outage db); [discriminate |].
    destruct (existsb _ (products db)); [discriminate |].
    destruct (negb (check_price _)); [discriminate |].
    destruct (negb (existsb _ (users db))); [discriminate |].
    cbn. intros Heq p Hp. inversion Heq; subst product. cbn [Product_ID].
    pose proof (wf_product_range db p Hwf Hp). lia.
Qed.

Lemma product_identifiers_are_never_reused_witness :
  Forall (fun p' => Product_ID p' <> 1%N)
         (products
            (@run sampleBcrypt afterDeleteDB
               [OpAddProduct 40%Z 40%Z 2%N sampleAddWidget])).
Proof.
  destruct (product_identifiers_are_never_reused sampleBcrypt afterDeleteDB
              eq_refl) as [Hnever _].
  apply Forall_forall.
  apply (Hnever [OpAddProduct 40%Z 40%Z 2%N sampleAddWidget] 1%N).
  - vm_compute; discriminate.
  - intros p [].
Defined.

Lemma step_users_prefix (B : bcrypt.Bcrypt) db op :
  exists l, users (step db op) = (users db ++ l)%list.
Proof.
  assert (Hsame : forall db', users db' = users db ->
                              exists l, users db' = (users db ++ l)%list).
  { intros db' ->. exists []. now rewrite app_nil_r. }
  destruct op; cbn [step]; try (now apply Hsame).
  - destruct (RegisterUser_store B db salt created_at updated_at req)
      as [-> | [password ->]]; [now apply Hsame |].
    unfold insert_user.
    destruct (outage db); [now apply Hsame |].
    destruct (existsb _ (users db)); [now apply Hsame |].
    destruct (existsb _ (users db)); [now apply Hsame |].
    destruct (existsb _ (users db)); [now apply Hsame |].
    cbn. eexists; reflexivity.
  - apply Hsame. now rewrite AddProduct_store, insert_product_users.
  - destruct (UpdateProduct_store db now productID userID req)
      as [-> | [product [_ [_ ->]]]];
      apply Hsame; [reflexivity | apply update_product_users].
  - destruct (DeleteProduct_store db productID userID) as [-> | ->];
      apply Hsame; [reflexivity | apply delete_product_users].
Qed.

(** X16: no operation removes, rewrites or reorders an account: after any
    run the accounts are those stored before, each with the same
    identifier, username, email and password hash, followed by the
    accounts registered since. *)
Theorem accounts_are_only_appended :
  forall (B : bcrypt.Bcrypt) ops db,
    exists added, users (run db ops) = (users db ++ added)%list.
Proof.
  intros B ops. induction ops as [| op ops IH]; intros db.
  - exists []. cbn. now rewrite app_nil_r.
  - cbn [run fold_left].
    destruct (IH (step db op)) as [l2 Hl2].
    destruct (step_users_prefix B db op) as [l1 Hl1].
    exists (l1 ++ l2)%list.
    unfold run in Hl2. rewrite Hl2, Hl1. now rewrite app_assoc.
Qed.

(** ** More on the handlers *)

(** X17: the decimal form [LoginUser] gives an account identifier in the
    token, and a client gives a product identifier in the path, is read
    back by the handlers as the same identifier, for every identifier of
    64 bits. *)
Theorem handlers_read_back_decimal_identifiers :
  forall c n,
    (n <= strconv.maxUint64)%N ->
    handler.contextUserID
      (gin.Set_userID c (gin.anyString (fmt.Sprintf_d n))) = inr n
    /\ (gin.Param_id c = fmt.Sprintf_d n -> handler.paramProductID c = inr n).
Proof.
  intros c n Hn. split.
  - unfold handler.contextUserID. cbn [gin.Keys_userID gin.Set_userID].
    now rewrite (ParseUint_Sprintf_d n Hn).
  - intros Hp. apply paramProductID_ok. rewrite Hp.
    now apply ParseUint_Sprintf_d.
Qed.

Lemma handlers_read_back_decimal_identifiers_witness :
  handler.contextUserID
    (gin.Set_userID (bearer "alice.token" "1")
                    (gin.anyString (fmt.Sprintf_d 18446744073709551615%N)))
  = inr 18446744073709551615%N.
Proof.
  apply (handlers_read_back_decimal_identifiers (bearer "alice.token" "1")
           18446744073709551615%N).
  vm_compute; discriminate.
Defined.

(** X18: a request whose path parameter is empty or holds a byte that is not
    a decimal digit (a sign, a space, a letter, a point) is answered 400 by
    [GetProduct], [UpdateProduct] and [DeleteProduct], whatever the caller
    and the body, and the store is returned as it was. *)
Theorem malformed_product_id_is_a_bad_request :
  forall db now c bind,
    gin.Param_id c = "" \/ hasNonDigit (gin.Param_id c) = true ->
    gin.Status (handler.GetProduct db c) = http.StatusBadRequest
    /\ gin.Status (snd (handler.UpdateProduct db now c bind))
       = http.StatusBadRequest
    /\ fst (handler.UpdateProduct db now c bind) = db
    /\ gin.Status (snd (handler.DeleteProduct db c)) = http.StatusBadRequest
    /\ fst (handler.DeleteProduct db c) = db.
Proof.
  intros db now c bind Hbad.
  assert (Hp : exists response,
             handler.paramProductID c = inl response
             /\ gin.Status response = http.StatusBadRequest).
  { unfold handler.paramProductID.
    destruct (String.eqb (gin.Param_id c) ""); [now eexists |].
    destruct (proj1 (ParseUint_cases (gin.Param_id c)) Hbad) as [e ->].
    now eexists. }
  destruct Hp as [response [Hp Hs]].
  unfold handler.GetProduct, handler.UpdateProduct, handler.DeleteProduct.
  rewrite Hp. cbn [fst snd]. repeat split; exact Hs.
Qed.

Lemma malformed_product_id_is_a_bad_request_witness :
  gin.Status (handler.GetProduct sampleDB (bearer "alice.token" "-1"))
  = http.StatusBadRequest.
Proof.
  apply (malformed_product_id_is_a_bad_request sampleDB 40%Z
           (bearer "alice.token" "-1") (Ok samplePricePatch)).
  right; reflexivity.
Defined.

(** X19: on a reachable store that satisfies the schema, a
    [POST /products] request that presents a valid token whose subject is
    the decimal form of a stored account, with a bound request whose price
    is above zero, is answered 201, and the product it stores is owned by
    that account. *)
Theorem created_product_is_owned_by_the_token_subject :
  forall (B : bcrypt.Bcrypt) (H : jwt.HMAC auth.Claims)
         (R : middleware.TokenReader) jm env db s claims c req u,
    wf db = true ->
    outage db = None ->
    In u (users db) ->
    (User_ID u <= strconv.maxUint64)%N ->
    gin.Authorization c = "Bearer " ++ s ->
    hasSpace s = false ->
    auth.ValidateToken jm (router.authNow env) (middleware.readToken s)
      = Ok claims ->
    auth.UserID claims = fmt.Sprintf_d (User_ID u) ->
    PrimFloat.ltb 0 (add_Price req) = true ->
    let id := N.succ (products_id_seq db) in
    snd (router.serve jm env db (router.POST_products (Ok req)) c)
    = gin.mkResponse http.StatusCreated
        (gin.J_product
           (mkProduct id zeroTime zeroTime (add_Name req)
                      (add_Description req) (add_Price req) (User_ID u)))
    /\ products (fst (router.serve jm env db (router.POST_products (Ok req))
                                   c))
       = (products db
          ++ [mkProduct id (router.now1 env) (router.now2 env)
                        (add_Name req) (add_Description req) (add_Price req)
                        (User_ID u)])%list.
Proof.
  intros B H R jm env db s claims c req u
         Hwf Hup Hin Hid Hh Hsp Hval Hclaim Hprice id. subst id.
  unfold router.serve. cbn [router.authenticated].
  rewrite (AuthMiddleware_bearer H R jm _ c s Hh Hsp), Hval, Hclaim.
  unfold router.dispatch, handler.AddProduct.
  rewrite (contextUserID_subject c _ Hid).
  rewrite (AddProduct_created db _ _ (User_ID u) req Hwf Hup
             (ex_intro _ u (conj Hin eq_refl)) Hprice).
  split; reflexivity.
Qed.

Lemma created_product_is_owned_by_the_token_subject_witness :
  snd (@router.serve sampleBcrypt sampleHMAC sampleReader sampleJWT sampleEnv
         accountsDB (router.POST_products (Ok sampleAddWidget))
         (bearer "bob.token" ""))
  = gin.mkResponse http.StatusCreated
      (gin.J_product
         (mkProduct 1%N zeroTime zeroTime "widget" "" 9.99%float 2%N)).
Proof.
  apply (created_product_is_owned_by_the_token_subject sampleBcrypt
           sampleHMAC sampleReader sampleJWT sampleEnv accountsDB "bob.token"
           bobClaims (bearer "bob.token" "") sampleAddWidget bob).
  - reflexivity.
  - reflexivity.
  - right; left; reflexivity.
  - vm_compute; discriminate.
  - reflexivity.
  - reflexivity.
  - reflexivity.
  - reflexivity.
  - reflexivity.
Defined.

Lemma existsb_hasUsername db name :
  (exists u, In u (users db) /\ Username u = name) ->
  existsb (hasUsername name) (users db) = true.
Proof.
  intros [u [Hin Hn]]. apply existsb_exists. exists u.
  split; [exact Hin | now apply String.eqb_eq].
Qed.

(** X20: on a reachable store that satisfies the schema, [Register] answers
    409 with the message of the service when the email is taken, and the
    store is returned as it was; it answers 500 "Failed to register user"
    when the email is fresh and the username is taken, and then no account
    is added; it answers 400 with the binding error when the body does not
    bind. *)
Theorem Register_handler_statuses :
  forall (B : bcrypt.Bcrypt) db salt created_at updated_at,
    wf db = true ->
    outage db = None ->
    (forall req,
        (exists u, In u (users db) /\ Email u = reg_Email req) ->
        handler.Register db salt created_at updated_at (Ok req)
        = (db, gin.mkResponse http.StatusConflict
                 (gin.H_error "user with this email already exists")))
    /\ (forall req hash,
        (forall u, In u (users db) -> Email u <> reg_Email req) ->
        (exists u, In u (users db) /\ Username u = reg_Username req) ->
        bcrypt.GenerateFromPassword salt (reg_Password req)
                                    bcrypt.DefaultCost = Ok hash ->
        snd (handler.Register db salt created_at updated_at (Ok req))
        = gin.mkResponse http.StatusInternalServerError
            (gin.H_error "Failed to register user")
        /\ users (fst (handler.Register db salt created_at updated_at
                                        (Ok req)))
           = users db)
    /\ (forall err,
        handler.Register db salt created_at updated_at (Err err)
        = (db, gin.mkResponse http.StatusBadRequest (gin.H_error err))).
Proof.
  intros B db salt created_at updated_at Hwf Hup.
  split; [| split].
  - intros req [u [Hin Hemail]]. unfold handler.Register, service.RegisterUser.
    rewrite <- Hemail, (GetUserByEmail_stored db u Hwf Hup Hin). reflexivity.
  - intros req hash Hfresh Hname Hhash.
    unfold handler.Register, service.RegisterUser.
    destruct (GetUserByEmail_absent db _ Hfresh) as [err ->].
    cbn [isOk]. rewrite Hhash.
    unfold repository.CreateUser, insert_user.
    cbn [Username Email Password]. rewrite Hup.
    assert (Hid : existsb (hasUserID (N.succ (users_id_seq db))) (users db)
                  = false).
    { apply (existsb_absent N.eqb N.eqb_eq User_ID).
      intros u Hu. pose proof (wf_user_range db u Hwf Hu). lia. }
    rewrite Hid, (existsb_hasUsername db _ Hname). cbn.
    split; reflexivity.
  - intros err. reflexivity.
Qed.

Lemma Register_handler_statuses_witness :
  @handler.Register sampleBcrypt sampleDB "salt" 40%Z 40%Z
     (Ok (mkRegisterRequest "alicia" "alice@example.com" "looking-glass"))
  = (sampleDB, gin.mkResponse http.StatusConflict
                 (gin.H_error "user with this email already exists"))
  /\ snd (@handler.Register sampleBcrypt sampleDB "salt" 40%Z 40%Z
            (Ok (mkRegisterRequest "alice" "alicia@example.com"
                                   "looking-glass")))
     = gin.mkResponse http.StatusInternalServerError
         (gin.H_error "Failed to register user").
Proof.
  destruct (Register_handler_statuses sampleBcrypt sampleDB "salt" 40%Z 40%Z
              eq_refl eq_refl) as [Hconflict [Hname _]].
  split.
  - apply Hconflict. exists alice. split; [left; reflexivity | reflexivity].
  - refine (proj1 (Hname (mkRegisterRequest "alice" "alicia@example.com"
                                            "looking-glass")
                         "$2a$10$looking-glass" _ _ _)).
    + intros u [<- | [<- | []]]; discriminate.
    + exists alice. split; [left; reflexivity | reflexivity].
    + reflexivity.
Defined.

(** X21: [Login] answers 401 with the body "invalid credentials", and
    nothing else, in each of three cases: no stored account carries the
    email; the store satisfies the schema and bcrypt rejects the password
    against the hash of the account that carries it; the store is
    unreachable, whatever the email and the password. *)
Theorem Login_handler_failures_are_identical :
  forall (B : bcrypt.Bcrypt) (H : jwt.HMAC auth.Claims) jm db
         nowExp nowIat nowNbf req,
    (forall u, In u (users db) -> Email u <> login_Email req)
    \/ (wf db = true
        /\ exists u mismatch,
            In u (users db) /\ Email u = login_Email req
            /\ bcrypt.CompareHashAndPassword (Password u) (login_Password req)
               = Some mismatch)
    \/ outage db <> None ->
    handler.Login jm db nowExp nowIat nowNbf (Ok req)
    = gin.mkResponse http.StatusUnauthorized
        (gin.H_error "invalid credentials").
Proof.
  intros B H jm db nowExp nowIat nowNbf req Hcase.
  unfold handler.Login, service.LoginUser.
  destruct (outage db) as [msg |] eqn:Hup.
  { unfold repository.GetUserByEmail, select_user_by_email.
    rewrite Hup. reflexivity. }
  destruct Hcase as [Habs | [[Hwf [u [mismatch [Hin [Hemail Hbad]]]]] | Hout]].
  - destruct (GetUserByEmail_absent db _ Habs) as [err ->]. reflexivity.
  - rewrite <- Hemail, (GetUserByEmail_stored db u Hwf Hup Hin), Hbad.
    reflexivity.
  - congruence.
Qed.

Lemma Login_handler_failures_are_identical_witness :
  @handler.Login sampleBcrypt sampleHMAC sampleJWT downDB 50%Z 50%Z 50%Z
     (Ok (mkLoginRequest "alice@example.com" "wonderland"))
  = gin.mkResponse http.StatusUnauthorized
      (gin.H_error "invalid credentials").
Proof.
  apply (Login_handler_failures_are_identical sampleBcrypt sampleHMAC
           sampleJWT downDB 50%Z 50%Z 50%Z
           (mkLoginRequest "alice@example.com" "wonderland")).
  right; right. discriminate.
Defined.
